(** * Task tracker: the recurrence and completion-period engine

    A shallow embedding of the ledger-based server: the date helpers,
    [getPeriodStartDate], [isTaskCompleted], [getUserCompletions],
    [cleanupOldCompletions] and the handlers that list tasks, toggle
    today's completion and delete categories and tasks, together with the
    part of the host [Date] object and of the SQL store that this code
    observes.

    Conventions.
    - A [Date] object is modelled by the local day number of its time
      value (days since 1970-01-01, local calendar).  The source reads a
      [Date] only through [getFullYear], [getMonth], [getDate] and
      [getDay], and writes it only through the constructor, [setDate]
      and [setMonth]; none of them observes the time of day.  The range
      check of the host ([TimeClip], about 273 790 years around 1970) is
      not modelled.  The clock, [new Date()], is the parameter [now] of
      every function that reads it.
    - Texts stored in the store or produced by [formatDate] are [string]s
      (sequences of bytes); [<] and [>=] on them are the byte-wise
      lexicographic order, which is what both the host language and the
      store's default collation compute on such texts.
    - Numeric values of the host are integers ([Z]); the only remainder
      operator used by the source truncates towards zero ([Z.rem]).
      Identifiers taken from the request path are integers as well.
    - The store is the in-memory database; [saveDatabase], which writes
      a snapshot of it to disk after every statement, is not modelled. *)

From Stdlib Require Import ZArith List Bool Lia String Ascii.
From Stdlib Require Import Numbers.DecimalString.
Import ListNotations.

Local Open Scope Z_scope.

(** ** The host calendar *)

Module Calendar.

(** Day number of 1 January of year [y] (ECMAScript [DayFromYear]). *)
Definition DayFromYear (y : Z) : Z :=
  365 * (y - 1970) + (y - 1969) / 4 - (y - 1901) / 100 + (y - 1601) / 400.

Definition isLeap (y : Z) : bool :=
  ((y mod 4 =? 0) && negb (y mod 100 =? 0)) || (y mod 400 =? 0).

Definition DaysInYear (y : Z) : Z := if isLeap y then 366 else 365.

(** The year that contains day [d]: the largest [y] with
    [DayFromYear y <= d].  The first guess is off by at most one. *)
Definition YearFromDay (d : Z) : Z :=
  let y0 := 1970 + (400 * d) / 146097 in
  if DayFromYear (y0 + 1) <=? d then y0 + 1
  else if DayFromYear y0 <=? d then y0
  else y0 - 1.

Definition InLeapYear (d : Z) : Z :=
  if isLeap (YearFromDay d) then 1 else 0.

Definition DayWithinYear (d : Z) : Z := d - DayFromYear (YearFromDay d).

(** Number of days of the year before month [m] (0 = January), with
    [leap] 1 in a leap year and 0 otherwise. *)
Definition monthStart (leap m : Z) : Z :=
  match m with
  | 0 => 0
  | 1 => 31
  | 2 => 59 + leap
  | 3 => 90 + leap
  | 4 => 120 + leap
  | 5 => 151 + leap
  | 6 => 181 + leap
  | 7 => 212 + leap
  | 8 => 243 + leap
  | 9 => 273 + leap
  | 10 => 304 + leap
  | 11 => 334 + leap
  | _ => 365 + leap
  end.

(** Month of the [w]-th day (from 0) of a year (ECMAScript [MonthFromTime]). *)
Definition monthOfYearDay (l w : Z) : Z :=
  if w <? 31 then 0
  else if w <? 59 + l then 1
  else if w <? 90 + l then 2
  else if w <? 120 + l then 3
  else if w <? 151 + l then 4
  else if w <? 181 + l then 5
  else if w <? 212 + l then 6
  else if w <? 243 + l then 7
  else if w <? 273 + l then 8
  else if w <? 304 + l then 9
  else if w <? 334 + l then 10
  else 11.

Definition MonthFromDay (d : Z) : Z :=
  monthOfYearDay (InLeapYear d) (DayWithinYear d).

Definition DateFromDay (d : Z) : Z :=
  DayWithinYear d - monthStart (InLeapYear d) (MonthFromDay d) + 1.

Definition WeekDay (d : Z) : Z := (d + 4) mod 7.

(** ECMAScript [MakeDay]: the month may lie outside 0..11 and the date
    outside the month; both are carried over. *)
Definition MakeDay (year month date : Z) : Z :=
  let ym := year + month / 12 in
  let mn := month mod 12 in
  DayFromYear ym + monthStart (if isLeap ym then 1 else 0) mn + date - 1.

End Calendar.

Import Calendar.

(** Length of month [m] (0..11) of a year with leap indicator [leap]. *)
Definition DaysInMonth (leap m : Z) : Z := monthStart leap (m + 1) - monthStart leap m.

(** Length of the month that [MakeDay y m _] falls back on. *)
Definition monthLength (y m : Z) : Z :=
  DaysInMonth (if isLeap (y + m / 12) then 1 else 0) (m mod 12).

(** ** The [Date] object and the text helpers of the host *)

Module JS.

Definition Date := Z.

Definition getFullYear (t : Date) : Z := YearFromDay t.
Definition getMonth (t : Date) : Z := MonthFromDay t.
Definition getDate (t : Date) : Z := DateFromDay t.
Definition getDay (t : Date) : Z := WeekDay t.

(** [new Date(year, month, date)]: a year in 0..99 stands for 1900 + year. *)
Definition new_Date (year month date : Z) : Date :=
  let yr := if (0 <=? year) && (year <=? 99) then 1900 + year else year in
  MakeDay yr month date.

(** [t.setDate(date)] and [t.setMonth(month)], as the new value of [t]. *)
Definition setDate (t : Date) (date : Z) : Date :=
  MakeDay (YearFromDay t) (MonthFromDay t) date.

Definition setMonth (t : Date) (month : Z) : Date :=
  MakeDay (YearFromDay t) month (DateFromDay t).

(** [String(n)] for an integer [n]. *)
Definition Number_toString (n : Z) : string :=
  NilZero.string_of_int (Z.to_int n).

Fixpoint repeat_char (c : ascii) (n : nat) : string :=
  match n with
  | O => EmptyString
  | S k => String c (repeat_char c k)
  end.

(** [s.padStart(targetLength, c)] for a filler of one character. *)
Definition padStart (s : string) (targetLength : nat) (c : ascii) : string :=
  (repeat_char c (targetLength - String.length s) ++ s)%string.

(** [a >= b] and [a < b] on texts. *)
Definition string_lt (a b : string) : bool := String.ltb a b.
Definition string_ge (a b : string) : bool := negb (String.ltb a b).

(** [a ?? b] *)
Definition nullish {A : Type} (a : option A) (b : A) : A :=
  match a with
  | Some v => v
  | None => b
  end.

(** [a % b] *)
Definition remainder (a b : Z) : Z := Z.rem a b.

End JS.

Import JS.

(** ** Rows of the store *)

Record Category := mkCategory {
  cat_id : Z;
  cat_user_id : string;
  cat_name : string
}.

Record Task := mkTask {
  id : Z;
  user_id : string;
  title : string;
  frequency : string;
  category_id : Z;
  reset_day : option Z;
  created_at : string
}.

(** A row of [task_completions], without the row id and the creation
    stamp, which no statement of the server reads. *)
Record Completion := mkCompletion {
  task_id : Z;
  completed_date : string
}.

(** ** Date helpers of the server *)

Definition COMPLETION_HISTORY_MONTHS : Z := 3.

Definition formatDate (date : Date) : string :=
  let year := getFullYear date in
  let month := padStart (Number_toString (getMonth date + 1)) 2 "0" in
  let day := padStart (Number_toString (getDate date)) 2 "0" in
  (Number_toString year ++ "-" ++ month ++ "-" ++ day)%string.

(** [now] stands for the value of [new Date()] at the call. *)
Definition getTodayDate (now : Date) : string := formatDate now.

(** The local variable [date] of [getCompletionCutoffDate], after
    [setMonth]. *)
Definition completionCutoffDay (now : Date) : Date :=
  let date := now in
  setMonth date (getMonth date - COMPLETION_HISTORY_MONTHS).

Definition getCompletionCutoffDate (now : Date) : string :=
  formatDate (completionCutoffDay now).

(** The local variable [today] of [getPeriodStartDate]. *)
Definition todayOf (now : Date) : Date :=
  new_Date (getFullYear now) (getMonth now) (getDate now).

(** The local variable [periodStart] of the weekly branch. *)
Definition weeklyPeriodStart (today : Date) (task : Task) : Date :=
  let resetDay := nullish (reset_day task) 0 in
  let currentDay := getDay today in
  let daysSinceReset := remainder (currentDay - resetDay + 7) 7 in
  let periodStart := today in
  setDate periodStart (getDate periodStart - daysSinceReset).

(** The local variable [periodStart] of the monthly branch. *)
Definition monthlyPeriodStart (today : Date) (task : Task) : Date :=
  let resetDay := nullish (reset_day task) 1 in
  if getDate today >=? resetDay
  then new_Date (getFullYear today) (getMonth today) resetDay
  else new_Date (getFullYear today) (getMonth today - 1) resetDay.

Definition getPeriodStartDate (now : Date) (task : Task) : string :=
  let today := todayOf now in
  if (frequency task =? "daily")%string then formatDate today
  else if (frequency task =? "weekly")%string then
    formatDate (weeklyPeriodStart today task)
  else if (frequency task =? "monthly")%string then
    formatDate (monthlyPeriodStart today task)
  else if (frequency task =? "one-time")%string then "1970-01-01"%string
  else formatDate today.

Definition isTaskCompleted (now : Date) (task : Task)
    (completions : list Completion) : bool :=
  let periodStart := getPeriodStartDate now task in
  existsb (fun c => (task_id c =? id task)
                    && string_ge (completed_date c) periodStart) completions.

Definition wasCompletedOnDate (taskId : Z) (date : string)
    (completions : list Completion) : bool :=
  existsb (fun c => (task_id c =? taskId)
                    && (completed_date c =? date)%string) completions.


(** ** The store

    The three tables as lists of rows, and the setting of the connection
    that decides whether the [FOREIGN KEY ... ON DELETE CASCADE] clauses
    of the schema are acted upon.  The engine is SQLite: on every new
    connection foreign-key enforcement is off until the statement
    [PRAGMA foreign_keys = ON] is run. *)

Record Database := mkDatabase {
  pragma_foreign_keys : bool;
  categories : list Category;
  tasks : list Task;
  task_completions : list Completion
}.

(** [new SQL.Database(...)], the only way the server obtains its handle.
    The source contains no [PRAGMA foreign_keys] statement, so the
    setting keeps this value for the life of the process. *)
Definition SQL_Database (cs : list Category) (ts : list Task)
    (tcs : list Completion) : Database :=
  mkDatabase false cs ts tcs.

Definition with_categories (db : Database) (cs : list Category) : Database :=
  mkDatabase (pragma_foreign_keys db) cs (tasks db) (task_completions db).

Definition with_tasks (db : Database) (ts : list Task) : Database :=
  mkDatabase (pragma_foreign_keys db) (categories db) ts (task_completions db).

Definition with_task_completions (db : Database) (tcs : list Completion) : Database :=
  mkDatabase (pragma_foreign_keys db) (categories db) (tasks db) tcs.

(** Outcome of a statement that can be refused. *)
Inductive SqlResult :=
| Done (db : Database)
| SqlError (message : string).

(** [DELETE FROM task_completions WHERE <cond>] *)
Definition delete_from_task_completions (cond : Completion -> bool)
    (db : Database) : Database :=
  with_task_completions db
    (filter (fun c => negb (cond c)) (task_completions db)).

(** [DELETE FROM tasks WHERE <cond>]; under enforcement the completions
    that reference a deleted task go with it. *)
Definition delete_from_tasks (cond : Task -> bool) (db : Database) : Database :=
  let deleted := filter cond (tasks db) in
  let db1 := with_tasks db (filter (fun t => negb (cond t)) (tasks db)) in
  if pragma_foreign_keys db
  then delete_from_task_completions
         (fun c => existsb (fun t => id t =? task_id c) deleted) db1
  else db1.

(** [DELETE FROM categories WHERE <cond>]; under enforcement the tasks
    that reference a deleted category go with it. *)
Definition delete_from_categories (cond : Category -> bool)
    (db : Database) : Database :=
  let deleted := filter cond (categories db) in
  let db1 := with_categories db
               (filter (fun c => negb (cond c)) (categories db)) in
  if pragma_foreign_keys db
  then delete_from_tasks
         (fun t => existsb (fun c => cat_id c =? category_id t) deleted) db1
  else db1.

(** The condition [task_id = ? AND completed_date = ?]. *)
Definition is_fact (taskId : Z) (date : string) (c : Completion) : bool :=
  (task_id c =? taskId) && (completed_date c =? date)%string.

(** [DELETE FROM task_completions WHERE task_id = ? AND completed_date = ?] *)
Definition delete_completion (taskId : Z) (date : string)
    (db : Database) : Database :=
  delete_from_task_completions (is_fact taskId date) db.

(** [INSERT OR IGNORE INTO task_completions (task_id, completed_date)
    VALUES (?, ?)].  A clash with [UNIQUE(task_id, completed_date)] skips
    the row; a missing parent task is refused, under enforcement only. *)
Definition insert_or_ignore_completion (taskId : Z) (date : string)
    (db : Database) : SqlResult :=
  if existsb (is_fact taskId date) (task_completions db)
  then Done db
  else if pragma_foreign_keys db
          && negb (existsb (fun t => id t =? taskId) (tasks db))
  then SqlError "FOREIGN KEY constraint failed"
  else Done (with_task_completions db
               (task_completions db ++ [mkCompletion taskId date])).

(** [queryOne]: the first row, or [null]. *)
Definition queryOne {A : Type} (rows : list A) : option A :=
  match rows with
  | [] => None
  | r :: _ => Some r
  end.

(** [ORDER BY], as a stable insertion sort. *)
Fixpoint insert_by {A : Type} (le : A -> A -> bool) (x : A) (l : list A) : list A :=
  match l with
  | [] => [x]
  | y :: l' => if le x y then x :: l else y :: insert_by le x l'
  end.

Definition order_by {A : Type} (le : A -> A -> bool) (l : list A) : list A :=
  fold_right (insert_by le) [] l.

(** ** The server *)

Definition cleanupOldCompletions (now : Date) (db : Database) : Database :=
  let cutoffDate := getCompletionCutoffDate now in
  delete_from_task_completions
    (fun c => string_lt (completed_date c) cutoffDate) db.

(** [getUserCompletions(userId, startDate)]; an absent or empty
    [startDate] falls back on the retention cut-off. *)
Definition getUserCompletions (now : Date) (db : Database) (userId : string)
    (startDate : option string) : list Completion :=
  let cutoff :=
    match startDate with
    | Some s => if (s =? "")%string then getCompletionCutoffDate now else s
    | None => getCompletionCutoffDate now
    end in
  flat_map
    (fun tc =>
       map (fun _ => mkCompletion (task_id tc) (completed_date tc))
           (filter (fun t => (task_id tc =? id t)
                             && (user_id t =? userId)%string
                             && string_ge (completed_date tc) cutoff)
                   (tasks db)))
    (task_completions db).

(** [queryOne('SELECT * FROM tasks WHERE id = ? AND user_id = ?')] *)
Definition select_task (userId : string) (tid : Z) (db : Database) : option Task :=
  queryOne (filter (fun t => (id t =? tid) && (user_id t =? userId)%string)
                   (tasks db)).

(** [queryOne('SELECT * FROM categories WHERE id = ? AND user_id = ?')] *)
Definition select_category (userId : string) (cid : Z) (db : Database)
    : option Category :=
  queryOne (filter (fun c => (cat_id c =? cid)
                             && (cat_user_id c =? userId)%string)
                   (categories db)).

(** What a handler sends back. *)
Inductive Response (A : Type) :=
| Json (body : A)
| Status (code : Z) (error : string).

Arguments Json {A} body.
Arguments Status {A} code error.

(** [DELETE /api/categories/:id] *)
Definition deleteCategory (userId : string) (cid : Z) (db : Database)
    : Response bool * Database :=
  match select_category userId cid db with
  | None => (Status 404 "Category not found", db)
  | Some _ =>
      let db1 := delete_from_tasks
                   (fun t => (category_id t =? cid)
                             && (user_id t =? userId)%string) db in
      let db2 := delete_from_categories
                   (fun c => (cat_id c =? cid)
                             && (cat_user_id c =? userId)%string) db1 in
      (Json true, db2)
  end.

(** A task row joined with the name of its category. *)
Definition TaskRow := (Task * string)%type.

Definition join_categories (db : Database) (ts : list Task) : list TaskRow :=
  flat_map (fun t => map (fun c => (t, cat_name c))
                         (filter (fun c => category_id t =? cat_id c)
                                 (categories db))) ts.

Definition by_created_desc (a b : TaskRow) : bool :=
  string_ge (created_at (fst a)) (created_at (fst b)).

Definition by_name_then_created_desc (a b : TaskRow) : bool :=
  if string_lt (snd a) (snd b) then true
  else if string_lt (snd b) (snd a) then false
  else by_created_desc a b.

(** [GET /api/tasks]: the rows with their computed [completed] field
    (the value [tasksWithStatus] of the handler). *)
Definition getTasks (now : Date) (userId : string) (categoryId : option Z)
    (db : Database) : list (TaskRow * Z) :=
  let rows :=
    match categoryId with
    | Some cid =>
        order_by by_created_desc
          (join_categories db
             (filter (fun t => (user_id t =? userId)%string
                               && (category_id t =? cid)) (tasks db)))
    | None =>
        order_by by_name_then_created_desc
          (join_categories db
             (filter (fun t => (user_id t =? userId)%string) (tasks db)))
    end in
  let completions := getUserCompletions now db userId None in
  map (fun row =>
         (row, if isTaskCompleted now (fst row) completions then 1 else 0))
      rows.

(** [PATCH /api/tasks/:id/toggle]; a statement that is refused ends the
    request with status 500. *)
Definition toggleTask (now : Date) (userId : string) (tid : Z) (db : Database)
    : Response (Task * Z) * Database :=
  match select_task userId tid db with
  | None => (Status 404 "Task not found", db)
  | Some task =>
      let today := getTodayDate now in
      let existingCompletion :=
        queryOne (filter (is_fact tid today) (task_completions db)) in
      let written :=
        match existingCompletion with
        | Some _ => Done (delete_completion tid today db)
        | None => insert_or_ignore_completion tid today db
        end in
      match written with
      | SqlError message => (Status 500 message, db)
      | Done db' =>
          let completions := getUserCompletions now db' userId None in
          let completed :=
            if isTaskCompleted now task completions then 1 else 0 in
          (Json (task, completed), db')
      end
  end.

(** [DELETE /api/tasks/:id] *)
Definition deleteTask (userId : string) (tid : Z) (db : Database)
    : Response bool * Database :=
  match select_task userId tid db with
  | None => (Status 404 "Task not found", db)
  | Some _ =>
      (Json true,
       delete_from_tasks (fun t => (id t =? tid)
                                   && (user_id t =? userId)%string) db)
  end.

(** The spec's [nextPeriodStart] of a monthly task: the following
    occurrence of day [R], in the month after the one of [periodStart].
    The source computes no such value; it is stated here to express that
    [today] lies inside the period. *)
Definition nextPeriodStart (periodStart : Date) (R : Z) : Date :=
  MakeDay (getFullYear periodStart) (getMonth periodStart + 1) R.

(** A handler's view of one task: what [isTaskCompleted] answers on the
    facts that [getUserCompletions] fetches for the task's owner. *)
Definition derivedStatus (now : Date) (userId : string) (task : Task)
    (db : Database) : bool :=
  isTaskCompleted now task (getUserCompletions now db userId None).

(** ** Auxiliary notions of the proofs *)

(** The decimal digit [i] as a character. *)
Definition digit (i : Z) : ascii := ascii_of_N (Z.to_N (48 + i)).

(** A number below 10000 written with four digits, and a number below
    100 written with two. *)
Definition fixed4 (n : Z) : string :=
  String (digit (n / 1000)) (String (digit (n / 100 mod 10))
    (String (digit (n / 10 mod 10)) (String (digit (n mod 10)) EmptyString))).

Definition fixed2 (n : Z) : string :=
  String (digit (n / 10)) (String (digit (n mod 10)) EmptyString).

(** The integers from [lo], [n] of them. *)
Definition Zrange (lo n : Z) : list Z :=
  map (fun k => lo + Z.of_nat k) (seq 0 (Z.to_nat n)).

(** Lexicographic combination of two comparisons. *)
Definition lex (c1 c2 : comparison) : comparison :=
  match c1 with
  | Eq => c2
  | _ => c1
  end.

(** A date read as the number YYYYMMDD, and its month counted from
    January of year 0. *)
Definition dateCode (d : Date) : Z :=
  (getFullYear d * 100 + (getMonth d + 1)) * 100 + JS.getDate d.

Definition monthIndex (d : Date) : Z := 12 * getFullYear d + getMonth d.

(** First day of the month with index [k]. *)
Definition firstOfMonth (k : Z) : Date := MakeDay 0 k 1.

(** The years for which [formatDate] writes four digits. *)
Definition fourDigitYear (d : Date) : Prop := 1000 <= getFullYear d <= 9999.

(** ** Data of the scenarios *)

Definition day_2024_06_15 : Date := MakeDay 2024 5 15.
Definition day_2023_03_01 : Date := MakeDay 2023 2 1.
Definition day_2024_01_10 : Date := MakeDay 2024 0 10.

Definition chores : Category := mkCategory 1 "u" "Chores".

Definition daily_task : Task :=
  mkTask 1 "u" "feed the cat" "daily" 1 None "2024-01-01 08:00:00".

Definition weekly_task_sunday : Task :=
  mkTask 1 "u" "water the plants" "weekly" 1 (Some 0) "2024-01-01 08:00:00".

Definition monthly_task_10 : Task :=
  mkTask 1 "u" "pay the rent" "monthly" 1 (Some 10) "2024-01-01 08:00:00".

Definition monthly_task_30 : Task :=
  mkTask 1 "u" "pay the rent" "monthly" 1 (Some 30) "2023-01-01 08:00:00".

(** The store of the scenarios: one category of user [u] with one task,
    opened the way the server opens it. *)
Definition store_with (task : Task) (facts : list Completion) : Database :=
  SQL_Database [chores] [task] facts.

Definition one_time_task : Task :=
  mkTask 1 "u" "renew the passport" "one-time" 1 None "2024-01-01 08:00:00".

(** A ledger with two facts of task 1 and one fact of task 2. *)
Definition store_three_facts : Database :=
  SQL_Database [chores]
    [daily_task;
     mkTask 2 "u" "walk the dog" "daily" 1 None "2024-01-02 08:00:00"]
    [mkCompletion 1 "2024-06-14"; mkCompletion 1 "2024-06-15";
     mkCompletion 2 "2024-06-15"].

From Stdlib Require Import Sorting.Permutation Sorting.Sorted.

(** ** The other handlers

    The handlers below create and edit rows.  Two values come from the
    engine and are parameters of the model: [rowid], the row id that
    [AUTOINCREMENT] assigns to the new row (reported back through
    [last_insert_rowid()]), and [stamp], the text of [CURRENT_TIMESTAMP].
    A request body is read field by field; a field is absent, [null], or
    a value of the type the handler expects. *)

Inductive Field (A : Type) :=
| Undefined
| Null
| Value (v : A).

Arguments Undefined {A}.
Arguments Null {A}.
Arguments Value {A} v.

(** The fields that the task handlers read from [req.body]. *)
Record TaskBody := mkTaskBody {
  body_title : Field string;
  body_frequency : Field string;
  body_category_id : Field Z;
  body_reset_day : Field Z
}.

(** [!x] for a text field and for a numeric field. *)
Definition falsy_text (x : Field string) : bool :=
  match x with
  | Value v => (v =? "")%string
  | _ => true
  end.

Definition falsy_number (x : Field Z) : bool :=
  match x with
  | Value v => v =? 0
  | _ => true
  end.

(** [x !== undefined] *)
Definition provided {A : Type} (x : Field A) : bool :=
  match x with
  | Undefined => false
  | _ => true
  end.

(** [message.includes(part)] *)
Definition includes (message part : string) : bool :=
  match String.index 0 part message with
  | Some _ => true
  | None => false
  end.

(** The condition of [CHECK(frequency IN ('daily', 'weekly', 'monthly',
    'one-time'))]. *)
Definition check_frequency (f : string) : bool :=
  (f =? "daily")%string || (f =? "weekly")%string
  || (f =? "monthly")%string || (f =? "one-time")%string.

(** [SELECT * FROM categories WHERE user_id = ? ORDER BY name] *)
Definition by_name (a b : Category) : bool :=
  string_ge (cat_name b) (cat_name a).

(** [GET /api/categories] *)
Definition getCategories (userId : string) (db : Database) : list Category :=
  order_by by_name
    (filter (fun c => (cat_user_id c =? userId)%string) (categories db)).

(** [INSERT INTO categories (user_id, name) VALUES (?, ?)]: refused on a
    clash with [UNIQUE(user_id, name)] or with the primary key. *)
Definition insert_category (rowid : Z) (userId name : string)
    (db : Database) : SqlResult :=
  if existsb (fun c => (cat_user_id c =? userId)%string
                       && (cat_name c =? name)%string) (categories db)
  then SqlError "UNIQUE constraint failed: categories.user_id, categories.name"
  else if existsb (fun c => cat_id c =? rowid) (categories db)
  then SqlError "UNIQUE constraint failed: categories.id"
  else Done (with_categories db
               (categories db ++ [mkCategory rowid userId name])).

(** [POST /api/categories] *)
Definition addCategory (rowid : Z) (userId : string) (name : Field string)
    (db : Database) : Response (Z * string) * Database :=
  if falsy_text name then (Status 400 "Name is required", db)
  else
    match name with
    | Value n =>
        match insert_category rowid userId n db with
        | Done db' => (Json (rowid, n), db')
        | SqlError message =>
            if includes message "UNIQUE constraint"
            then (Status 400 "Category already exists", db)
            else (Status 500 message, db)
        end
    | _ => (Status 400 "Name is required", db)
    end.

(** [INSERT INTO tasks (user_id, title, frequency, category_id,
    reset_day) VALUES (?, ?, ?, ?, ?)]: refused when the frequency fails
    the [CHECK], on a clash with the primary key and, under enforcement,
    when the category does not exist. *)
Definition insert_task (rowid : Z) (stamp userId ttl freq : string)
    (categoryId : Z) (resetDay : option Z) (db : Database) : SqlResult :=
  if negb (check_frequency freq)
  then SqlError "CHECK constraint failed: frequency"
  else if existsb (fun t => id t =? rowid) (tasks db)
  then SqlError "UNIQUE constraint failed: tasks.id"
  else if pragma_foreign_keys db
          && negb (existsb (fun c => cat_id c =? categoryId) (categories db))
  then SqlError "FOREIGN KEY constraint failed"
  else Done (with_tasks db
               (tasks db ++ [mkTask rowid userId ttl freq categoryId
                               resetDay stamp])).

(** [SELECT tasks.*, categories.name as category_name FROM tasks JOIN
    categories ON tasks.category_id = categories.id WHERE tasks.id = ?] *)
Definition select_task_row (tid : Z) (db : Database) : option TaskRow :=
  queryOne (join_categories db (filter (fun t => id t =? tid) (tasks db))).

(** The variable [finalResetDay] of [POST /api/tasks]. *)
Definition finalResetDay (freq : string) (resetDay : Field Z) : option Z :=
  match resetDay with
  | Value v => Some v
  | _ =>
      if (freq =? "weekly")%string then Some 0
      else if (freq =? "monthly")%string then Some 1
      else None
  end.

(** [POST /api/tasks]; the body of the answer is the joined row, when
    there is one, with [completed: 0]. *)
Definition addTask (rowid : Z) (stamp : string) (userId : string)
    (body : TaskBody) (db : Database)
    : Response (option TaskRow * Z) * Database :=
  if falsy_text (body_title body) || falsy_text (body_frequency body)
     || falsy_number (body_category_id body)
  then (Status 400 "Title, frequency, and category_id are required", db)
  else
    match body_title body, body_frequency body, body_category_id body with
    | Value ttl, Value freq, Value cid =>
        match select_category userId cid db with
        | None => (Status 404 "Category not found", db)
        | Some _ =>
            match insert_task rowid stamp userId ttl freq cid
                    (finalResetDay freq (body_reset_day body)) db with
            | SqlError message => (Status 500 message, db)
            | Done db' => (Json (select_task_row rowid db', 0), db')
            end
        end
    | _, _, _ =>
        (Status 400 "Title, frequency, and category_id are required", db)
    end.

(** One row under [UPDATE tasks SET ...] with the fields of the body
    that are provided: the new row, or the constraint that refuses it
    ([NOT NULL] on the title and the frequency, the [CHECK] on a
    frequency that is set). *)
Definition set_fields (body : TaskBody) (t : Task) : Task + string :=
  match body_title body, body_frequency body with
  | Null, _ => inr "NOT NULL constraint failed: tasks.title"%string
  | _, Null => inr "NOT NULL constraint failed: tasks.frequency"%string
  | ttl, freq =>
      let new_title := match ttl with Value v => v | _ => title t end in
      let new_frequency := match freq with Value v => v | _ => frequency t end in
      let new_reset_day :=
        match body_reset_day body with
        | Undefined => reset_day t
        | Null => None
        | Value v => Some v
        end in
      if provided freq && negb (check_frequency new_frequency)
      then inr "CHECK constraint failed: frequency"%string
      else inl (mkTask (id t) (user_id t) new_title new_frequency
                       (category_id t) new_reset_day (created_at t))
  end.

(** [UPDATE tasks SET ... WHERE <cond>]: every row under [cond] is
    rewritten, or the statement is refused and nothing changes. *)
Fixpoint update_rows (cond : Task -> bool) (body : TaskBody)
    (rows : list Task) : list Task + string :=
  match rows with
  | [] => inl []
  | t :: rest =>
      if cond t then
        match set_fields body t with
        | inr message => inr message
        | inl t' =>
            match update_rows cond body rest with
            | inr message => inr message
            | inl rest' => inl (t' :: rest')
            end
        end
      else
        match update_rows cond body rest with
        | inr message => inr message
        | inl rest' => inl (t :: rest')
        end
  end.

Definition update_tasks (cond : Task -> bool) (body : TaskBody)
    (db : Database) : SqlResult :=
  match update_rows cond body (tasks db) with
  | inl rows => Done (with_tasks db rows)
  | inr message => SqlError message
  end.

(** [PATCH /api/tasks/:id]; an exception that the handler does not catch
    (a refused statement, or reading a field of the missing joined row)
    ends the request with status 500. *)
Definition editTask (now : Date) (userId : string) (tid : Z)
    (body : TaskBody) (db : Database) : Response (TaskRow * Z) * Database :=
  match select_task userId tid db with
  | None => (Status 404 "Task not found", db)
  | Some _ =>
      if negb (provided (body_title body)) && negb (provided (body_frequency body))
         && negb (provided (body_reset_day body))
      then (Status 400 "No fields to update", db)
      else
        match update_tasks (fun t => (id t =? tid)
                                     && (user_id t =? userId)%string) body db with
        | SqlError message => (Status 500 message, db)
        | Done db' =>
            match select_task_row tid db' with
            | None =>
                (Status 500 "Cannot read properties of null (reading 'frequency')",
                 db')
            | Some updatedTask =>
                let completions := getUserCompletions now db' userId None in
                let completed :=
                  if isTaskCompleted now (fst updatedTask) completions
                  then 1 else 0 in
                (Json (updatedTask, completed), db')
            end
        end
  end.

(** The object [completionMap] of [GET /api/tasks]: for each task id
    met, the dates met for it, in order. *)
Fixpoint push_date (taskId : Z) (date : string)
    (m : list (Z * list string)) : list (Z * list string) :=
  match m with
  | [] => [(taskId, [date])]
  | (k, dates) :: m' =>
      if k =? taskId then (k, dates ++ [date]) :: m'
      else (k, dates) :: push_date taskId date m'
  end.

Definition completionMap (completions : list Completion)
    : list (Z * list string) :=
  fold_left (fun m c => push_date (task_id c) (completed_date c) m)
            completions [].

(** [completionMap[taskId]] *)
Fixpoint lookup (taskId : Z) (m : list (Z * list string)) : option (list string) :=
  match m with
  | [] => None
  | (k, dates) :: m' => if k =? taskId then Some dates else lookup taskId m'
  end.

(** The two shapes of the answer of [GET /api/tasks]. *)
Inductive TasksAnswer :=
| TaskList (tasks : list (TaskRow * Z))
| TasksAndHistory (tasks : list (TaskRow * Z))
                  (completions : list (Z * list string)).

(** [GET /api/tasks] with its query parameters. *)
Definition getTasksAnswer (now : Date) (userId : string)
    (categoryId : option Z) (include_history : option string)
    (db : Database) : TasksAnswer :=
  let tasksWithStatus := getTasks now userId categoryId db in
  match include_history with
  | Some flag =>
      if (flag =? "true")%string
      then TasksAndHistory tasksWithStatus
             (completionMap (getUserCompletions now db userId None))
      else TaskList tasksWithStatus
  | None => TaskList tasksWithStatus
  end.

(** ** Conditions on a store *)

(** At most one row per (task, date): [UNIQUE(task_id, completed_date)]. *)
Definition unique_facts (db : Database) : Prop :=
  NoDup (task_completions db).

(** Task ids are a key: [PRIMARY KEY] of [tasks]. *)
Definition unique_task_ids (db : Database) : Prop :=
  NoDup (map id (tasks db)).

(** Category ids are a key, and names are unique per owner:
    [PRIMARY KEY] and [UNIQUE(user_id, name)] of [categories]. *)
Definition unique_categories (db : Database) : Prop :=
  NoDup (map cat_id (categories db)) /\
  NoDup (map (fun c => (cat_user_id c, cat_name c)) (categories db)).

(** Every task refers to a category of its own owner. *)
Definition tasks_have_category (db : Database) : Prop :=
  forall t, In t (tasks db) ->
    exists c, In c (categories db) /\ cat_id c = category_id t
              /\ cat_user_id c = user_id t.

(** Every stored frequency passes the [CHECK]. *)
Definition checked_frequencies (db : Database) : Prop :=
  forall t, In t (tasks db) -> check_frequency (frequency t) = true.

(** The conditions that the schema states for the three tables. *)
Definition well_formed (db : Database) : Prop :=
  unique_facts db /\ unique_task_ids db /\ unique_categories db /\
  tasks_have_category db /\ checked_frequencies db.

(** Two stores that look the same to user [v]: the same tasks and
    categories of [v], the same categories joined to the tasks of [v],
    and the same fetched facts. *)
Definition same_view (now : Date) (v : string) (db db' : Database) : Prop :=
  filter (fun t => (user_id t =? v)%string) (tasks db')
    = filter (fun t => (user_id t =? v)%string) (tasks db) /\
  filter (fun c => (cat_user_id c =? v)%string) (categories db')
    = filter (fun c => (cat_user_id c =? v)%string) (categories db) /\
  (forall t, user_id t = v -> In t (tasks db) ->
     filter (fun c => category_id t =? cat_id c) (categories db')
     = filter (fun c => category_id t =? cat_id c) (categories db)) /\
  getUserCompletions now db' v None = getUserCompletions now db v None.

(** The lists that user [v] gets are the same on the two stores. *)
Definition unchanged_for (now : Date) (v : string) (categoryId : option Z)
    (db db' : Database) : Prop :=
  getTasks now v categoryId db' = getTasks now v categoryId db /\
  getCategories v db' = getCategories v db.

(** A reset day for which the period calculator needs no carry. *)
Definition regular_reset_day (task : Task) : Prop :=
  (frequency task = "weekly"%string ->
   match reset_day task with Some R => 0 <= R <= 6 | None => True end) /\
  (frequency task = "monthly"%string ->
   match reset_day task with Some R => 1 <= R <= 28 | None => True end).

(** Three task bodies and a second user's task, for the scenarios. *)
Definition body_weekly_no_day : TaskBody :=
  mkTaskBody (Value "mow the lawn"%string) (Value "weekly"%string)
             (Value 1) Undefined.

Definition body_rename : TaskBody :=
  mkTaskBody (Value "feed both cats"%string) Undefined Undefined Undefined.

Definition body_bad_frequency : TaskBody :=
  mkTaskBody Undefined (Value "yearly"%string) Undefined Undefined.

(** A store whose one task refers to a category that is not there. *)
Definition store_missing_category : Database :=
  SQL_Database [] [daily_task] [].

(** A store with a task of user [u] and a task of user [v]. *)
Definition store_two_users : Database :=
  SQL_Database [chores; mkCategory 2 "v" "Work"]
    [daily_task;
     mkTask 2 "v" "send the report" "weekly" 2 (Some 1) "2024-01-03 08:00:00"]
    [mkCompletion 1 "2024-06-15"; mkCompletion 2 "2024-06-14"].

(** * Proofs *)

(** ** The calendar *)

Lemma DayFromYear_succ y : DayFromYear (y + 1) = DayFromYear y + DaysInYear y.
Proof.
  unfold DayFromYear, DaysInYear, isLeap.
  destruct (y mod 4 =? 0) eqn:E4; destruct (y mod 100 =? 0) eqn:E100;
    destruct (y mod 400 =? 0) eqn:E400; cbn [andb orb negb];
    rewrite ?Z.eqb_eq, ?Z.eqb_neq in *;
    Z.to_euclidean_division_equations; lia.
Qed.

Lemma DayFromYear_lt y1 y2 : y1 < y2 -> DayFromYear y1 < DayFromYear y2.
Proof.
  unfold DayFromYear. intros H.
  Z.to_euclidean_division_equations; lia.
Qed.

Lemma YearFromDay_spec d :
  DayFromYear (YearFromDay d) <= d < DayFromYear (YearFromDay d + 1).
Proof.
  unfold YearFromDay.
  set (y0 := 1970 + 400 * d / 146097).
  assert (Hy : 146097 * (y0 - 1970) <= 400 * d < 146097 * (y0 - 1970) + 146097).
  { unfold y0. Z.to_euclidean_division_equations; lia. }
  clearbody y0.
  destruct (DayFromYear (y0 + 1) <=? d) eqn:E1;
    [ apply Z.leb_le in E1 | apply Z.leb_gt in E1 ].
  - split; [exact E1|].
    revert E1. unfold DayFromYear. Z.to_euclidean_division_equations; lia.
  - destruct (DayFromYear y0 <=? d) eqn:E2;
      [ apply Z.leb_le in E2 | apply Z.leb_gt in E2 ].
    + split; assumption.
    + replace (y0 - 1 + 1) with y0 by lia. split; [|exact E2].
      revert E2. unfold DayFromYear. Z.to_euclidean_division_equations; lia.
Qed.

Lemma YearFromDay_unique d y :
  DayFromYear y <= d < DayFromYear (y + 1) -> YearFromDay d = y.
Proof.
  intros [Hlo Hhi].
  pose proof (YearFromDay_spec d) as [Ylo Yhi].
  destruct (Z.lt_trichotomy (YearFromDay d) y) as [Hlt | [Heq | Hgt]];
    [ exfalso | exact Heq | exfalso ].
  - assert (DayFromYear (YearFromDay d + 1) <= DayFromYear y).
    { destruct (Z.eq_dec (YearFromDay d + 1) y) as [->|]; [lia|].
      apply Z.lt_le_incl, DayFromYear_lt; lia. }
    lia.
  - assert (DayFromYear (y + 1) <= DayFromYear (YearFromDay d)).
    { destruct (Z.eq_dec (y + 1) (YearFromDay d)) as [->|]; [lia|].
      apply Z.lt_le_incl, DayFromYear_lt; lia. }
    lia.
Qed.

Lemma InLeapYear_cases d : InLeapYear d = 0 \/ InLeapYear d = 1.
Proof. unfold InLeapYear. destruct (isLeap _); auto. Qed.

Lemma DayWithinYear_range d : 0 <= DayWithinYear d < 365 + InLeapYear d.
Proof.
  unfold DayWithinYear, InLeapYear.
  pose proof (YearFromDay_spec d) as H.
  rewrite DayFromYear_succ in H. unfold DaysInYear in H.
  destruct (isLeap (YearFromDay d)); lia.
Qed.

Ltac split_ltb :=
  repeat match goal with
  | |- context [ ?a <? ?b ] =>
      let E := fresh "E" in
      destruct (a <? b) eqn:E;
      [ apply Z.ltb_lt in E | apply Z.ltb_ge in E ]
  end.

(** Case analysis on the month table: one goal per month, with the
    bounds of the day within the year among the hypotheses. *)
Ltac month_cases d :=
  unfold DateFromDay, MonthFromDay, monthOfYearDay;
  pose proof (DayWithinYear_range d);
  pose proof (InLeapYear_cases d);
  split_ltb; cbn [monthStart].

Lemma MonthFromDay_range d : 0 <= MonthFromDay d <= 11.
Proof. month_cases d; lia. Qed.

Lemma DateFromDay_range d : 1 <= DateFromDay d <= 31.
Proof. month_cases d; lia. Qed.

Lemma isLeap_InLeapYear d :
  (if isLeap (YearFromDay d) then 1 else 0) = InLeapYear d.
Proof. reflexivity. Qed.

(** Rebuilding a day from its own year and month: only the date counts. *)
Lemma MakeDay_of_fields d x :
  MakeDay (YearFromDay d) (MonthFromDay d) x = d - DateFromDay d + x.
Proof.
  pose proof (MonthFromDay_range d) as Hm.
  unfold MakeDay.
  rewrite (Z.div_small (MonthFromDay d) 12), (Z.mod_small (MonthFromDay d) 12) by lia.
  rewrite Z.add_0_r, isLeap_InLeapYear.
  unfold DateFromDay, DayWithinYear. lia.
Qed.

Lemma MakeDay_fields d :
  MakeDay (YearFromDay d) (MonthFromDay d) (DateFromDay d) = d.
Proof. rewrite MakeDay_of_fields. lia. Qed.

Ltac leap_month_cases Hl Hm :=
  let Hc := fresh "Hc" in
  match type of Hm with
  | 0 <= ?m <= 11 =>
      assert (Hc : m = 0 \/ m = 1 \/ m = 2 \/ m = 3 \/ m = 4 \/ m = 5 \/ m = 6 \/
                   m = 7 \/ m = 8 \/ m = 9 \/ m = 10 \/ m = 11) by lia;
      clear Hm;
      destruct Hl as [-> | ->];
      repeat (destruct Hc as [-> | Hc]); try subst m
  end.

Lemma DaysInMonth_range leap m :
  (leap = 0 \/ leap = 1) -> 0 <= m <= 11 -> 28 <= DaysInMonth leap m <= 31.
Proof. intros Hl Hm. leap_month_cases Hl Hm; vm_compute; intuition discriminate. Qed.

Lemma monthStart_range leap m :
  (leap = 0 \/ leap = 1) -> 0 <= m <= 11 ->
  0 <= monthStart leap m /\ monthStart leap (m + 1) <= 365 + leap.
Proof. intros Hl Hm. leap_month_cases Hl Hm; vm_compute; intuition discriminate. Qed.

Lemma monthOfYearDay_lookup leap m w :
  (leap = 0 \/ leap = 1) -> 0 <= m <= 11 ->
  monthStart leap m <= w < monthStart leap (m + 1) ->
  monthOfYearDay leap w = m.
Proof.
  intros Hl Hm. unfold monthOfYearDay.
  leap_month_cases Hl Hm; cbn; intros Hw; split_ltb; lia.
Qed.

Lemma fields_of_MakeDay y m dt :
  0 <= m <= 11 ->
  1 <= dt <= DaysInMonth (if isLeap y then 1 else 0) m ->
  YearFromDay (MakeDay y m dt) = y /\
  MonthFromDay (MakeDay y m dt) = m /\
  DateFromDay (MakeDay y m dt) = dt.
Proof.
  intros Hm Hd.
  set (l := if isLeap y then 1 else 0) in *.
  assert (Hl : l = 0 \/ l = 1) by (unfold l; destruct (isLeap y); auto).
  assert (HD : MakeDay y m dt = DayFromYear y + monthStart l m + dt - 1).
  { unfold MakeDay. rewrite Z.div_small, Z.mod_small by lia.
    rewrite Z.add_0_r. reflexivity. }
  pose proof (monthStart_range l m Hl Hm) as [Hs0 Hs1].
  unfold DaysInMonth in Hd.
  assert (HY : YearFromDay (MakeDay y m dt) = y).
  { apply YearFromDay_unique. rewrite HD, DayFromYear_succ.
    unfold DaysInYear. fold l.
    replace (if isLeap y then 366 else 365) with (365 + l)
      by (unfold l; destruct (isLeap y); reflexivity).
    lia. }
  assert (HW : DayWithinYear (MakeDay y m dt) = monthStart l m + dt - 1).
  { unfold DayWithinYear. rewrite HY, HD. lia. }
  assert (HL : InLeapYear (MakeDay y m dt) = l).
  { unfold InLeapYear. rewrite HY. reflexivity. }
  assert (HM : MonthFromDay (MakeDay y m dt) = m).
  { unfold MonthFromDay. rewrite HW, HL.
    apply monthOfYearDay_lookup; [assumption | assumption | lia]. }
  split; [exact HY|]. split; [exact HM|].
  unfold DateFromDay. rewrite HW, HL, HM. lia.
Qed.

(** ** Facts about the calendar used by the period calculator *)

Lemma YearFromDay_ge d y : DayFromYear y <= d -> y <= YearFromDay d.
Proof.
  intros H. pose proof (YearFromDay_spec d) as [_ Hhi].
  destruct (Z_le_gt_dec y (YearFromDay d)) as [Hle | Hgt]; [exact Hle | exfalso].
  assert (DayFromYear (YearFromDay d + 1) <= DayFromYear y).
  { destruct (Z.eq_dec (YearFromDay d + 1) y) as [->|]; [lia|].
    apply Z.lt_le_incl, DayFromYear_lt; lia. }
  lia.
Qed.

Lemma MakeDay_date y m dt x : MakeDay y m dt = MakeDay y m x + (dt - x).
Proof. unfold MakeDay. lia. Qed.

Lemma MakeDay_norm y m dt : MakeDay y m dt = MakeDay (y + m / 12) (m mod 12) dt.
Proof.
  unfold MakeDay.
  assert (Hm : 0 <= m mod 12 < 12) by (apply Z.mod_pos_bound; lia).
  rewrite (Z.div_small (m mod 12)), (Z.mod_small (m mod 12)) by lia.
  rewrite Z.add_0_r. reflexivity.
Qed.

Lemma monthLength_range y m : 28 <= monthLength y m <= 31.
Proof.
  unfold monthLength. apply DaysInMonth_range.
  - destruct (isLeap _); auto.
  - pose proof (Z.mod_pos_bound m 12); lia.
Qed.

Lemma MakeDay_next_month y m dt :
  MakeDay y (m + 1) dt = MakeDay y m dt + monthLength y m.
Proof.
  unfold MakeDay, monthLength, DaysInMonth.
  assert (Hm : 0 <= m mod 12 < 12) by (apply Z.mod_pos_bound; lia).
  destruct (Z.eq_dec (m mod 12) 11) as [E | E].
  - assert (Hq : (m + 1) / 12 = m / 12 + 1)
      by (Z.to_euclidean_division_equations; lia).
    assert (Hr : (m + 1) mod 12 = 0)
      by (Z.to_euclidean_division_equations; lia).
    rewrite Hq, Hr, E, Z.add_assoc, DayFromYear_succ.
    unfold DaysInYear.
    destruct (isLeap (y + m / 12)); destruct (isLeap (y + m / 12 + 1));
      cbn; lia.
  - assert (Hq : (m + 1) / 12 = m / 12)
      by (Z.to_euclidean_division_equations; lia).
    assert (Hr : (m + 1) mod 12 = m mod 12 + 1)
      by (Z.to_euclidean_division_equations; lia).
    rewrite Hq, Hr. lia.
Qed.

Lemma MakeDay_prev_month y m dt :
  MakeDay y m dt = MakeDay y (m - 1) dt + monthLength y (m - 1).
Proof.
  rewrite <- MakeDay_next_month. f_equal. lia.
Qed.

Lemma getDate_MakeDay y m dt :
  1 <= dt <= 28 -> DateFromDay (MakeDay y m dt) = dt.
Proof.
  intros H. rewrite MakeDay_norm.
  assert (Hm : 0 <= m mod 12 < 12) by (apply Z.mod_pos_bound; lia).
  pose proof (monthLength_range y m) as Hl. unfold monthLength in Hl.
  apply fields_of_MakeDay; lia.
Qed.

Lemma DateFromDay_le_month d :
  DateFromDay d <= monthLength (YearFromDay d) (MonthFromDay d).
Proof.
  pose proof (MonthFromDay_range d) as Hm.
  unfold monthLength, DaysInMonth.
  rewrite Z.div_small, Z.mod_small, Z.add_0_r, isLeap_InLeapYear by lia.
  clear Hm. month_cases d;
    repeat match goal with
    | |- context [ monthStart _ (?a + 1) ] =>
        let v := eval vm_compute in (a + 1) in change (a + 1) with v
    end; cbn [monthStart]; lia.
Qed.

(** The constructor leaves a year outside 0..99 alone. *)
Lemma new_Date_MakeDay y m dt :
  ~ (0 <= y <= 99) -> new_Date y m dt = MakeDay y m dt.
Proof.
  intros H. unfold new_Date.
  destruct (0 <=? y) eqn:E1; destruct (y <=? 99) eqn:E2; cbn [andb];
    try reflexivity.
  apply Z.leb_le in E1, E2. lia.
Qed.

(** [today] never carries a year in 0..99: the constructor has moved
    such a year into the 1900s. *)
Lemma todayOf_year now : ~ (0 <= getFullYear (todayOf now) <= 99).
Proof.
  unfold todayOf, new_Date, getFullYear, getMonth, JS.getDate.
  pose proof (MonthFromDay_range now) as Hm.
  pose proof (DateFromDay_range now) as Hd.
  destruct ((0 <=? YearFromDay now) && (YearFromDay now <=? 99)) eqn:E.
  - apply andb_prop in E. destruct E as [E1 E2]. apply Z.leb_le in E1, E2.
    intros [_ Hc].
    assert (1900 <= YearFromDay (MakeDay (1900 + YearFromDay now)
              (MonthFromDay now) (DateFromDay now))); [|lia].
    apply YearFromDay_ge. unfold MakeDay.
    rewrite Z.div_small, Z.mod_small, Z.add_0_r by lia.
    assert (DayFromYear 1900 <= DayFromYear (1900 + YearFromDay now)).
    { destruct (Z.eq_dec (YearFromDay now) 0) as [->|]; [cbn; lia|].
      apply Z.lt_le_incl, DayFromYear_lt; lia. }
    assert (0 <= monthStart (if isLeap (1900 + YearFromDay now) then 1 else 0)
                   (MonthFromDay now)).
    { apply monthStart_range; [destruct (isLeap _); auto | lia]. }
    lia.
  - rewrite MakeDay_fields. intros [H1 H2].
    apply Z.leb_le in H1, H2. rewrite H1, H2 in E. discriminate.
Qed.

(** For a clock outside the years 0..99, [today] is the clock's day. *)
Lemma todayOf_id now : ~ (0 <= getFullYear now <= 99) -> todayOf now = now.
Proof.
  intros H. unfold todayOf. rewrite new_Date_MakeDay by exact H.
  apply MakeDay_fields.
Qed.

Lemma setDate_shift t k : setDate t (JS.getDate t - k) = t - k.
Proof. unfold setDate, JS.getDate. rewrite MakeDay_of_fields. lia. Qed.

Lemma getPeriodStartDate_weekly now task :
  frequency task = "weekly"%string ->
  getPeriodStartDate now task = formatDate (weeklyPeriodStart (todayOf now) task).
Proof. intros H. unfold getPeriodStartDate. rewrite H. reflexivity. Qed.

Lemma getPeriodStartDate_monthly now task :
  frequency task = "monthly"%string ->
  getPeriodStartDate now task = formatDate (monthlyPeriodStart (todayOf now) task).
Proof. intros H. unfold getPeriodStartDate. rewrite H. reflexivity. Qed.

Lemma getPeriodStartDate_daily now task :
  frequency task = "daily"%string ->
  getPeriodStartDate now task = formatDate (todayOf now).
Proof. intros H. unfold getPeriodStartDate. rewrite H. reflexivity. Qed.

Lemma getPeriodStartDate_one_time now task :
  frequency task = "one-time"%string ->
  getPeriodStartDate now task = "1970-01-01"%string.
Proof. intros H. unfold getPeriodStartDate. rewrite H. reflexivity. Qed.

(** ** Scenarios of the date helpers *)

Example formatDate_2024_06_15 : formatDate day_2024_06_15 = "2024-06-15"%string.
Proof. reflexivity. Qed.

Example cutoff_2024_06_15 : getCompletionCutoffDate day_2024_06_15 = "2024-03-15"%string.
Proof. reflexivity. Qed.

Example getDay_2024_06_15 : getDay day_2024_06_15 = 6.
Proof. reflexivity. Qed.

Example formatDate_epoch : formatDate 0 = "1970-01-01"%string.
Proof. reflexivity. Qed.

Example formatDate_before_epoch : formatDate (-1) = "1969-12-31"%string.
Proof. reflexivity. Qed.

Example leap_days :
  formatDate (MakeDay 2024 1 29) = "2024-02-29"%string /\
  formatDate (MakeDay 2023 1 29) = "2023-03-01"%string /\
  formatDate (MakeDay 2000 1 29) = "2000-02-29"%string /\
  formatDate (MakeDay 1900 1 29) = "1900-03-01"%string.
Proof. repeat split. Qed.

Example year_boundaries :
  formatDate (DayFromYear 2024 - 1) = "2023-12-31"%string /\
  formatDate (DayFromYear 2024) = "2024-01-01"%string /\
  formatDate (MakeDay 2024 12 1) = "2025-01-01"%string /\
  formatDate (MakeDay 2024 (-1) 31) = "2023-12-31"%string /\
  formatDate (MakeDay 2024 0 0) = "2023-12-31"%string.
Proof. repeat split. Qed.

Example two_digit_year :
  formatDate (new_Date 50 0 1) = "1950-01-01"%string /\
  formatDate (MakeDay 50 0 1) = "50-01-01"%string /\
  formatDate (MakeDay (-5) 0 1) = "-5-01-01"%string.
Proof. repeat split. Qed.

Example weekdays :
  getDay 0 = 4 /\ getDay (-1) = 3 /\ getDay (MakeDay 2024 5 9) = 0.
Proof. repeat split. Qed.

Example cutoff_overflow :
  getCompletionCutoffDate (MakeDay 2023 4 31) = "2023-03-03"%string.
Proof. reflexivity. Qed.

(** ** The order on texts *)

Section TextOrder.

Lemma ascii_compare_refl a : Ascii.compare a a = Eq.
Proof. unfold Ascii.compare. apply N.compare_refl. Qed.

Lemma ascii_compare_lt_trans a b c :
  Ascii.compare a b = Lt -> Ascii.compare b c = Lt -> Ascii.compare a c = Lt.
Proof.
  unfold Ascii.compare. rewrite !N.compare_lt_iff. apply N.lt_trans.
Qed.

Lemma string_compare_refl s : String.compare s s = Eq.
Proof.
  induction s as [|a s IH]; [reflexivity|].
  cbn. rewrite ascii_compare_refl. exact IH.
Qed.

Lemma string_compare_lt_trans s1 : forall s2 s3,
  String.compare s1 s2 = Lt -> String.compare s2 s3 = Lt ->
  String.compare s1 s3 = Lt.
Proof.
  induction s1 as [|a s1 IH]; intros [|b s2] [|c s3]; cbn;
    try discriminate; try reflexivity.
  destruct (Ascii.compare a b) eqn:Eab; try discriminate;
    destruct (Ascii.compare b c) eqn:Ebc; try discriminate; intros H1 H2.
  - apply Ascii.compare_eq_iff in Eab, Ebc. subst.
    rewrite ascii_compare_refl. eauto.
  - apply Ascii.compare_eq_iff in Eab. subst. rewrite Ebc. reflexivity.
  - apply Ascii.compare_eq_iff in Ebc. subst. rewrite Eab. reflexivity.
  - rewrite (ascii_compare_lt_trans _ _ _ Eab Ebc). reflexivity.
Qed.

Lemma string_ge_refl s : string_ge s s = true.
Proof. unfold string_ge, String.ltb. rewrite string_compare_refl. reflexivity. Qed.

(** [c <= a] and [a < b] give [c < b]. *)
Lemma string_le_lt_trans c a b :
  string_ge a c = true -> string_lt a b = true -> string_lt c b = true.
Proof.
  unfold string_ge, string_lt, String.ltb.
  rewrite (String.compare_antisym a c).
  destruct (String.compare c a) eqn:Eca; cbn; try discriminate; intros _ Hab.
  - apply String.compare_eq_iff in Eca. subst. exact Hab.
  - destruct (String.compare a b) eqn:Eab; try discriminate.
    rewrite (string_compare_lt_trans _ _ _ Eca Eab). reflexivity.
Qed.

Lemma string_ge_lt a b : string_ge a b = negb (string_lt a b).
Proof. reflexivity. Qed.

(** Two texts are equal when each is [>=] the other. *)
Lemma string_ge_antisym a b :
  string_ge a b = true -> string_ge b a = true -> a = b.
Proof.
  unfold string_ge, String.ltb. rewrite (String.compare_antisym b a).
  destruct (String.compare a b) eqn:E; cbn; try discriminate; intros _ _.
  apply String.compare_eq_iff; exact E.
Qed.

End TextOrder.

(** ** The period calculator *)

Lemma fields_of_MakeDay_norm y m dt :
  1 <= dt <= 28 ->
  YearFromDay (MakeDay y m dt) = y + m / 12 /\
  MonthFromDay (MakeDay y m dt) = m mod 12 /\
  DateFromDay (MakeDay y m dt) = dt.
Proof.
  intros H. rewrite MakeDay_norm.
  assert (Hm : 0 <= m mod 12 < 12) by (apply Z.mod_pos_bound; lia).
  pose proof (monthLength_range y m) as Hl. unfold monthLength in Hl.
  apply fields_of_MakeDay; lia.
Qed.

Lemma monthLength_norm y m :
  monthLength (y + m / 12) (m mod 12) = monthLength y m.
Proof.
  unfold monthLength.
  assert (Hm : 0 <= m mod 12 < 12) by (apply Z.mod_pos_bound; lia).
  rewrite (Z.div_small (m mod 12)), (Z.mod_small (m mod 12)) by lia.
  rewrite Z.add_0_r. reflexivity.
Qed.

Lemma WeekDay_range d : 0 <= WeekDay d <= 6.
Proof. unfold WeekDay. pose proof (Z.mod_pos_bound (d + 4) 7). lia. Qed.

(** C2.  For a weekly task with reset day [R] in 0..6 and any clock, the
    period start that [getPeriodStartDate] formats falls on weekday [R],
    is not after [today], and is at most 6 days before it.  [today] is
    the day of the clock, unless the clock shows a year in 0..99. *)
Theorem weekly_period_start (now : Date) (task : Task) (R : Z) :
  frequency task = "weekly"%string ->
  reset_day task = Some R ->
  0 <= R <= 6 ->
  let today := todayOf now in
  let periodStart := weeklyPeriodStart today task in
  getPeriodStartDate now task = formatDate periodStart /\
  getDay periodStart = R /\
  periodStart <= today /\
  today - periodStart <= 6 /\
  (~ (0 <= getFullYear now <= 99) -> today = now).
Proof.
  intros Hf Hr HR today periodStart.
  split; [apply getPeriodStartDate_weekly; exact Hf|].
  rewrite <- !and_assoc. split; [|apply todayOf_id]. rewrite !and_assoc.
  subst periodStart. unfold weeklyPeriodStart. rewrite Hr. cbn [nullish].
  rewrite setDate_shift.
  pose proof (WeekDay_range today) as Hw.
  unfold remainder, getDay in *.
  rewrite Z.rem_mod_nonneg by lia.
  unfold WeekDay in *.
  repeat split; Z.to_euclidean_division_equations; lia.
Qed.

Lemma weekly_period_start_witness :
  getPeriodStartDate day_2024_06_15 weekly_task_sunday
    = formatDate (weeklyPeriodStart (todayOf day_2024_06_15) weekly_task_sunday) /\
  getDay (weeklyPeriodStart (todayOf day_2024_06_15) weekly_task_sunday) = 0 /\
  weeklyPeriodStart (todayOf day_2024_06_15) weekly_task_sunday
    <= todayOf day_2024_06_15 /\
  todayOf day_2024_06_15
    - weeklyPeriodStart (todayOf day_2024_06_15) weekly_task_sunday <= 6 /\
  (~ (0 <= getFullYear day_2024_06_15 <= 99) ->
   todayOf day_2024_06_15 = day_2024_06_15).
Proof.
  apply (weekly_period_start day_2024_06_15 weekly_task_sunday 0);
    [reflexivity | reflexivity | lia].
Defined.

(** Between day [R] of a month and day [R] of the next month, no day
    has date [R]. *)
Lemma no_reset_day_between y m R d :
  1 <= R <= 28 ->
  MakeDay y m R < d < MakeDay y (m + 1) R ->
  DateFromDay d <> R.
Proof.
  intros HR [Hlo Hhi].
  rewrite MakeDay_next_month in Hhi.
  pose proof (monthLength_range y m) as Hlen.
  destruct (Z_le_gt_dec (R + (d - MakeDay y m R)) (monthLength y m)) as [Hin | Hout].
  - assert (Hd : d = MakeDay y m (R + (d - MakeDay y m R))).
    { rewrite (MakeDay_date y m _ R). lia. }
    rewrite MakeDay_norm in Hd.
    assert (Hm : 0 <= m mod 12 < 12) by (apply Z.mod_pos_bound; lia).
    destruct (fields_of_MakeDay (y + m / 12) (m mod 12) (R + (d - MakeDay y m R)))
      as (_ & _ & Hdate); [lia | unfold monthLength in Hin; lia |].
    rewrite <- Hd in Hdate. lia.
  - assert (Hd : d = MakeDay y (m + 1) (R + (d - MakeDay y m R) - monthLength y m)).
    { rewrite (MakeDay_date y (m + 1) _ R), MakeDay_next_month. lia. }
    pose proof (getDate_MakeDay y (m + 1)
                  (R + (d - MakeDay y m R) - monthLength y m)) as Hdate.
    rewrite <- Hd in Hdate. lia.
Qed.

Lemma nextPeriodStart_unfold periodStart R :
  nextPeriodStart periodStart R
  = MakeDay (YearFromDay periodStart) (MonthFromDay periodStart + 1) R.
Proof. unfold nextPeriodStart, getFullYear, getMonth. reflexivity. Qed.

Lemma getDate_unfold d : JS.getDate d = DateFromDay d.
Proof. unfold JS.getDate. reflexivity. Qed.

Lemma nextPeriodStart_following periodStart R :
  1 <= R <= 28 ->
  JS.getDate periodStart = R ->
  forall d, periodStart < d < nextPeriodStart periodStart R -> JS.getDate d <> R.
Proof.
  intros HR Hd d [Hlo Hhi].
  rewrite getDate_unfold in *. rewrite nextPeriodStart_unfold in Hhi.
  assert (E : MakeDay (YearFromDay periodStart) (MonthFromDay periodStart) R
              = periodStart).
  { rewrite <- Hd. apply MakeDay_fields. }
  apply (no_reset_day_between (YearFromDay periodStart) (MonthFromDay periodStart) R d HR).
  rewrite E. split; [exact Hlo | exact Hhi].
Qed.

Lemma monthlyPeriodStart_spec (today : Date) (task : Task) (R : Z) :
  reset_day task = Some R ->
  1 <= R <= 28 ->
  ~ (0 <= getFullYear today <= 99) ->
  JS.getDate (monthlyPeriodStart today task) = R /\
  monthlyPeriodStart today task <= today /\
  today < nextPeriodStart (monthlyPeriodStart today task) R /\
  JS.getDate (nextPeriodStart (monthlyPeriodStart today task) R) = R /\
  (getMonth today = 0 -> JS.getDate today < R ->
   getFullYear (monthlyPeriodStart today task) = getFullYear today - 1 /\
   getMonth (monthlyPeriodStart today task) = 11).
Proof.
  intros Hr HR HY. unfold getFullYear in HY.
  pose proof (MonthFromDay_range today) as HM.
  pose proof (DateFromDay_range today) as HD.
  pose proof (DateFromDay_le_month today) as HL.
  pose proof (MakeDay_fields today) as Ht.
  unfold monthlyPeriodStart, nextPeriodStart, getFullYear, getMonth, JS.getDate.
  rewrite Hr. cbn [nullish].
  destruct (DateFromDay today >=? R) eqn:E.
  - rewrite Z.geb_le in E.
    rewrite new_Date_MakeDay by exact HY.
    destruct (fields_of_MakeDay_norm (YearFromDay today) (MonthFromDay today) R HR)
      as (Ey & Em & Ed).
    rewrite Z.div_small, Z.add_0_r in Ey by lia.
    rewrite Z.mod_small in Em by lia.
    rewrite Ey, Em, Ed.
    pose proof (getDate_MakeDay (YearFromDay today) (MonthFromDay today + 1) R HR)
      as Hnd.
    pose proof (MakeDay_next_month (YearFromDay today) (MonthFromDay today) R)
      as Hn.
    pose proof (MakeDay_date (YearFromDay today) (MonthFromDay today)
                  R (DateFromDay today)) as Hp.
    rewrite Ht in Hp.
    split; [reflexivity|]. split; [lia|]. split; [lia|]. split; [exact Hnd|].
    intros; lia.
  - assert (E' : DateFromDay today < R).
    { destruct (Z_lt_ge_dec (DateFromDay today) R) as [|G]; [assumption|].
      apply Z.ge_le, Z.geb_le in G. rewrite G in E. discriminate. }
    rewrite new_Date_MakeDay by exact HY.
    destruct (fields_of_MakeDay_norm (YearFromDay today) (MonthFromDay today - 1) R HR)
      as (Ey & Em & Ed).
    rewrite Ey, Em, Ed.
    pose proof (MakeDay_next_month (YearFromDay today + (MonthFromDay today - 1) / 12)
                  ((MonthFromDay today - 1) mod 12) R) as Hn.
    rewrite monthLength_norm, <- MakeDay_norm in Hn.
    pose proof (getDate_MakeDay
                  (YearFromDay today + (MonthFromDay today - 1) / 12)
                  ((MonthFromDay today - 1) mod 12 + 1) R HR) as Hnd.
    pose proof (monthLength_range (YearFromDay today) (MonthFromDay today - 1)) as Hlen.
    pose proof (MakeDay_prev_month (YearFromDay today) (MonthFromDay today)
                  (DateFromDay today)) as Hp.
    rewrite Ht in Hp.
    rewrite (MakeDay_date _ _ (DateFromDay today) R) in Hp.
    split; [reflexivity|]. split; [lia|]. split; [lia|]. split; [exact Hnd|].
    intros H0 _. rewrite H0.
    replace ((0 - 1) / 12) with (-1) by reflexivity.
    replace ((0 - 1) mod 12) with 11 by reflexivity.
    split; [lia | reflexivity].
Qed.

(** C3.  For a monthly task with reset day [R] in 1..28 and any clock,
    the period start that [getPeriodStartDate] formats has day of month
    [R], is not after [today], and [today] is strictly before the next
    period start, which is the first later day with day of month [R];
    when [today] is in January before day [R], the period start is in
    December of the year before.  [today] is the day of the clock, unless
    the clock shows a year in 0..99. *)
Theorem monthly_period_start (now : Date) (task : Task) (R : Z) :
  frequency task = "monthly"%string ->
  reset_day task = Some R ->
  1 <= R <= 28 ->
  let today := todayOf now in
  let periodStart := monthlyPeriodStart today task in
  getPeriodStartDate now task = formatDate periodStart /\
  JS.getDate periodStart = R /\
  periodStart <= today /\
  today < nextPeriodStart periodStart R /\
  JS.getDate (nextPeriodStart periodStart R) = R /\
  (forall d, periodStart < d < nextPeriodStart periodStart R ->
             JS.getDate d <> R) /\
  (getMonth today = 0 -> JS.getDate today < R ->
   getFullYear periodStart = getFullYear today - 1 /\
   getMonth periodStart = 11) /\
  (~ (0 <= getFullYear now <= 99) -> today = now).
Proof.
  intros Hf Hr HR today periodStart.
  destruct (monthlyPeriodStart_spec (todayOf now) task R Hr HR (todayOf_year now))
    as (Hd & Hle & Hlt & Hnd & Hjan).
  split; [exact (getPeriodStartDate_monthly now task Hf)|].
  split; [exact Hd|]. split; [exact Hle|]. split; [exact Hlt|].
  split; [exact Hnd|].
  split; [exact (nextPeriodStart_following _ R HR Hd)|].
  split; [exact Hjan | apply todayOf_id].
Qed.

Lemma monthly_period_start_witness :
  getPeriodStartDate day_2024_06_15 monthly_task_10
    = formatDate (monthlyPeriodStart (todayOf day_2024_06_15) monthly_task_10) /\
  JS.getDate (monthlyPeriodStart (todayOf day_2024_06_15) monthly_task_10) = 10 /\
  monthlyPeriodStart (todayOf day_2024_06_15) monthly_task_10
    <= todayOf day_2024_06_15 /\
  todayOf day_2024_06_15
    < nextPeriodStart (monthlyPeriodStart (todayOf day_2024_06_15) monthly_task_10) 10 /\
  JS.getDate (nextPeriodStart
                (monthlyPeriodStart (todayOf day_2024_06_15) monthly_task_10) 10) = 10 /\
  (forall d,
     monthlyPeriodStart (todayOf day_2024_06_15) monthly_task_10 < d
       < nextPeriodStart
           (monthlyPeriodStart (todayOf day_2024_06_15) monthly_task_10) 10 ->
     JS.getDate d <> 10) /\
  (getMonth (todayOf day_2024_06_15) = 0 ->
   JS.getDate (todayOf day_2024_06_15) < 10 ->
   getFullYear (monthlyPeriodStart (todayOf day_2024_06_15) monthly_task_10)
     = getFullYear (todayOf day_2024_06_15) - 1 /\
   getMonth (monthlyPeriodStart (todayOf day_2024_06_15) monthly_task_10) = 11) /\
  (~ (0 <= getFullYear day_2024_06_15 <= 99) ->
   todayOf day_2024_06_15 = day_2024_06_15).
Proof.
  apply (monthly_period_start day_2024_06_15 monthly_task_10 10);
    [reflexivity | reflexivity | lia].
Defined.

Example monthly_period_start_june :
  getPeriodStartDate day_2024_06_15 monthly_task_10 = "2024-06-10"%string.
Proof. reflexivity. Qed.

Example monthly_period_start_january :
  getPeriodStartDate (MakeDay 2024 0 5) monthly_task_10 = "2023-12-10"%string.
Proof. reflexivity. Qed.

Example weekly_period_start_saturday :
  getPeriodStartDate day_2024_06_15 weekly_task_sunday = "2024-06-09"%string.
Proof. reflexivity. Qed.

(** ** The status resolver *)

Lemma isTaskCompleted_true now task completions :
  isTaskCompleted now task completions = true <->
  exists c, In c completions /\ task_id c = id task /\
            string_ge (completed_date c) (getPeriodStartDate now task) = true.
Proof.
  unfold isTaskCompleted. rewrite existsb_exists.
  split; intros (c & Hin & H); exists c; (split; [exact Hin|]).
  - apply andb_prop in H. destruct H as [H1 H2].
    apply Z.eqb_eq in H1. auto.
  - destruct H as [H1 H2]. rewrite H1, Z.eqb_refl, H2. reflexivity.
Qed.

Lemma isTaskCompleted_false now task completions :
  (forall c, In c completions -> task_id c = id task ->
             string_lt (completed_date c) (getPeriodStartDate now task) = true) ->
  isTaskCompleted now task completions = false.
Proof.
  intros H. destruct (isTaskCompleted now task completions) eqn:E; [|reflexivity].
  apply isTaskCompleted_true in E. destruct E as (c & Hin & Hid & Hge).
  specialize (H c Hin Hid). rewrite string_ge_lt, H in Hge. discriminate.
Qed.

(** C1, as the code has it.  For a daily task and any facts, the status
    is true exactly when a fact of the task is dated on or after today
    (in the order of texts); when no fact of the task is dated after
    today, that is exactly when a fact for today's date exists. *)
Theorem daily_status (now : Date) (task : Task) (completions : list Completion) :
  frequency task = "daily"%string ->
  let today := formatDate (todayOf now) in
  (isTaskCompleted now task completions = true <->
   exists c, In c completions /\ task_id c = id task /\
             string_ge (completed_date c) today = true) /\
  ((forall c, In c completions -> task_id c = id task ->
              string_ge today (completed_date c) = true) ->
   (isTaskCompleted now task completions = true <->
    exists c, In c completions /\ task_id c = id task /\
              completed_date c = today)).
Proof.
  intros Hf today.
  pose proof (isTaskCompleted_true now task completions) as H.
  rewrite (getPeriodStartDate_daily now task Hf) in H. fold today in H.
  split; [exact H|].
  intros Hpast. rewrite H.
  split; intros (c & Hin & Hid & Hc); exists c; repeat split; auto.
  - apply string_ge_antisym; auto.
  - rewrite Hc. apply string_ge_refl.
Qed.

Lemma daily_status_witness :
  (isTaskCompleted day_2024_06_15 daily_task [mkCompletion 1 "2024-06-15"] = true <->
   exists c, In c [mkCompletion 1 "2024-06-15"] /\ task_id c = id daily_task /\
             string_ge (completed_date c) (formatDate (todayOf day_2024_06_15)) = true) /\
  ((forall c, In c [mkCompletion 1 "2024-06-15"] -> task_id c = id daily_task ->
              string_ge (formatDate (todayOf day_2024_06_15)) (completed_date c) = true) ->
   (isTaskCompleted day_2024_06_15 daily_task [mkCompletion 1 "2024-06-15"] = true <->
    exists c, In c [mkCompletion 1 "2024-06-15"] /\ task_id c = id daily_task /\
              completed_date c = formatDate (todayOf day_2024_06_15))).
Proof.
  apply (daily_status day_2024_06_15 daily_task [mkCompletion 1 "2024-06-15"]).
  reflexivity.
Defined.

(** C1, as stated, fails: with a single fact dated the day after today,
    a daily task is reported complete although no fact of the task
    carries today's date. *)
Lemma daily_status_counterexample :
  isTaskCompleted day_2024_06_15 daily_task [mkCompletion 1 "2024-06-16"] = true /\
  formatDate (todayOf day_2024_06_15) = "2024-06-15"%string /\
  wasCompletedOnDate (id daily_task) (formatDate (todayOf day_2024_06_15))
    [mkCompletion 1 "2024-06-16"] = false.
Proof. repeat split. Qed.

(** C10.  There are a clock and a monthly reset day in 29..31 for which
    the period start is not on the reset day and lies strictly after
    today; such a task is then reported incomplete whatever facts dated
    up to today the ledger holds, a fact for today included. *)
Theorem monthly_reset_day_overflow :
  exists (now : Date) (R : Z),
    29 <= R <= 31 /\
    forall task : Task,
      frequency task = "monthly"%string ->
      reset_day task = Some R ->
      let today := todayOf now in
      let periodStart := monthlyPeriodStart today task in
      getPeriodStartDate now task = formatDate periodStart /\
      JS.getDate periodStart <> R /\
      today < periodStart /\
      (forall completions : list Completion,
         (forall c, In c completions ->
                    string_ge (formatDate today) (completed_date c) = true) ->
         isTaskCompleted now task completions = false) /\
      isTaskCompleted now task [mkCompletion (id task) (getTodayDate now)] = false.
Proof.
  exists day_2023_03_01, 30. split; [lia|].
  intros task Hf Hr. cbv zeta.
  assert (Hps : monthlyPeriodStart (todayOf day_2023_03_01) task = MakeDay 2023 2 2).
  { unfold monthlyPeriodStart. rewrite Hr. vm_compute. reflexivity. }
  rewrite (getPeriodStartDate_monthly day_2023_03_01 task Hf), Hps.
  split; [reflexivity|].
  split; [vm_compute; discriminate|].
  split; [vm_compute; reflexivity|].
  assert (Hall : forall completions : list Completion,
            (forall c, In c completions ->
               string_ge (formatDate (todayOf day_2023_03_01)) (completed_date c) = true) ->
            isTaskCompleted day_2023_03_01 task completions = false).
  { intros completions Hpast.
    apply isTaskCompleted_false. intros c Hin _.
    rewrite (getPeriodStartDate_monthly day_2023_03_01 task Hf), Hps.
    apply (string_le_lt_trans _ (formatDate (todayOf day_2023_03_01)));
      [apply Hpast; exact Hin | vm_compute; reflexivity]. }
  split; [exact Hall|].
  apply Hall. intros c [<- | []]. vm_compute. reflexivity.
Qed.

Example monthly_overflow_non_leap :
  getPeriodStartDate day_2023_03_01 monthly_task_30 = "2023-03-02"%string /\
  formatDate (todayOf day_2023_03_01) = "2023-03-01"%string.
Proof. split; reflexivity. Qed.

Example monthly_overflow_leap :
  getPeriodStartDate (MakeDay 2024 2 1) monthly_task_30 = "2024-03-01"%string.
Proof. reflexivity. Qed.

Example monthly_overflow_day_31 :
  getPeriodStartDate (MakeDay 2024 1 15)
    (mkTask 1 "u" "pay the rent" "monthly" 1 (Some 31) "2024-01-01 08:00:00")
  = "2024-01-31"%string.
Proof. reflexivity. Qed.

(** ** The ledger *)

Lemma is_fact_true taskId date c :
  is_fact taskId date c = true <-> c = mkCompletion taskId date.
Proof.
  unfold is_fact. destruct c as [t d]. cbn.
  rewrite andb_true_iff, Z.eqb_eq, String.eqb_eq.
  split; [intros [-> ->]; reflexivity | intros H; inversion H; auto].
Qed.

Lemma existsb_is_fact taskId date l :
  existsb (is_fact taskId date) l = true <-> In (mkCompletion taskId date) l.
Proof.
  rewrite existsb_exists. split.
  - intros (c & Hin & H). apply is_fact_true in H. subst. exact Hin.
  - intros H. exists (mkCompletion taskId date). split; [exact H|].
    apply is_fact_true. reflexivity.
Qed.

Lemma queryOne_filter_none {A : Type} (p : A -> bool) (l : list A) :
  queryOne (filter p l) = None <-> existsb p l = false.
Proof.
  induction l as [|x l IH]; cbn; [tauto|].
  destruct (p x); cbn; [split; discriminate | exact IH].
Qed.

Lemma queryOne_filter_some {A : Type} (p : A -> bool) (l : list A) (x : A) :
  queryOne (filter p l) = Some x -> In x l /\ p x = true.
Proof.
  intros H. apply filter_In.
  destruct (filter p l) as [|y r] eqn:E; [discriminate|].
  cbn in H. injection H as ->. left; reflexivity.
Qed.

Lemma filter_none {A : Type} (p : A -> bool) (l : list A) :
  existsb p l = false -> filter (fun x => negb (p x)) l = l.
Proof.
  induction l as [|x l IH]; cbn; [reflexivity|].
  destruct (p x); cbn; [discriminate|]. intros H. rewrite IH by exact H.
  reflexivity.
Qed.

Lemma existsb_filter_negb {A : Type} (p : A -> bool) (l : list A) :
  existsb p (filter (fun x => negb (p x)) l) = false.
Proof.
  induction l as [|x l IH]; cbn; [reflexivity|].
  destruct (p x) eqn:E; cbn; [exact IH|]. rewrite E. exact IH.
Qed.

Lemma with_task_completions_same db :
  with_task_completions db (task_completions db) = db.
Proof. destruct db; reflexivity. Qed.

(** C6.  Recording a fact that the ledger already holds leaves the store
    as it is, so recording twice is recording once; unrecording a fact
    that the ledger does not hold leaves the store as it is.  Neither is
    refused. *)
Theorem ledger_idempotence (db : Database) (taskId : Z) (date : string) :
  (In (mkCompletion taskId date) (task_completions db) ->
   insert_or_ignore_completion taskId date db = Done db) /\
  (forall db1, insert_or_ignore_completion taskId date db = Done db1 ->
               insert_or_ignore_completion taskId date db1 = Done db1) /\
  (~ In (mkCompletion taskId date) (task_completions db) ->
   delete_completion taskId date db = db).
Proof.
  split; [|split].
  - intros H. unfold insert_or_ignore_completion.
    apply existsb_is_fact in H. rewrite H. reflexivity.
  - intros db1. unfold insert_or_ignore_completion at 1.
    destruct (existsb (is_fact taskId date) (task_completions db)) eqn:E.
    + intros H. injection H as <-.
      unfold insert_or_ignore_completion. rewrite E. reflexivity.
    + destruct (pragma_foreign_keys db
                && negb (existsb (fun t => id t =? taskId) (tasks db)));
        [discriminate|].
      intros H. injection H as <-.
      unfold insert_or_ignore_completion. cbn [task_completions with_task_completions].
      rewrite existsb_app. cbn. unfold is_fact at 2. cbn.
      rewrite Z.eqb_refl, String.eqb_refl, orb_true_r. reflexivity.
  - intros H. unfold delete_completion, delete_from_task_completions.
    rewrite filter_none; [apply with_task_completions_same|].
    destruct (existsb (is_fact taskId date) (task_completions db)) eqn:E;
      [|reflexivity].
    apply existsb_is_fact in E. contradiction.
Qed.

(** ** The toggle handler *)

Lemma select_task_found userId tid db task :
  select_task userId tid db = Some task ->
  In task (tasks db) /\ id task = tid /\ user_id task = userId.
Proof.
  intros H. apply queryOne_filter_some in H. destruct H as [Hin H].
  apply andb_prop in H. destruct H as [H1 H2].
  apply Z.eqb_eq in H1. apply String.eqb_eq in H2. auto.
Qed.

Lemma toggleTask_off now userId tid db task :
  select_task userId tid db = Some task ->
  In (mkCompletion tid (getTodayDate now)) (task_completions db) ->
  toggleTask now userId tid db =
    (Json (task,
           if derivedStatus now userId task
                (delete_completion tid (getTodayDate now) db)
           then 1 else 0),
     delete_completion tid (getTodayDate now) db).
Proof.
  intros Ht Hin. unfold toggleTask. rewrite Ht. cbv zeta.
  apply existsb_is_fact in Hin.
  destruct (queryOne (filter (is_fact tid (getTodayDate now)) (task_completions db)))
    eqn:E.
  - reflexivity.
  - apply queryOne_filter_none in E. rewrite E in Hin. discriminate.
Qed.

Lemma toggleTask_on now userId tid db task :
  select_task userId tid db = Some task ->
  ~ In (mkCompletion tid (getTodayDate now)) (task_completions db) ->
  toggleTask now userId tid db =
    (Json (task,
           if derivedStatus now userId task
                (with_task_completions db
                   (task_completions db ++ [mkCompletion tid (getTodayDate now)]))
           then 1 else 0),
     with_task_completions db
       (task_completions db ++ [mkCompletion tid (getTodayDate now)])).
Proof.
  intros Ht Hin. unfold toggleTask. rewrite Ht. cbv zeta.
  assert (E : existsb (is_fact tid (getTodayDate now)) (task_completions db) = false).
  { destruct (existsb _ _) eqn:E; [|reflexivity].
    apply existsb_is_fact in E. contradiction. }
  rewrite (proj2 (queryOne_filter_none _ _) E).
  unfold insert_or_ignore_completion. rewrite E.
  assert (Hp : existsb (fun t => id t =? tid) (tasks db) = true).
  { apply select_task_found in Ht. destruct Ht as (Hi & Hid & _).
    apply existsb_exists. exists task. rewrite Hid, Z.eqb_refl. auto. }
  rewrite Hp, andb_false_r. reflexivity.
Qed.

Lemma delete_from_task_completions_In cond db c :
  In c (task_completions (delete_from_task_completions cond db)) <->
  In c (task_completions db) /\ cond c = false.
Proof.
  unfold delete_from_task_completions. cbn. rewrite filter_In.
  rewrite negb_true_iff. reflexivity.
Qed.

(** C9.  When the task has a fact for today, the toggle removes that
    fact and nothing else: the ledger afterwards is the ledger before
    without the rows of that task dated today; rows of the task with
    another date and rows of other tasks stay, no row is added, and the
    other tables are untouched. *)
Theorem toggle_off_frame (now : Date) (userId : string) (tid : Z)
    (db : Database) (task : Task) :
  select_task userId tid db = Some task ->
  In (mkCompletion tid (getTodayDate now)) (task_completions db) ->
  let db' := snd (toggleTask now userId tid db) in
  task_completions db'
    = filter (fun c => negb (is_fact tid (getTodayDate now) c))
             (task_completions db) /\
  (forall c, In c (task_completions db) ->
             task_id c <> tid \/ completed_date c <> getTodayDate now ->
             In c (task_completions db')) /\
  (forall c, In c (task_completions db') -> In c (task_completions db)) /\
  ~ In (mkCompletion tid (getTodayDate now)) (task_completions db') /\
  tasks db' = tasks db /\
  categories db' = categories db.
Proof.
  intros Ht Hin. cbv zeta.
  rewrite (toggleTask_off now userId tid db task Ht Hin). cbn [snd].
  split; [reflexivity|].
  split; [|split; [|split; [|split; reflexivity]]].
  - intros c Hc Hne. apply delete_from_task_completions_In.
    split; [exact Hc|].
    destruct (is_fact tid (getTodayDate now) c) eqn:E; [|reflexivity].
    apply is_fact_true in E. subst c. cbn in Hne. destruct Hne; congruence.
  - intros c Hc. apply delete_from_task_completions_In in Hc. tauto.
  - intros Hc. apply delete_from_task_completions_In in Hc.
    destruct Hc as [_ Hc].
    rewrite (proj2 (is_fact_true tid (getTodayDate now) _) eq_refl) in Hc.
    discriminate.
Qed.

Lemma toggle_off_frame_witness :
  task_completions (snd (toggleTask day_2024_06_15 "u" 1 store_three_facts))
    = filter (fun c => negb (is_fact 1 (getTodayDate day_2024_06_15) c))
             (task_completions store_three_facts) /\
  (forall c, In c (task_completions store_three_facts) ->
             task_id c <> 1 \/ completed_date c <> getTodayDate day_2024_06_15 ->
             In c (task_completions
                     (snd (toggleTask day_2024_06_15 "u" 1 store_three_facts)))) /\
  (forall c, In c (task_completions
                     (snd (toggleTask day_2024_06_15 "u" 1 store_three_facts))) ->
             In c (task_completions store_three_facts)) /\
  ~ In (mkCompletion 1 (getTodayDate day_2024_06_15))
       (task_completions
          (snd (toggleTask day_2024_06_15 "u" 1 store_three_facts))) /\
  tasks (snd (toggleTask day_2024_06_15 "u" 1 store_three_facts))
    = tasks store_three_facts /\
  categories (snd (toggleTask day_2024_06_15 "u" 1 store_three_facts))
    = categories store_three_facts.
Proof.
  apply (toggle_off_frame day_2024_06_15 "u" 1 store_three_facts daily_task);
    [reflexivity | right; left; reflexivity].
Defined.

Example toggle_off_three_facts :
  toggleTask day_2024_06_15 "u" 1 store_three_facts =
    (Json (daily_task, 0),
     SQL_Database [chores] (tasks store_three_facts)
       [mkCompletion 1 "2024-06-14"; mkCompletion 2 "2024-06-15"]).
Proof. reflexivity. Qed.

Lemma mkCompletion_eta c : mkCompletion (task_id c) (completed_date c) = c.
Proof. destruct c; reflexivity. Qed.

Lemma getUserCompletions_In now db userId startDate c :
  In c (getUserCompletions now db userId startDate) <->
  In c (task_completions db) /\
  exists t, In t (tasks db) /\
            ((task_id c =? id t) && (user_id t =? userId)%string
             && string_ge (completed_date c)
                  match startDate with
                  | Some s => if (s =? "")%string
                              then getCompletionCutoffDate now else s
                  | None => getCompletionCutoffDate now
                  end) = true.
Proof.
  unfold getUserCompletions. rewrite in_flat_map. split.
  - intros (tc & Htc & H). apply in_map_iff in H.
    destruct H as (t & Hc & Ht). apply filter_In in Ht.
    rewrite mkCompletion_eta in Hc. subst tc.
    split; [exact Htc|]. exists t. exact Ht.
  - intros (Hc & t & Ht & H). exists c. split; [exact Hc|].
    apply in_map_iff. exists t. split; [apply mkCompletion_eta|].
    apply filter_In. auto.
Qed.

Lemma existsb_same_members {A : Type} (p : A -> bool) (l1 l2 : list A) :
  (forall x, In x l1 <-> In x l2) -> existsb p l1 = existsb p l2.
Proof.
  intros H. apply eq_true_iff_eq. rewrite !existsb_exists.
  split; intros (x & Hx & Hp); exists x; (split; [apply H; exact Hx | exact Hp]).
Qed.

(** The status depends on the ledger through its set of facts only. *)
Lemma derivedStatus_same_facts now userId task db1 db2 :
  tasks db1 = tasks db2 ->
  (forall c, In c (task_completions db1) <-> In c (task_completions db2)) ->
  derivedStatus now userId task db1 = derivedStatus now userId task db2.
Proof.
  intros Ht Hc. unfold derivedStatus, isTaskCompleted.
  apply existsb_same_members. intros c.
  rewrite !getUserCompletions_In, Ht, Hc. reflexivity.
Qed.

Lemma toggleTask_twice_facts now userId tid db task :
  select_task userId tid db = Some task ->
  tasks (snd (toggleTask now userId tid (snd (toggleTask now userId tid db))))
    = tasks db /\
  forall c,
    In c (task_completions
            (snd (toggleTask now userId tid (snd (toggleTask now userId tid db)))))
    <-> In c (task_completions db).
Proof.
  intros Ht.
  destruct (existsb (is_fact tid (getTodayDate now)) (task_completions db)) eqn:E.
  - apply existsb_is_fact in E.
    rewrite (toggleTask_off now userId tid db task Ht E). cbn [snd].
    assert (Hn : ~ In (mkCompletion tid (getTodayDate now))
                   (task_completions (delete_completion tid (getTodayDate now) db))).
    { unfold delete_completion. rewrite delete_from_task_completions_In.
      intros [_ H].
      rewrite (proj2 (is_fact_true tid (getTodayDate now) _) eq_refl) in H.
      discriminate. }
    rewrite (toggleTask_on now userId tid
               (delete_completion tid (getTodayDate now) db) task Ht Hn).
    cbn [snd].
    split; [reflexivity|]. intros c.
    cbn [task_completions with_task_completions].
    rewrite in_app_iff. unfold delete_completion.
    rewrite delete_from_task_completions_In. cbn [In].
    destruct (is_fact tid (getTodayDate now) c) eqn:Ec.
    + apply is_fact_true in Ec. subst c. intuition discriminate.
    + split; [intros [[H _] | [H | []]] | intros H; left; auto].
      * exact H.
      * subst c.
        rewrite (proj2 (is_fact_true tid (getTodayDate now) _) eq_refl) in Ec.
        discriminate.
  - assert (Hn : ~ In (mkCompletion tid (getTodayDate now)) (task_completions db)).
    { intros H. apply existsb_is_fact in H. rewrite H in E. discriminate. }
    rewrite (toggleTask_on now userId tid db task Ht Hn). cbn [snd].
    assert (Hi : In (mkCompletion tid (getTodayDate now))
                   (task_completions
                      (with_task_completions db
                         (task_completions db ++ [mkCompletion tid (getTodayDate now)])))).
    { cbn. apply in_or_app. right. left. reflexivity. }
    rewrite (toggleTask_off now userId tid
               (with_task_completions db
                  (task_completions db ++ [mkCompletion tid (getTodayDate now)]))
               task Ht Hi).
    cbn [snd].
    split; [reflexivity|]. intros c.
    unfold delete_completion. rewrite delete_from_task_completions_In.
    cbn [task_completions with_task_completions]. rewrite in_app_iff. cbn [In].
    split.
    + intros [[H | [H | []]] Hc]; [exact H|].
      subst c.
      rewrite (proj2 (is_fact_true tid (getTodayDate now) _) eq_refl) in Hc.
      discriminate.
    + intros H. split; [left; exact H|].
      destruct (is_fact tid (getTodayDate now) c) eqn:Ec; [|reflexivity].
      apply is_fact_true in Ec. subst c. contradiction.
Qed.

(** C5.  For a task of the requesting user, two toggles on the same day
    bring the derived status back to what it was: the status computed
    after the second toggle, and the one its response carries, equal the
    status before the first; the ledger holds the same facts again. *)
Theorem toggle_twice (now : Date) (userId : string) (tid : Z)
    (db : Database) (task : Task) :
  select_task userId tid db = Some task ->
  let db1 := snd (toggleTask now userId tid db) in
  let db2 := snd (toggleTask now userId tid db1) in
  derivedStatus now userId task db2 = derivedStatus now userId task db /\
  fst (toggleTask now userId tid db1)
    = Json (task, if derivedStatus now userId task db then 1 else 0) /\
  (forall c, In c (task_completions db2) <-> In c (task_completions db)).
Proof.
  intros Ht. cbv zeta.
  destruct (toggleTask_twice_facts now userId tid db task Ht) as [Htasks Hfacts].
  pose proof (derivedStatus_same_facts now userId task _ _ Htasks Hfacts) as Hs.
  split; [exact Hs|]. split; [|exact Hfacts].
  rewrite <- Hs.
  assert (Ht1 : select_task userId tid (snd (toggleTask now userId tid db)) = Some task).
  { destruct (existsb (is_fact tid (getTodayDate now)) (task_completions db)) eqn:E.
    - apply existsb_is_fact in E.
      rewrite (toggleTask_off now userId tid db task Ht E). exact Ht.
    - assert (Hn : ~ In (mkCompletion tid (getTodayDate now)) (task_completions db)).
      { intros H. apply existsb_is_fact in H. rewrite H in E. discriminate. }
      rewrite (toggleTask_on now userId tid db task Ht Hn). exact Ht. }
  generalize dependent (snd (toggleTask now userId tid db)). intros db1 _ _ _ Ht1.
  destruct (existsb (is_fact tid (getTodayDate now)) (task_completions db1)) eqn:E.
  - apply existsb_is_fact in E.
    rewrite (toggleTask_off now userId tid db1 task Ht1 E). reflexivity.
  - assert (Hn : ~ In (mkCompletion tid (getTodayDate now)) (task_completions db1)).
    { intros H. apply existsb_is_fact in H. rewrite H in E. discriminate. }
    rewrite (toggleTask_on now userId tid db1 task Ht1 Hn). reflexivity.
Qed.

Lemma toggle_twice_witness :
  derivedStatus day_2024_06_15 "u" daily_task
    (snd (toggleTask day_2024_06_15 "u" 1
            (snd (toggleTask day_2024_06_15 "u" 1 store_three_facts))))
    = derivedStatus day_2024_06_15 "u" daily_task store_three_facts /\
  fst (toggleTask day_2024_06_15 "u" 1
         (snd (toggleTask day_2024_06_15 "u" 1 store_three_facts)))
    = Json (daily_task,
            if derivedStatus day_2024_06_15 "u" daily_task store_three_facts
            then 1 else 0) /\
  (forall c,
     In c (task_completions
             (snd (toggleTask day_2024_06_15 "u" 1
                     (snd (toggleTask day_2024_06_15 "u" 1 store_three_facts)))))
     <-> In c (task_completions store_three_facts)).
Proof.
  apply (toggle_twice day_2024_06_15 "u" 1 store_three_facts daily_task).
  reflexivity.
Defined.

Example toggle_twice_three_facts :
  derivedStatus day_2024_06_15 "u" daily_task store_three_facts = true /\
  toggleTask day_2024_06_15 "u" 1
    (snd (toggleTask day_2024_06_15 "u" 1 store_three_facts)) =
    (Json (daily_task, 1),
     SQL_Database [chores] (tasks store_three_facts)
       [mkCompletion 1 "2024-06-14"; mkCompletion 2 "2024-06-15";
        mkCompletion 1 "2024-06-15"]).
Proof. split; reflexivity. Qed.

Example toggle_twice_from_incomplete :
  derivedStatus day_2024_06_15 "u" daily_task (store_with daily_task []) = false /\
  toggleTask day_2024_06_15 "u" 1 (store_with daily_task []) =
    (Json (daily_task, 1), store_with daily_task [mkCompletion 1 "2024-06-15"]) /\
  toggleTask day_2024_06_15 "u" 1
    (store_with daily_task [mkCompletion 1 "2024-06-15"]) =
    (Json (daily_task, 0), store_with daily_task []).
Proof. repeat split. Qed.

Example toggle_unknown_task :
  toggleTask day_2024_06_15 "v" 1 store_three_facts =
    (Status 404 "Task not found", store_three_facts).
Proof. reflexivity. Qed.

(** ** Deleting categories and tasks *)

Lemma delete_from_tasks_unenforced cond db :
  pragma_foreign_keys db = false ->
  task_completions (delete_from_tasks cond db) = task_completions db /\
  pragma_foreign_keys (delete_from_tasks cond db) = false.
Proof.
  intros H. unfold delete_from_tasks. rewrite H. cbn. auto.
Qed.

Lemma delete_from_categories_unenforced cond db :
  pragma_foreign_keys db = false ->
  task_completions (delete_from_categories cond db) = task_completions db /\
  tasks (delete_from_categories cond db) = tasks db.
Proof.
  intros H. unfold delete_from_categories. rewrite H. cbn. auto.
Qed.

(** What the schema promises, when the connection enforces it: after
    [DELETE FROM tasks], no fact refers to a deleted task. *)
Lemma delete_from_tasks_enforced cond db t c :
  pragma_foreign_keys db = true ->
  In t (tasks db) -> cond t = true ->
  In c (task_completions (delete_from_tasks cond db)) ->
  task_id c <> id t.
Proof.
  intros H Ht Hc Hin. unfold delete_from_tasks in Hin. rewrite H in Hin.
  apply delete_from_task_completions_In in Hin. destruct Hin as [_ Hin].
  intros E. apply not_true_iff_false in Hin. apply Hin.
  apply existsb_exists. exists t. split.
  - apply filter_In. auto.
  - apply Z.eqb_eq. auto.
Qed.

(** C8, on the code.  On a store opened by the server, deleting a
    category (or a task) removes no row of [task_completions]: the facts
    of the deleted tasks stay in the store.  For instance, after the
    category of the one task with a fact for 2024-06-15 is deleted, the
    tables of categories and tasks are empty and the fact is still
    there. *)
Theorem delete_category_keeps_completions
    (cs : list Category) (ts : list Task) (tcs : list Completion)
    (userId : string) (cid tid : Z) :
  task_completions (snd (deleteCategory userId cid (SQL_Database cs ts tcs))) = tcs /\
  task_completions (snd (deleteTask userId tid (SQL_Database cs ts tcs))) = tcs /\
  deleteCategory "u" 1 (store_with daily_task [mkCompletion 1 "2024-06-15"])
    = (Json true, SQL_Database [] [] [mkCompletion 1 "2024-06-15"]) /\
  deleteTask "u" 1 (store_with daily_task [mkCompletion 1 "2024-06-15"])
    = (Json true, SQL_Database [chores] [] [mkCompletion 1 "2024-06-15"]).
Proof.
  split; [|split; [|split; reflexivity]].
  - unfold deleteCategory.
    destruct (select_category userId cid (SQL_Database cs ts tcs)); reflexivity.
  - unfold deleteTask.
    destruct (select_task userId tid (SQL_Database cs ts tcs)); reflexivity.
Qed.

(** The same handler on a connection that enforces the schema: no fact
    of a task deleted with the category is left. *)
Lemma deleteCategory_enforced userId cid db t c :
  pragma_foreign_keys db = true ->
  In t (tasks db) ->
  ~ In t (tasks (snd (deleteCategory userId cid db))) ->
  In c (task_completions (snd (deleteCategory userId cid db))) ->
  task_id c <> id t.
Proof.
  intros H Ht Hgone Hc. unfold deleteCategory in *.
  destruct (select_category userId cid db); cbn [snd] in *; [|contradiction].
  set (cond1 := fun t => (category_id t =? cid) && (user_id t =? userId)%string) in *.
  set (db1 := delete_from_tasks cond1 db) in *.
  assert (H1 : pragma_foreign_keys db1 = true).
  { unfold db1, delete_from_tasks. rewrite H. exact H. }
  unfold delete_from_categories in Hgone, Hc. rewrite H1 in Hgone, Hc.
  match type of Hc with
  | In _ (task_completions (delete_from_tasks ?c2 ?d2)) =>
      set (cond2 := c2) in *; set (db2 := d2) in *
  end.
  assert (H2 : pragma_foreign_keys db2 = true) by exact H1.
  destruct (cond1 t) eqn:E1.
  - (* deleted by the first statement *)
    assert (Hc1 : In c (task_completions db1)).
    { unfold delete_from_tasks in Hc. rewrite H2 in Hc.
      apply delete_from_task_completions_In in Hc. apply Hc. }
    exact (delete_from_tasks_enforced cond1 db t c H Ht E1 Hc1).
  - (* still there after the first statement, so deleted by the cascade *)
    assert (Ht1 : In t (tasks db2)).
    { unfold db2, db1, delete_from_tasks. rewrite H. cbn.
      apply filter_In. rewrite E1. auto. }
    destruct (cond2 t) eqn:E2.
    + exact (delete_from_tasks_enforced cond2 db2 t c H2 Ht1 E2 Hc).
    + exfalso. apply Hgone. unfold delete_from_tasks. rewrite H2. cbn.
      apply filter_In. rewrite E2. auto.
Qed.

Example deleteCategory_enforced_scenario :
  deleteCategory "u" 1
    (mkDatabase true [chores] [daily_task] [mkCompletion 1 "2024-06-15"])
  = (Json true, mkDatabase true [] [] []).
Proof. reflexivity. Qed.

(** ** One-time tasks *)

(** On the facts handed to it, a one-time task is complete as soon as one
    fact of the task is dated "1970-01-01" or later. *)
Lemma one_time_isTaskCompleted now task completions :
  frequency task = "one-time"%string ->
  (isTaskCompleted now task completions = true <->
   exists c, In c completions /\ task_id c = id task /\
             string_ge (completed_date c) "1970-01-01" = true).
Proof.
  intros Hf. rewrite isTaskCompleted_true.
  rewrite (getPeriodStartDate_one_time now task Hf). reflexivity.
Qed.

(** What the handlers answer: only the facts from the retention cut-off
    onwards are fetched, so older facts do not count. *)
Lemma one_time_derivedStatus now userId task db :
  frequency task = "one-time"%string ->
  In task (tasks db) -> user_id task = userId ->
  (derivedStatus now userId task db = true <->
   exists c, In c (task_completions db) /\ task_id c = id task /\
             string_ge (completed_date c) (getCompletionCutoffDate now) = true /\
             string_ge (completed_date c) "1970-01-01" = true).
Proof.
  intros Hf Hin Hu. unfold derivedStatus.
  rewrite (one_time_isTaskCompleted now task _ Hf). split.
  - intros (c & Hc & Hid & Hge). apply getUserCompletions_In in Hc.
    destruct Hc as (Hc & t & _ & H).
    apply andb_prop in H. destruct H as [_ H]. exists c. auto.
  - intros (c & Hc & Hid & Hcut & Hge). exists c.
    split; [|auto]. apply getUserCompletions_In. split; [exact Hc|].
    exists task. split; [exact Hin|].
    rewrite Hid, Z.eqb_refl, Hu, String.eqb_refl, Hcut. reflexivity.
Qed.

(** C4, on the code.  With the clock on 2024-06-15, a one-time task whose
    only fact is dated 2024-01-10 is listed as not completed, and the
    toggle that removes today's fact answers not completed although the
    older fact is still in the ledger; the status resolver itself, given
    that fact, answers completed. *)
Theorem one_time_old_completion_ignored :
  getTasks day_2024_06_15 "u" None
    (store_with one_time_task [mkCompletion 1 "2024-01-10"])
    = [((one_time_task, "Chores"%string), 0)] /\
  toggleTask day_2024_06_15 "u" 1
    (store_with one_time_task
       [mkCompletion 1 "2024-01-10"; mkCompletion 1 "2024-06-15"])
    = (Json (one_time_task, 0),
       store_with one_time_task [mkCompletion 1 "2024-01-10"]) /\
  isTaskCompleted day_2024_06_15 one_time_task [mkCompletion 1 "2024-01-10"] = true /\
  getUserCompletions day_2024_06_15
    (store_with one_time_task [mkCompletion 1 "2024-01-10"]) "u" None = [] /\
  getTasks day_2024_06_15 "u" None
    (store_with one_time_task [mkCompletion 1 "2024-03-15"])
    = [((one_time_task, "Chores"%string), 1)].
Proof. repeat split. Qed.

Example toggle_monthly_overflow :
  toggleTask day_2023_03_01 "u" 1 (store_with monthly_task_30 []) =
    (Json (monthly_task_30, 0),
     store_with monthly_task_30 [mkCompletion 1 "2023-03-01"]).
Proof. reflexivity. Qed.

(** ** The order of formatted dates is the order of days *)

Lemma In_Zrange lo n z : lo <= z < lo + n -> In z (Zrange lo n).
Proof.
  intros H. unfold Zrange. apply in_map_iff.
  exists (Z.to_nat (z - lo)). split; [lia|].
  apply in_seq. lia.
Qed.

Lemma Number_toString_fixed4 n :
  1000 <= n <= 9999 -> Number_toString n = fixed4 n.
Proof.
  intros H.
  assert (Hall : forallb (fun z => (Number_toString z =? fixed4 z)%string)
                   (Zrange 1000 9000) = true) by (vm_compute; reflexivity).
  rewrite forallb_forall in Hall.
  apply String.eqb_eq, Hall, In_Zrange. lia.
Qed.

Lemma padStart_fixed2 n :
  0 <= n <= 99 -> padStart (Number_toString n) 2 "0" = fixed2 n.
Proof.
  intros H.
  assert (Hall : forallb (fun z => (padStart (Number_toString z) 2 "0" =? fixed2 z)%string)
                   (Zrange 0 100) = true) by (vm_compute; reflexivity).
  rewrite forallb_forall in Hall.
  apply String.eqb_eq, Hall, In_Zrange. lia.
Qed.

Lemma formatDate_fixed d :
  fourDigitYear d ->
  formatDate d
  = (fixed4 (getFullYear d) ++ "-" ++ fixed2 (getMonth d + 1) ++ "-"
     ++ fixed2 (JS.getDate d))%string.
Proof.
  intros H. unfold formatDate, fourDigitYear in *.
  pose proof (MonthFromDay_range d). pose proof (DateFromDay_range d).
  rewrite Number_toString_fixed4 by exact H.
  rewrite !padStart_fixed2 by (unfold getMonth, JS.getDate; lia).
  reflexivity.
Qed.

Lemma digit_compare i j :
  0 <= i <= 9 -> 0 <= j <= 9 -> Ascii.compare (digit i) (digit j) = (i ?= j).
Proof.
  intros Hi Hj.
  assert (Hall : forallb (fun a => forallb (fun b =>
                   match Ascii.compare (digit a) (digit b), a ?= b with
                   | Eq, Eq | Lt, Lt | Gt, Gt => true
                   | _, _ => false
                   end) (Zrange 0 10)) (Zrange 0 10) = true)
    by (vm_compute; reflexivity).
  rewrite forallb_forall in Hall.
  specialize (Hall i (In_Zrange 0 10 i ltac:(lia))).
  rewrite forallb_forall in Hall.
  specialize (Hall j (In_Zrange 0 10 j ltac:(lia))).
  destruct (Ascii.compare (digit i) (digit j)), (i ?= j);
    try reflexivity; discriminate.
Qed.

Lemma lex_assoc a b c : lex a (lex b c) = lex (lex a b) c.
Proof. destruct a, b; reflexivity. Qed.

Lemma lex_Eq_l c : lex Eq c = c.
Proof. reflexivity. Qed.

(** One more digit at the end of two numbers. *)
Lemma compare_digit_step x1 x2 i j :
  0 <= i <= 9 -> 0 <= j <= 9 ->
  lex (x1 ?= x2) (i ?= j) = (10 * x1 + i ?= 10 * x2 + j).
Proof.
  intros Hi Hj. unfold lex.
  destruct (Z.compare_spec x1 x2) as [-> | H | H].
  - destruct (Z.compare_spec i j) as [-> | H | H]; symmetry.
    + apply Z.compare_refl.
    + apply Z.compare_lt_iff. lia.
    + apply Z.compare_gt_iff. lia.
  - symmetry. apply Z.compare_lt_iff. lia.
  - symmetry. apply Z.compare_gt_iff. lia.
Qed.

Lemma string_compare_cons a s b t :
  String.compare (String a s) (String b t)
  = lex (Ascii.compare a b) (String.compare s t).
Proof. cbn. destruct (Ascii.compare a b); reflexivity. Qed.

Lemma lex_digits a1 a2 a3 a4 a5 a6 a7 a8 b1 b2 b3 b4 b5 b6 b7 b8 :
  0 <= a1 <= 9 -> 0 <= a2 <= 9 -> 0 <= a3 <= 9 -> 0 <= a4 <= 9 ->
  0 <= a5 <= 9 -> 0 <= a6 <= 9 -> 0 <= a7 <= 9 -> 0 <= a8 <= 9 ->
  0 <= b1 <= 9 -> 0 <= b2 <= 9 -> 0 <= b3 <= 9 -> 0 <= b4 <= 9 ->
  0 <= b5 <= 9 -> 0 <= b6 <= 9 -> 0 <= b7 <= 9 -> 0 <= b8 <= 9 ->
  lex (a1 ?= b1) (lex (a2 ?= b2) (lex (a3 ?= b3) (lex (a4 ?= b4)
    (lex (a5 ?= b5) (lex (a6 ?= b6) (lex (a7 ?= b7) (a8 ?= b8)))))))
  = (10 * (10 * (10 * (10 * (10 * (10 * (10 * a1 + a2) + a3) + a4) + a5) + a6) + a7) + a8
     ?= 10 * (10 * (10 * (10 * (10 * (10 * (10 * b1 + b2) + b3) + b4) + b5) + b6) + b7) + b8).
Proof.
  intros. rewrite !lex_assoc.
  repeat rewrite compare_digit_step by assumption.
  reflexivity.
Qed.

Lemma string_compare_formatDate d1 d2 :
  fourDigitYear d1 -> fourDigitYear d2 ->
  String.compare (formatDate d1) (formatDate d2) = (dateCode d1 ?= dateCode d2).
Proof.
  intros H1 H2.
  rewrite (formatDate_fixed d1 H1), (formatDate_fixed d2 H2).
  unfold fourDigitYear, dateCode in *.
  pose proof (MonthFromDay_range d1). pose proof (DateFromDay_range d1).
  pose proof (MonthFromDay_range d2). pose proof (DateFromDay_range d2).
  unfold getMonth, JS.getDate, getFullYear in *.
  generalize dependent (YearFromDay d1). intros y1 ?.
  generalize dependent (YearFromDay d2). intros y2 ?.
  generalize dependent (MonthFromDay d1). intros m1 ?.
  generalize dependent (MonthFromDay d2). intros m2 ?.
  generalize dependent (DateFromDay d1). intros e1 ?.
  generalize dependent (DateFromDay d2). intros e2 ?.
  unfold fixed4, fixed2. cbn [append].
  rewrite !string_compare_cons.
  rewrite !digit_compare by (Z.to_euclidean_division_equations; lia).
  rewrite !ascii_compare_refl, !lex_Eq_l.
  change (String.compare "" "") with Eq.
  replace (lex (e1 mod 10 ?= e2 mod 10) Eq) with (e1 mod 10 ?= e2 mod 10)
    by (destruct (e1 mod 10 ?= e2 mod 10); reflexivity).
  rewrite lex_digits by (Z.to_euclidean_division_equations; lia).
  f_equal; Z.to_euclidean_division_equations; lia.
Qed.

Lemma firstOfMonth_succ k :
  firstOfMonth (k + 1) = firstOfMonth k + monthLength 0 k.
Proof. apply MakeDay_next_month. Qed.

Lemma firstOfMonth_le k n :
  firstOfMonth k + 28 * Z.of_nat n <= firstOfMonth (k + Z.of_nat n).
Proof.
  induction n as [|n IH].
  - cbn [Z.of_nat]. rewrite Z.mul_0_r, !Z.add_0_r. lia.
  - replace (k + Z.of_nat (S n)) with (k + Z.of_nat n + 1) by lia.
    rewrite firstOfMonth_succ.
    pose proof (monthLength_range 0 (k + Z.of_nat n)). lia.
Qed.

Lemma firstOfMonth_lt k1 k2 :
  k1 < k2 -> firstOfMonth k1 + 28 <= firstOfMonth k2.
Proof.
  intros H. pose proof (firstOfMonth_le k1 (Z.to_nat (k2 - k1))) as Hle.
  replace (k1 + Z.of_nat (Z.to_nat (k2 - k1))) with k2 in Hle by lia.
  lia.
Qed.

(** A day is the first of its month plus its date, and the date does
    not exceed the length of the month. *)
Lemma day_in_month d :
  d = firstOfMonth (monthIndex d) + JS.getDate d - 1 /\
  1 <= JS.getDate d /\
  firstOfMonth (monthIndex d) + JS.getDate d - 1 < firstOfMonth (monthIndex d + 1).
Proof.
  pose proof (MonthFromDay_range d) as Hm.
  pose proof (DateFromDay_range d) as Hd.
  pose proof (DateFromDay_le_month d) as Hl.
  pose proof (MakeDay_fields d) as Hf.
  unfold monthIndex, firstOfMonth, getFullYear, getMonth, JS.getDate.
  assert (Hq : (12 * YearFromDay d + MonthFromDay d) / 12 = YearFromDay d)
    by (Z.to_euclidean_division_equations; lia).
  assert (Hr : (12 * YearFromDay d + MonthFromDay d) mod 12 = MonthFromDay d)
    by (Z.to_euclidean_division_equations; lia).
  assert (Hn : forall x, MakeDay 0 (12 * YearFromDay d + MonthFromDay d) x
                         = MakeDay (YearFromDay d) (MonthFromDay d) x).
  { intros x. rewrite (MakeDay_norm 0). rewrite Hq, Hr. reflexivity. }
  assert (Hlen : monthLength 0 (12 * YearFromDay d + MonthFromDay d)
                 = monthLength (YearFromDay d) (MonthFromDay d)).
  { unfold monthLength. rewrite Hq, Hr.
    rewrite Z.div_small, Z.mod_small, Z.add_0_r by lia. reflexivity. }
  rewrite MakeDay_next_month, Hlen, Hn.
  rewrite (MakeDay_date _ _ 1 (DateFromDay d)), Hf. lia.
Qed.

Lemma dateCode_lt d1 d2 : d1 < d2 -> dateCode d1 < dateCode d2.
Proof.
  intros H.
  destruct (day_in_month d1) as (E1 & L1 & U1).
  destruct (day_in_month d2) as (E2 & L2 & U2).
  pose proof (MonthFromDay_range d1). pose proof (DateFromDay_range d1).
  pose proof (MonthFromDay_range d2). pose proof (DateFromDay_range d2).
  assert (Hk : monthIndex d1 < monthIndex d2 \/
               (monthIndex d1 = monthIndex d2 /\ JS.getDate d1 < JS.getDate d2)).
  { destruct (Z.lt_trichotomy (monthIndex d1) (monthIndex d2)) as [Hlt | [Heq | Hgt]].
    - left; exact Hlt.
    - right. split; [exact Heq|]. rewrite Heq in E1. lia.
    - exfalso.
      assert (firstOfMonth (monthIndex d2 + 1) <= firstOfMonth (monthIndex d1)).
      { destruct (Z.eq_dec (monthIndex d2 + 1) (monthIndex d1)) as [->|]; [lia|].
        pose proof (firstOfMonth_lt (monthIndex d2 + 1) (monthIndex d1)). lia. }
      lia. }
  unfold dateCode, monthIndex, getFullYear, getMonth, JS.getDate in *.
  lia.
Qed.

Lemma dateCode_compare d1 d2 : (dateCode d1 ?= dateCode d2) = (d1 ?= d2).
Proof.
  destruct (Z.compare_spec d1 d2) as [-> | H | H].
  - apply Z.compare_refl.
  - apply Z.compare_lt_iff, dateCode_lt, H.
  - apply Z.compare_gt_iff, dateCode_lt, H.
Qed.

(** On dates with a four-digit year, the order of the formatted texts is
    the order of the days. *)
Lemma formatDate_compare d1 d2 :
  fourDigitYear d1 -> fourDigitYear d2 ->
  String.compare (formatDate d1) (formatDate d2) = (d1 ?= d2).
Proof.
  intros H1 H2. rewrite string_compare_formatDate by assumption.
  apply dateCode_compare.
Qed.

Lemma formatDate_lt d1 d2 :
  fourDigitYear d1 -> fourDigitYear d2 ->
  string_lt (formatDate d1) (formatDate d2) = (d1 <? d2).
Proof.
  intros H1 H2. unfold string_lt, String.ltb, Z.ltb.
  rewrite formatDate_compare by assumption. reflexivity.
Qed.

Lemma formatDate_ge d1 d2 :
  fourDigitYear d1 -> fourDigitYear d2 ->
  string_ge (formatDate d1) (formatDate d2) = (d2 <=? d1).
Proof.
  intros H1 H2. rewrite string_ge_lt, formatDate_lt by assumption.
  destruct (Z.ltb_spec d1 d2), (Z.leb_spec d2 d1); try reflexivity; lia.
Qed.

Lemma formatDate_inj d1 d2 :
  fourDigitYear d1 -> fourDigitYear d2 ->
  formatDate d1 = formatDate d2 -> d1 = d2.
Proof.
  intros H1 H2 E. apply Z.compare_eq.
  rewrite <- formatDate_compare by assumption.
  rewrite E. apply string_compare_refl.
Qed.

(** ** The retention sweeper *)

Lemma completionCutoffDay_fields now :
  JS.getDate now <= 28 ->
  getFullYear (completionCutoffDay now)
    = getFullYear now + (getMonth now - COMPLETION_HISTORY_MONTHS) / 12 /\
  getMonth (completionCutoffDay now)
    = (getMonth now - COMPLETION_HISTORY_MONTHS) mod 12 /\
  JS.getDate (completionCutoffDay now) = JS.getDate now.
Proof.
  intros H. pose proof (DateFromDay_range now).
  unfold completionCutoffDay, setMonth, getFullYear, getMonth, JS.getDate in *.
  apply fields_of_MakeDay_norm. lia.
Qed.

(** C7.  The sweep removes from the ledger exactly the facts whose date
    text is below the cut-off text, and keeps the others as they are and
    in their order; the other tables are untouched.  On dates written
    with a four-digit year, below the cut-off text means before the
    cut-off day, the day that [setMonth] makes of today's date three
    months back.  With the clock on 2024-06-15 the cut-off is
    2024-03-15: a fact dated 2024-03-14 is gone after the sweep and a
    fact dated 2024-03-15 is kept. *)
Theorem retention_sweep (now : Date) (db : Database) :
  let cutoff := getCompletionCutoffDate now in
  let db' := cleanupOldCompletions now db in
  (task_completions db'
     = filter (fun c => string_ge (completed_date c) cutoff) (task_completions db) /\
   (forall c, In c (task_completions db) ->
              string_lt (completed_date c) cutoff = true ->
              ~ In c (task_completions db')) /\
   (forall c, In c (task_completions db) ->
              string_ge (completed_date c) cutoff = true ->
              In c (task_completions db')) /\
   (forall c, In c (task_completions db') -> In c (task_completions db)) /\
   tasks db' = tasks db /\
   categories db' = categories db) /\
  (forall (taskId : Z) (d : Date),
     fourDigitYear d -> fourDigitYear (completionCutoffDay now) ->
     (In (mkCompletion taskId (formatDate d)) (task_completions db') <->
      In (mkCompletion taskId (formatDate d)) (task_completions db) /\
      completionCutoffDay now <= d)) /\
  (getCompletionCutoffDate day_2024_06_15 = "2024-03-15"%string /\
   forall taskId : Z,
     ~ In (mkCompletion taskId "2024-03-14")
          (task_completions (cleanupOldCompletions day_2024_06_15 db)) /\
     (In (mkCompletion taskId "2024-03-15") (task_completions db) ->
      In (mkCompletion taskId "2024-03-15")
         (task_completions (cleanupOldCompletions day_2024_06_15 db)))).
Proof.
  cbv zeta. unfold cleanupOldCompletions.
  split.
  - split; [reflexivity|].
    split; [|split; [|split; [|split; reflexivity]]].
    + intros c _ Hlt Hin. apply delete_from_task_completions_In in Hin.
      destruct Hin as [_ Hin]. rewrite Hlt in Hin. discriminate.
    + intros c Hin Hge. apply delete_from_task_completions_In.
      split; [exact Hin|]. rewrite string_ge_lt in Hge.
      apply negb_true_iff. exact Hge.
    + intros c Hin. apply delete_from_task_completions_In in Hin. tauto.
  - split.
    { intros taskId d Hd Hc. rewrite delete_from_task_completions_In.
      cbn [completed_date]. unfold getCompletionCutoffDate.
      rewrite formatDate_lt by assumption.
      rewrite Z.ltb_ge. reflexivity. }
    split; [reflexivity|]. intros taskId.
    rewrite !delete_from_task_completions_In.
    replace (getCompletionCutoffDate day_2024_06_15) with "2024-03-15"%string
      by reflexivity.
    cbn [completed_date].
    split; [intros [_ H]; vm_compute in H; discriminate|].
    intros H. split; [exact H | reflexivity].
Qed.

Example retention_sweep_scenario :
  cleanupOldCompletions day_2024_06_15
    (store_with daily_task
       [mkCompletion 1 "2024-03-14"; mkCompletion 1 "2024-03-15";
        mkCompletion 1 "2024-06-15"; mkCompletion 1 "2023-12-31"])
  = store_with daily_task
      [mkCompletion 1 "2024-03-15"; mkCompletion 1 "2024-06-15"].
Proof. reflexivity. Qed.

(** * Further properties of the server *)

(** ** The toggle handler, both branches *)

Lemma wasCompletedOnDate_is_fact taskId date l :
  wasCompletedOnDate taskId date l = existsb (is_fact taskId date) l.
Proof. reflexivity. Qed.

Lemma wasCompletedOnDate_In taskId date l :
  wasCompletedOnDate taskId date l = true <-> In (mkCompletion taskId date) l.
Proof. rewrite wasCompletedOnDate_is_fact. apply existsb_is_fact. Qed.

Lemma In_dec_fact taskId date l :
  {In (mkCompletion taskId date) l} + {~ In (mkCompletion taskId date) l}.
Proof.
  destruct (existsb (is_fact taskId date) l) eqn:E.
  - left. apply existsb_is_fact. exact E.
  - right. intros H. apply existsb_is_fact in H. congruence.
Qed.

Lemma toggleTask_store now userId tid db task :
  select_task userId tid db = Some task ->
  snd (toggleTask now userId tid db)
  = if wasCompletedOnDate tid (getTodayDate now) (task_completions db)
    then delete_completion tid (getTodayDate now) db
    else with_task_completions db
           (task_completions db ++ [mkCompletion tid (getTodayDate now)]).
Proof.
  intros Ht.
  destruct (wasCompletedOnDate tid (getTodayDate now) (task_completions db)) eqn:E.
  - apply wasCompletedOnDate_In in E.
    rewrite (toggleTask_off now userId tid db task Ht E). reflexivity.
  - assert (Hn : ~ In (mkCompletion tid (getTodayDate now)) (task_completions db)).
    { intros H. apply wasCompletedOnDate_In in H. congruence. }
    rewrite (toggleTask_on now userId tid db task Ht Hn). reflexivity.
Qed.

(** X1.  A toggle by the owner flips the presence of today's fact of the
    task and touches nothing else: every other row of the ledger, the
    tasks and the categories are as before. *)
Theorem toggle_flips_today (now : Date) (userId : string) (tid : Z)
    (db : Database) (task : Task) :
  select_task userId tid db = Some task ->
  let today := getTodayDate now in
  let db' := snd (toggleTask now userId tid db) in
  wasCompletedOnDate tid today (task_completions db')
    = negb (wasCompletedOnDate tid today (task_completions db)) /\
  (forall c, c <> mkCompletion tid today ->
             (In c (task_completions db') <-> In c (task_completions db))) /\
  tasks db' = tasks db /\
  categories db' = categories db /\
  pragma_foreign_keys db' = pragma_foreign_keys db.
Proof.
  intros Ht. cbv zeta. rewrite (toggleTask_store now userId tid db task Ht).
  destruct (wasCompletedOnDate tid (getTodayDate now) (task_completions db)) eqn:E.
  - split; [|split; [|repeat split]].
    + cbn [negb]. rewrite wasCompletedOnDate_is_fact.
      unfold delete_completion, delete_from_task_completions. cbn.
      apply existsb_filter_negb.
    + intros c Hc. unfold delete_completion.
      rewrite delete_from_task_completions_In. split; [tauto|].
      intros H. split; [exact H|].
      destruct (is_fact tid (getTodayDate now) c) eqn:Ec; [|reflexivity].
      apply is_fact_true in Ec. contradiction.
  - split; [|split; [|repeat split]].
    + cbn [negb]. apply wasCompletedOnDate_In. cbn.
      apply in_or_app. right. left. reflexivity.
    + intros c Hc. cbn. rewrite in_app_iff. cbn.
      split; [intros [H | [H | []]]; [exact H | congruence] | auto].
Qed.

Lemma toggle_flips_today_witness :
  wasCompletedOnDate 1 (getTodayDate day_2024_06_15)
    (task_completions (snd (toggleTask day_2024_06_15 "u" 1 store_three_facts)))
    = negb (wasCompletedOnDate 1 (getTodayDate day_2024_06_15)
              (task_completions store_three_facts)) /\
  (forall c, c <> mkCompletion 1 (getTodayDate day_2024_06_15) ->
             (In c (task_completions
                      (snd (toggleTask day_2024_06_15 "u" 1 store_three_facts)))
              <-> In c (task_completions store_three_facts))) /\
  tasks (snd (toggleTask day_2024_06_15 "u" 1 store_three_facts))
    = tasks store_three_facts /\
  categories (snd (toggleTask day_2024_06_15 "u" 1 store_three_facts))
    = categories store_three_facts /\
  pragma_foreign_keys (snd (toggleTask day_2024_06_15 "u" 1 store_three_facts))
    = pragma_foreign_keys store_three_facts.
Proof.
  apply (toggle_flips_today day_2024_06_15 "u" 1 store_three_facts daily_task).
  reflexivity.
Defined.

(** ** Requests for rows of another user *)

Lemma select_task_none userId tid db :
  (forall t, In t (tasks db) -> id t = tid -> user_id t <> userId) ->
  select_task userId tid db = None.
Proof.
  intros H. unfold select_task. apply queryOne_filter_none.
  destruct (existsb _ (tasks db)) eqn:E; [|reflexivity].
  apply existsb_exists in E. destruct E as (t & Hin & Ht).
  apply andb_prop in Ht. destruct Ht as [H1 H2].
  apply Z.eqb_eq in H1. apply String.eqb_eq in H2.
  exfalso. exact (H t Hin H1 H2).
Qed.

Lemma select_category_none userId cid db :
  (forall c, In c (categories db) -> cat_id c = cid -> cat_user_id c <> userId) ->
  select_category userId cid db = None.
Proof.
  intros H. unfold select_category. apply queryOne_filter_none.
  destruct (existsb _ (categories db)) eqn:E; [|reflexivity].
  apply existsb_exists in E. destruct E as (c & Hin & Hc).
  apply andb_prop in Hc. destruct Hc as [H1 H2].
  apply Z.eqb_eq in H1. apply String.eqb_eq in H2.
  exfalso. exact (H c Hin H1 H2).
Qed.

(** X2.  When no task with the requested id belongs to the requesting
    user (the id is unknown, or the task is another user's), the toggle,
    edit and delete handlers all answer 404 "Task not found" and leave
    the store as it is. *)
Theorem foreign_task_refused (now : Date) (userId : string) (tid : Z)
    (body : TaskBody) (db : Database) :
  (forall t, In t (tasks db) -> id t = tid -> user_id t <> userId) ->
  toggleTask now userId tid db = (Status 404 "Task not found", db) /\
  editTask now userId tid body db = (Status 404 "Task not found", db) /\
  deleteTask userId tid db = (Status 404 "Task not found", db).
Proof.
  intros H. apply select_task_none in H.
  unfold toggleTask, editTask, deleteTask. rewrite H. auto.
Qed.

Lemma foreign_task_refused_witness :
  toggleTask day_2024_06_15 "v" 1 store_three_facts
    = (Status 404 "Task not found", store_three_facts) /\
  editTask day_2024_06_15 "v" 1 body_rename store_three_facts
    = (Status 404 "Task not found", store_three_facts) /\
  deleteTask "v" 1 store_three_facts
    = (Status 404 "Task not found", store_three_facts).
Proof.
  apply (foreign_task_refused day_2024_06_15 "v" 1 body_rename store_three_facts).
  intros t [<- | [<- | []]] _; discriminate.
Defined.

(** X3.  When no category with the requested id belongs to the
    requesting user, deleting it and creating a task in it both answer
    404 "Category not found" and leave the store as it is. *)
Theorem foreign_category_refused (rowid : Z) (stamp userId : string)
    (cid : Z) (ttl freq : string) (resetDay : Field Z) (db : Database) :
  (forall c, In c (categories db) -> cat_id c = cid -> cat_user_id c <> userId) ->
  ttl <> ""%string -> freq <> ""%string -> cid <> 0 ->
  deleteCategory userId cid db = (Status 404 "Category not found", db) /\
  addTask rowid stamp userId
    (mkTaskBody (Value ttl) (Value freq) (Value cid) resetDay) db
    = (Status 404 "Category not found", db).
Proof.
  intros H Ht Hf Hc. apply select_category_none in H.
  unfold deleteCategory, addTask. cbn.
  apply String.eqb_neq in Ht, Hf. apply Z.eqb_neq in Hc.
  rewrite Ht, Hf, Hc, H. auto.
Qed.

Lemma foreign_category_refused_witness :
  deleteCategory "v" 1 store_three_facts
    = (Status 404 "Category not found", store_three_facts) /\
  addTask 3 "2024-06-15 10:00:00" "v"
    (mkTaskBody (Value "mow the lawn"%string) (Value "weekly"%string)
                (Value 1) Undefined) store_three_facts
    = (Status 404 "Category not found", store_three_facts).
Proof.
  apply (foreign_category_refused 3 "2024-06-15 10:00:00" "v" 1
           "mow the lawn" "weekly" Undefined store_three_facts).
  - intros c [<- | []] _. discriminate.
  - discriminate.
  - discriminate.
  - discriminate.
Defined.

(** ** An error answer means no write *)

(** [UPDATE tasks] never changes the id, the owner or the category of a
    row. *)
Lemma update_rows_unchanged_cond cond body rows rows' :
  update_rows cond body rows = inl rows' ->
  map id rows' = map id rows /\
  map user_id rows' = map user_id rows /\
  map category_id rows' = map category_id rows.
Proof.
  revert rows'. induction rows as [|t rest IH]; intros rows' H; cbn in H.
  - injection H as <-. auto.
  - destruct (cond t).
    + destruct (set_fields body t) as [t' | m] eqn:Es; [|discriminate].
      destruct (update_rows cond body rest) as [rest' | m]; [|discriminate].
      injection H as <-. destruct (IH rest' eq_refl) as (H1 & H2 & H3).
      unfold set_fields in Es.
      destruct (body_title body), (body_frequency body); try discriminate;
        cbn in Es;
        repeat match type of Es with
        | (if ?b then _ else _) = _ => destruct b; try discriminate
        end;
        injection Es as <-; cbn; rewrite H1, H2, H3; auto.
    + destruct (update_rows cond body rest) as [rest' | m]; [|discriminate].
      injection H as <-. destruct (IH rest' eq_refl) as (H1 & H2 & H3).
      cbn. rewrite H1, H2, H3. auto.
Qed.

Lemma join_categories_nonempty db ts t :
  In t ts ->
  (exists c, In c (categories db) /\ cat_id c = category_id t) ->
  join_categories db ts <> [].
Proof.
  intros Hin (c & Hc & Hid) E.
  assert (Hrow : In (t, cat_name c) (join_categories db ts)).
  { unfold join_categories. apply in_flat_map. exists t. split; [exact Hin|].
    apply in_map_iff. exists c. split; [reflexivity|].
    apply filter_In. split; [exact Hc|]. rewrite Hid. apply Z.eqb_refl. }
  rewrite E in Hrow. contradiction.
Qed.

Ltac error_answer H :=
  destruct H as (code & message & H); try discriminate.

(** X4.  A handler that answers with an error status has written
    nothing: after a 400, 404 or 500 from the toggle, the two delete
    handlers, category creation or task creation the store is the one
    before the request. *)
Theorem error_answer_no_write (now : Date) (rowid : Z) (stamp userId : string)
    (tid cid : Z) (name : Field string) (body : TaskBody) (db : Database) :
  ((exists code message,
      fst (toggleTask now userId tid db) = Status code message) ->
   snd (toggleTask now userId tid db) = db) /\
  ((exists code message,
      fst (deleteTask userId tid db) = Status code message) ->
   snd (deleteTask userId tid db) = db) /\
  ((exists code message,
      fst (deleteCategory userId cid db) = Status code message) ->
   snd (deleteCategory userId cid db) = db) /\
  ((exists code message,
      fst (addCategory rowid userId name db) = Status code message) ->
   snd (addCategory rowid userId name db) = db) /\
  ((exists code message,
      fst (addTask rowid stamp userId body db) = Status code message) ->
   snd (addTask rowid stamp userId body db) = db).
Proof.
  repeat split.
  - unfold toggleTask. destruct (select_task userId tid db); [|reflexivity].
    cbv zeta.
    destruct (queryOne (filter (is_fact tid (getTodayDate now)) (task_completions db))).
    + intros H. error_answer H.
    + destruct (insert_or_ignore_completion tid (getTodayDate now) db);
        [intros H; error_answer H | reflexivity].
  - unfold deleteTask. destruct (select_task userId tid db); [|reflexivity].
    intros H. error_answer H.
  - unfold deleteCategory. destruct (select_category userId cid db); [|reflexivity].
    intros H. error_answer H.
  - unfold addCategory. destruct (falsy_text name); [reflexivity|].
    destruct name as [| |n]; try reflexivity.
    destruct (insert_category rowid userId n db) as [db'|m].
    + intros H. error_answer H.
    + destruct (includes m "UNIQUE constraint"); reflexivity.
  - unfold addTask.
    destruct (falsy_text (body_title body) || falsy_text (body_frequency body)
              || falsy_number (body_category_id body)); [reflexivity|].
    destruct (body_title body) as [| |ttl]; try reflexivity.
    destruct (body_frequency body) as [| |freq]; try reflexivity.
    destruct (body_category_id body) as [| |c]; try reflexivity.
    destruct (select_category userId c db); [|reflexivity].
    destruct (insert_task rowid stamp userId ttl freq c
                (finalResetDay freq (body_reset_day body)) db) as [db'|m];
      [intros H; error_answer H | reflexivity].
Qed.

(** X5.  The edit handler can answer 500 after having written: when the
    category of the edited task is missing, the row is updated and the
    handler then fails on the empty joined row.  On a store where every
    task has its category, an error answer of the edit handler means
    that nothing was written. *)
Theorem edit_error_no_write (now : Date) (userId : string) (tid : Z)
    (body : TaskBody) (db : Database) :
  tasks_have_category db ->
  (exists code message,
     fst (editTask now userId tid body db) = Status code message) ->
  snd (editTask now userId tid body db) = db.
Proof.
  intros Hcat. unfold editTask.
  destruct (select_task userId tid db) as [task|] eqn:Ht; [|reflexivity].
  destruct (negb (provided (body_title body)) && negb (provided (body_frequency body))
            && negb (provided (body_reset_day body))); [reflexivity|].
  unfold update_tasks.
  destruct (update_rows _ body (tasks db)) as [rows|m] eqn:Eu; [|reflexivity].
  destruct (select_task_row tid (with_tasks db rows)) as [row|] eqn:Er.
  - intros H. error_answer H.
  - exfalso. unfold select_task_row in Er.
    destruct (update_rows_unchanged_cond _ _ _ _ Eu) as (Hid & _ & Hc).
    apply select_task_found in Ht. destruct Ht as (Hin & Hi & _).
    (* the row with the same id and category is still there *)
    assert (Hex : exists t', In t' rows /\ id t' = tid
                             /\ category_id t' = category_id task).
    { clear Er Eu. revert rows Hid Hc.
      induction (tasks db) as [|t rest IH]; [contradiction|].
      intros [|t' rows'] Hid Hc; [discriminate|].
      cbn in Hid, Hc. injection Hid as Hid0 Hid. injection Hc as Hc0 Hc.
      destruct Hin as [-> | Hin].
      - exists t'. split; [left; reflexivity|]. split; congruence.
      - destruct (IH Hin rows' Hid Hc) as (x & Hx & Hx').
        exists x. split; [right; exact Hx | exact Hx']. }
    destruct Hex as (t' & Hin' & Hid' & Hcat').
    destruct (Hcat task Hin) as (c & Hc1 & Hc2 & _).
    assert (Hne : join_categories (with_tasks db rows)
                    (filter (fun t => id t =? tid) (tasks (with_tasks db rows))) <> []).
    { apply (join_categories_nonempty _ _ t').
      - apply filter_In. split; [exact Hin'|]. apply Z.eqb_eq. exact Hid'.
      - exists c. split; [exact Hc1 | congruence]. }
    destruct (join_categories _ _); [contradiction | discriminate].
Qed.

Example edit_writes_then_fails :
  editTask day_2024_06_15 "u" 1 body_rename store_missing_category
  = (Status 500 "Cannot read properties of null (reading 'frequency')",
     SQL_Database []
       [mkTask 1 "u" "feed both cats" "daily" 1 None "2024-01-01 08:00:00"] []).
Proof. reflexivity. Qed.

Lemma edit_error_no_write_witness :
  snd (editTask day_2024_06_15 "u" 1 body_bad_frequency store_three_facts)
  = store_three_facts.
Proof.
  apply (edit_error_no_write day_2024_06_15 "u" 1 body_bad_frequency store_three_facts).
  - intros t [<- | [<- | []]]; exists chores; cbn; auto.
  - exists 500, "CHECK constraint failed: frequency"%string. reflexivity.
Defined.

(** ** The conditions of the schema are kept *)

Lemma NoDup_snoc {A : Type} (l : list A) (x : A) :
  NoDup l -> ~ In x l -> NoDup (l ++ [x]).
Proof.
  intros Hl Hx. induction Hl as [|y l Hy Hl IH]; cbn.
  - constructor; [intros []|constructor].
  - constructor.
    + rewrite in_app_iff. cbn. intros [H | [H | []]]; [contradiction|].
      subst. apply Hx. left; reflexivity.
    + apply IH. intros H. apply Hx. right; exact H.
Qed.

Lemma delete_keeps_unique_keys {Row Key : Type} (key : Row -> Key)
    (kept : Row -> bool) (rows : list Row) :
  NoDup (map key rows) -> NoDup (map key (filter kept rows)).
Proof.
  intros Hu. induction rows as [|r rows IH]; cbn in *; [constructor|].
  apply NoDup_cons_iff in Hu. destruct Hu as [Hr Hrows].
  destruct (kept r); cbn; [|exact (IH Hrows)].
  apply NoDup_cons_iff. split; [|exact (IH Hrows)].
  intros Hin. apply Hr. apply in_map_iff in Hin.
  destruct Hin as (y & Hy & Hin). apply filter_In in Hin.
  apply in_map_iff. exists y. tauto.
Qed.

Lemma well_formed_ledger db facts :
  well_formed db -> NoDup facts ->
  well_formed (with_task_completions db facts).
Proof. intros (_ & H) Hf. split; [exact Hf | exact H]. Qed.

Lemma well_formed_delete_from_task_completions cond db :
  well_formed db -> well_formed (delete_from_task_completions cond db).
Proof.
  intros H. apply well_formed_ledger; [exact H|].
  apply NoDup_filter. apply H.
Qed.

Lemma well_formed_delete_from_tasks cond db :
  well_formed db -> well_formed (delete_from_tasks cond db).
Proof.
  intros H. unfold delete_from_tasks.
  assert (H1 : well_formed
                 (with_tasks db (filter (fun t => negb (cond t)) (tasks db)))).
  { destruct H as (Hf & Hi & Hc & Ht & Hq).
    split; [exact Hf|]. split; [|split; [exact Hc|split]].
    - unfold unique_task_ids. cbn. apply delete_keeps_unique_keys. exact Hi.
    - intros t Hin. cbn in Hin. apply filter_In in Hin. apply Ht. tauto.
    - intros t Hin. cbn in Hin. apply filter_In in Hin. apply Hq. tauto. }
  destruct (pragma_foreign_keys db); [|exact H1].
  apply well_formed_delete_from_task_completions. exact H1.
Qed.

Lemma toggleTask_well_formed now userId tid db :
  well_formed db -> well_formed (snd (toggleTask now userId tid db)).
Proof.
  intros H. destruct (select_task userId tid db) as [task|] eqn:Ht.
  - rewrite (toggleTask_store now userId tid db task Ht).
    destruct (wasCompletedOnDate tid (getTodayDate now) (task_completions db)) eqn:E.
    + apply well_formed_delete_from_task_completions. exact H.
    + apply well_formed_ledger; [exact H|].
      apply NoDup_snoc; [apply H|].
      intros Hin. apply wasCompletedOnDate_In in Hin. congruence.
  - unfold toggleTask. rewrite Ht. exact H.
Qed.

Lemma deleteTask_well_formed userId tid db :
  well_formed db -> well_formed (snd (deleteTask userId tid db)).
Proof.
  intros H. unfold deleteTask.
  destruct (select_task userId tid db); [|exact H].
  apply well_formed_delete_from_tasks. exact H.
Qed.

Lemma deleteCategory_well_formed userId cid db :
  well_formed db -> well_formed (snd (deleteCategory userId cid db)).
Proof.
  intros H. unfold deleteCategory.
  destruct (select_category userId cid db) as [found|]; [|exact H]. cbn [snd].
  clear found.
  set (cond1 := fun t => (category_id t =? cid) && (user_id t =? userId)%string).
  set (cond2 := fun c => (cat_id c =? cid) && (cat_user_id c =? userId)%string).
  assert (Hgone : forall t, In t (tasks (delete_from_tasks cond1 db)) ->
                            In t (tasks db) /\ cond1 t = false).
  { intros t. unfold delete_from_tasks.
    destruct (pragma_foreign_keys db); cbn; rewrite filter_In, negb_true_iff; tauto. }
  pose proof (well_formed_delete_from_tasks cond1 db H) as H1.
  assert (Hcats : categories (delete_from_tasks cond1 db) = categories db).
  { unfold delete_from_tasks. destruct (pragma_foreign_keys db); reflexivity. }
  generalize dependent (delete_from_tasks cond1 db). intros db1 Hgone H1 Hcats.
  unfold delete_from_categories.
  set (db2 := with_categories db1 (filter (fun c => negb (cond2 c)) (categories db1))).
  assert (H2 : well_formed db2).
  { destruct H1 as (Hf & Hi & (Hc1 & Hc2) & Ht & Hq).
    split; [exact Hf|]. split; [exact Hi|]. split; [|split; [|exact Hq]].
    - split; unfold db2; cbn; apply delete_keeps_unique_keys; assumption.
    - intros t Hin. cbn in Hin. destruct (Ht t Hin) as (c & Hc & Hid & Hu).
      exists c. split; [|auto]. unfold db2. cbn. apply filter_In.
      split; [exact Hc|]. apply negb_true_iff.
      destruct (cond2 c) eqn:E; [|reflexivity]. exfalso.
      unfold cond2 in E. apply andb_prop in E. destruct E as [E1 E2].
      apply Z.eqb_eq in E1. apply String.eqb_eq in E2.
      destruct (Hgone t Hin) as [_ Hn]. unfold cond1 in Hn.
      rewrite <- Hid, E1, Z.eqb_refl, <- Hu, E2, String.eqb_refl in Hn.
      discriminate. }
  destruct (pragma_foreign_keys db1); [|exact H2].
  apply well_formed_delete_from_tasks. exact H2.
Qed.

(** X6.  The handlers that remove rows or toggle a fact keep the
    conditions of the schema, with or without enforcement by the engine:
    after a toggle, a sweep, or the deletion of a task or of a category,
    there is still at most one fact per (task, date), ids and category
    names are still unique, every stored frequency is one of the four,
    and every task still has a category of its own owner. *)
Theorem removals_keep_well_formed (now : Date) (userId : string)
    (tid cid : Z) (db : Database) :
  well_formed db ->
  well_formed (snd (toggleTask now userId tid db)) /\
  well_formed (cleanupOldCompletions now db) /\
  well_formed (snd (deleteTask userId tid db)) /\
  well_formed (snd (deleteCategory userId cid db)).
Proof.
  intros H. split; [|split; [|split]].
  - apply toggleTask_well_formed. exact H.
  - apply well_formed_delete_from_task_completions. exact H.
  - apply deleteTask_well_formed. exact H.
  - apply deleteCategory_well_formed. exact H.
Qed.

Lemma store_three_facts_well_formed : well_formed store_three_facts.
Proof.
  unfold well_formed, unique_facts, unique_task_ids, unique_categories,
    tasks_have_category, checked_frequencies.
  repeat split.
  - repeat constructor; cbn; intuition discriminate.
  - repeat constructor; cbn; intuition discriminate.
  - repeat constructor; cbn; intuition discriminate.
  - repeat constructor; cbn; intuition discriminate.
  - intros t [<- | [<- | []]]; exists chores; cbn; auto.
  - intros t [<- | [<- | []]]; reflexivity.
Qed.

Lemma removals_keep_well_formed_witness :
  well_formed (snd (toggleTask day_2024_06_15 "u" 1 store_three_facts)) /\
  well_formed (cleanupOldCompletions day_2024_06_15 store_three_facts) /\
  well_formed (snd (deleteTask "u" 1 store_three_facts)) /\
  well_formed (snd (deleteCategory "u" 1 store_three_facts)).
Proof.
  apply (removals_keep_well_formed day_2024_06_15 "u" 1 1 store_three_facts).
  exact store_three_facts_well_formed.
Defined.

Lemma insert_category_done rowid userId name db db' :
  insert_category rowid userId name db = Done db' ->
  db' = with_categories db (categories db ++ [mkCategory rowid userId name]) /\
  ~ In rowid (map cat_id (categories db)) /\
  ~ In (userId, name) (map (fun c => (cat_user_id c, cat_name c)) (categories db)).
Proof.
  unfold insert_category.
  destruct (existsb _ (categories db)) eqn:E1; [discriminate|].
  destruct (existsb (fun c => cat_id c =? rowid) (categories db)) eqn:E2;
    [discriminate|].
  intros H. injection H as <-. split; [reflexivity|]. split.
  - intros Hin. apply in_map_iff in Hin. destruct Hin as (c & Hc & Hin).
    apply not_true_iff_false in E2. apply E2. apply existsb_exists.
    exists c. split; [exact Hin|]. apply Z.eqb_eq. exact Hc.
  - intros Hin. apply in_map_iff in Hin. destruct Hin as (c & Hc & Hin).
    injection Hc as Hu Hn.
    apply not_true_iff_false in E1. apply E1. apply existsb_exists.
    exists c. split; [exact Hin|].
    rewrite Hu, Hn, !String.eqb_refl. reflexivity.
Qed.

Lemma insert_task_done rowid stamp userId ttl freq cid resetDay db db' :
  insert_task rowid stamp userId ttl freq cid resetDay db = Done db' ->
  db' = with_tasks db
          (tasks db ++ [mkTask rowid userId ttl freq cid resetDay stamp]) /\
  check_frequency freq = true /\
  ~ In rowid (map id (tasks db)).
Proof.
  unfold insert_task.
  destruct (check_frequency freq) eqn:E1; cbn [negb]; [|discriminate].
  destruct (existsb (fun t => id t =? rowid) (tasks db)) eqn:E2; [discriminate|].
  destruct (pragma_foreign_keys db && _); [discriminate|].
  intros H. injection H as <-. split; [reflexivity|]. split; [reflexivity|].
  intros Hin. apply in_map_iff in Hin. destruct Hin as (t & Ht & Hin).
  apply not_true_iff_false in E2. apply E2. apply existsb_exists.
  exists t. split; [exact Hin|]. apply Z.eqb_eq. exact Ht.
Qed.

Lemma select_category_found userId cid db c :
  select_category userId cid db = Some c ->
  In c (categories db) /\ cat_id c = cid /\ cat_user_id c = userId.
Proof.
  intros H. apply queryOne_filter_some in H. destruct H as [Hin H].
  apply andb_prop in H. destruct H as [H1 H2].
  apply Z.eqb_eq in H1. apply String.eqb_eq in H2. auto.
Qed.

Lemma addCategory_well_formed rowid userId name db :
  well_formed db -> well_formed (snd (addCategory rowid userId name db)).
Proof.
  intros H. unfold addCategory.
  destruct (falsy_text name); [exact H|].
  destruct name as [| |n]; try exact H.
  destruct (insert_category rowid userId n db) as [db'|m] eqn:E.
  - cbn [snd]. apply insert_category_done in E. destruct E as (-> & Hid & Hn).
    destruct H as (Hf & Hi & (Hc1 & Hc2) & Ht & Hq).
    split; [exact Hf|]. split; [exact Hi|]. split; [|split; [|exact Hq]].
    + split; cbn; rewrite map_app; apply NoDup_snoc; assumption.
    + intros t Hin. destruct (Ht t Hin) as (c & Hc & Hcc).
      exists c. split; [|exact Hcc]. cbn. apply in_or_app. left. exact Hc.
  - destruct (includes m "UNIQUE constraint"); exact H.
Qed.

Lemma addTask_well_formed rowid stamp userId body db :
  well_formed db -> well_formed (snd (addTask rowid stamp userId body db)).
Proof.
  intros H. unfold addTask.
  destruct (falsy_text (body_title body) || falsy_text (body_frequency body)
            || falsy_number (body_category_id body)); [exact H|].
  destruct (body_title body) as [| |ttl]; try exact H.
  destruct (body_frequency body) as [| |freq]; try exact H.
  destruct (body_category_id body) as [| |c]; try exact H.
  destruct (select_category userId c db) as [cat|] eqn:Ec; [|exact H].
  destruct (insert_task rowid stamp userId ttl freq c
              (finalResetDay freq (body_reset_day body)) db) as [db'|m] eqn:E;
    [|exact H].
  cbn [snd]. apply insert_task_done in E. destruct E as (-> & Hfreq & Hid).
  apply select_category_found in Ec. destruct Ec as (Hin & Hcid & Hu).
  destruct H as (Hf & Hi & Hc & Ht & Hq).
  split; [exact Hf|]. split; [|split; [exact Hc|split]].
  - unfold unique_task_ids. cbn. rewrite map_app. apply NoDup_snoc; assumption.
  - intros t Hint. cbn in Hint. apply in_app_or in Hint.
    destruct Hint as [Hint | [<- | []]]; [exact (Ht t Hint)|].
    exists cat. cbn. auto.
  - intros t Hint. cbn in Hint. apply in_app_or in Hint.
    destruct Hint as [Hint | [<- | []]]; [exact (Hq t Hint) | exact Hfreq].
Qed.

(** X7.  Creating a category or a task keeps the conditions of the
    schema, whatever the request and whatever row id the engine hands
    out: a name that the user already has, an id already in use, or a
    frequency outside the four are refused, and a task is only created
    in a category of the requesting user. *)
Theorem creations_keep_well_formed (rowid : Z) (stamp userId : string)
    (name : Field string) (body : TaskBody) (db : Database) :
  well_formed db ->
  well_formed (snd (addCategory rowid userId name db)) /\
  well_formed (snd (addTask rowid stamp userId body db)).
Proof.
  intros H. split.
  - apply addCategory_well_formed. exact H.
  - apply addTask_well_formed. exact H.
Qed.

Lemma creations_keep_well_formed_witness :
  well_formed (snd (addCategory 3 "u" (Value "Garden"%string) store_three_facts)) /\
  well_formed (snd (addTask 3 "2024-06-15 10:00:00" "u" body_weekly_no_day
                      store_three_facts)).
Proof.
  apply (creations_keep_well_formed 3 "2024-06-15 10:00:00" "u"
           (Value "Garden"%string) body_weekly_no_day store_three_facts).
  exact store_three_facts_well_formed.
Defined.

(** ** Editing a task *)

Lemma set_fields_kept body t t' :
  set_fields body t = inl t' ->
  id t' = id t /\ user_id t' = user_id t /\ category_id t' = category_id t /\
  created_at t' = created_at t /\
  title t' = match body_title body with Value v => v | _ => title t end /\
  frequency t' = match body_frequency body with Value v => v | _ => frequency t end /\
  reset_day t' = match body_reset_day body with
                 | Undefined => reset_day t
                 | Null => None
                 | Value v => Some v
                 end /\
  (check_frequency (frequency t) = true -> check_frequency (frequency t') = true).
Proof.
  unfold set_fields. intros H.
  destruct (body_title body), (body_frequency body) as [| |f]; try discriminate;
    cbn in H; try (destruct (check_frequency f) eqn:E; cbn in H; try discriminate);
    injection H as <-; cbn; repeat split; auto.
Qed.

Lemma update_rows_related cond body rows rows' :
  update_rows cond body rows = inl rows' ->
  Forall2 (fun t t' => (cond t = true /\ set_fields body t = inl t')
                       \/ (cond t = false /\ t' = t)) rows rows'.
Proof.
  revert rows'. induction rows as [|t rest IH]; intros rows' H; cbn in H.
  - injection H as <-. constructor.
  - destruct (cond t) eqn:Ec.
    + destruct (set_fields body t) as [t' | m] eqn:Es; [|discriminate].
      destruct (update_rows cond body rest) as [rest' | m]; [|discriminate].
      injection H as <-. constructor; [left; auto | apply IH; reflexivity].
    + destruct (update_rows cond body rest) as [rest' | m]; [|discriminate].
      injection H as <-. constructor; [right; auto | apply IH; reflexivity].
Qed.

Lemma Forall2_In_r {A B : Type} (R : A -> B -> Prop) l l' y :
  Forall2 R l l' -> In y l' -> exists x, In x l /\ R x y.
Proof.
  induction 1 as [|x y' l l' HR HF IH]; intros Hin; [contradiction|].
  destruct Hin as [<- | Hin].
  - exists x. split; [left; reflexivity | exact HR].
  - destruct (IH Hin) as (x' & Hx & HR'). exists x'. split; [right|]; assumption.
Qed.

Lemma update_tasks_well_formed cond body db rows :
  well_formed db -> update_rows cond body (tasks db) = inl rows ->
  well_formed (with_tasks db rows).
Proof.
  intros (Hf & Hi & Hc & Ht & Hq) Hu.
  pose proof (update_rows_unchanged_cond _ _ _ _ Hu) as (Hid & _ & _).
  pose proof (update_rows_related _ _ _ _ Hu) as Hrel.
  assert (Hback : forall t', In t' rows ->
            exists t, In t (tasks db) /\ user_id t' = user_id t /\
                      category_id t' = category_id t /\
                      (check_frequency (frequency t) = true ->
                       check_frequency (frequency t') = true)).
  { intros t' Hin. destruct (Forall2_In_r _ _ _ _ Hrel Hin) as (t & Hint & HR).
    exists t. split; [exact Hint|].
    destruct HR as [[_ Hs] | [_ ->]]; [|auto].
    apply set_fields_kept in Hs. tauto. }
  split; [exact Hf|]. split; [|split; [exact Hc|split]].
  - unfold unique_task_ids. cbn. rewrite Hid. exact Hi.
  - intros t' Hin. cbn in Hin. destruct (Hback t' Hin) as (t & Hint & Hu' & Hc' & _).
    destruct (Ht t Hint) as (c & Hcin & Hcid & Hcu).
    exists c. cbn. split; [exact Hcin|]. split; congruence.
  - intros t' Hin. cbn in Hin. destruct (Hback t' Hin) as (t & Hint & _ & _ & Hk).
    apply Hk. apply Hq. exact Hint.
Qed.

(** X8.  Editing a task keeps the conditions of the schema: the id, the
    owner and the category of a row never change, a frequency outside
    the four is refused, and rows of other tasks are not touched. *)
Theorem edit_keeps_well_formed (now : Date) (userId : string) (tid : Z)
    (body : TaskBody) (db : Database) :
  well_formed db ->
  well_formed (snd (editTask now userId tid body db)).
Proof.
  intros H. unfold editTask.
  destruct (select_task userId tid db); [|exact H].
  destruct (negb (provided (body_title body)) && negb (provided (body_frequency body))
            && negb (provided (body_reset_day body))); [exact H|].
  unfold update_tasks.
  destruct (update_rows _ body (tasks db)) as [rows|m] eqn:Eu; [|exact H].
  pose proof (update_tasks_well_formed _ _ _ _ H Eu) as H'.
  destruct (select_task_row tid (with_tasks db rows)); exact H'.
Qed.

Lemma edit_keeps_well_formed_witness :
  well_formed (snd (editTask day_2024_06_15 "u" 1 body_rename store_three_facts)).
Proof.
  apply (edit_keeps_well_formed day_2024_06_15 "u" 1 body_rename store_three_facts).
  exact store_three_facts_well_formed.
Defined.

Lemma NoDup_map_same {A B : Type} (f : A -> B) (l : list A) (x y : A) :
  NoDup (map f l) -> In x l -> In y l -> f x = f y -> x = y.
Proof.
  induction l as [|z l IH]; cbn; intros Hn Hx Hy E; [contradiction|].
  inversion Hn as [|? ? Hz Hl]; subst.
  destruct Hx as [-> | Hx], Hy as [-> | Hy]; auto.
  - exfalso. apply Hz. rewrite E. apply in_map. exact Hy.
  - exfalso. apply Hz. rewrite <- E. apply in_map. exact Hx.
Qed.

Lemma update_rows_one cond body rows task task' :
  (forall t, In t rows -> cond t = true -> t = task) ->
  set_fields body task = inl task' ->
  update_rows cond body rows
  = inl (map (fun t => if cond t then task' else t) rows).
Proof.
  intros Hone Hs. induction rows as [|t rest IH]; [reflexivity|].
  cbn. rewrite IH by (intros x Hx; apply Hone; right; exact Hx).
  destruct (cond t) eqn:Ec; [|reflexivity].
  rewrite (Hone t (or_introl eq_refl) Ec), Hs. reflexivity.
Qed.

Lemma queryOne_In {A : Type} (l : list A) (x : A) :
  queryOne l = Some x -> In x l.
Proof. destruct l; cbn; [discriminate|]. intros H. injection H as ->. auto. Qed.

(** X9.  A successful edit by the owner rewrites the one row of the task
    with the provided fields and nothing else.  On a well-formed store,
    when the new row passes the constraints, the store afterwards
    differs only in that row; the row keeps its id, owner, category and
    creation stamp, and each of title, frequency and reset day is the
    value of the body when the body provides it ([null] clears the reset
    day) and the old value otherwise; the answer carries the new row,
    the name of its category, and the status computed for the new row. *)
Theorem edit_partial_update (now : Date) (userId : string) (tid : Z)
    (body : TaskBody) (db : Database) (task task' : Task) :
  well_formed db ->
  select_task userId tid db = Some task ->
  provided (body_title body) || provided (body_frequency body)
    || provided (body_reset_day body) = true ->
  set_fields body task = inl task' ->
  let db' := with_tasks db
               (map (fun t => if id t =? tid then task' else t) (tasks db)) in
  (exists c, In c (categories db) /\ cat_id c = category_id task /\
     editTask now userId tid body db
     = (Json ((task', cat_name c),
              if derivedStatus now userId task' db' then 1 else 0), db')) /\
  task_completions db' = task_completions db /\
  categories db' = categories db /\
  (forall t, In t (tasks db) -> id t <> tid -> In t (tasks db')) /\
  id task' = id task /\ user_id task' = user_id task /\
  category_id task' = category_id task /\ created_at task' = created_at task /\
  title task' = match body_title body with Value v => v | _ => title task end /\
  frequency task'
    = match body_frequency body with Value v => v | _ => frequency task end /\
  reset_day task' = match body_reset_day body with
                    | Undefined => reset_day task
                    | Null => None
                    | Value v => Some v
                    end.
Proof.
  intros Hwf Ht Hp Hs. cbv zeta.
  pose proof (set_fields_kept _ _ _ Hs) as (K1 & K2 & K3 & K4 & K5 & K6 & K7 & _).
  destruct Hwf as (Hf & Hi & Hc & Hcat & Hq).
  pose proof (select_task_found _ _ _ _ Ht) as (Hin & Hid & Hu).
  split; [|repeat split; auto].
  2:{ intros t Hint Hne. cbn. apply in_map_iff. exists t.
      apply Z.eqb_neq in Hne. rewrite Hne. auto. }
  assert (Hone : forall t, In t (tasks db) ->
            (id t =? tid) && (user_id t =? userId)%string = true -> t = task).
  { intros t Hint H. apply andb_prop in H. destruct H as [H _].
    apply Z.eqb_eq in H.
    apply (NoDup_map_same id (tasks db)); auto. congruence. }
  assert (Hmap : map (fun t => if (id t =? tid) && (user_id t =? userId)%string
                               then task' else t) (tasks db)
                 = map (fun t => if id t =? tid then task' else t) (tasks db)).
  { apply map_ext_in. intros t Hint.
    destruct (id t =? tid) eqn:E; [|reflexivity].
    apply Z.eqb_eq in E.
    assert (t = task) by (apply (NoDup_map_same id (tasks db)); auto; congruence).
    subst t. rewrite Hu, String.eqb_refl. reflexivity. }
  unfold editTask. rewrite Ht.
  replace (negb (provided (body_title body)) && negb (provided (body_frequency body))
           && negb (provided (body_reset_day body))) with false
    by (destruct (provided (body_title body)), (provided (body_frequency body)),
          (provided (body_reset_day body)); cbn in *; congruence).
  unfold update_tasks. rewrite (update_rows_one _ body (tasks db) task task' Hone Hs).
  rewrite Hmap.
  set (db' := with_tasks db (map (fun t => if id t =? tid then task' else t) (tasks db))).
  destruct (Hcat task Hin) as (c0 & Hc0 & Hc0id & _).
  destruct (select_task_row tid db') as [[t'' name]|] eqn:Er.
  - apply queryOne_In in Er. unfold join_categories in Er.
    apply in_flat_map in Er. destruct Er as (x & Hx & Hrow).
    apply in_map_iff in Hrow. destruct Hrow as (c & Hrow & Hcin).
    injection Hrow as -> <-.
    apply filter_In in Hx. destruct Hx as [Hx Hxid]. apply Z.eqb_eq in Hxid.
    apply filter_In in Hcin. destruct Hcin as [Hcin Hcid]. apply Z.eqb_eq in Hcid.
    assert (Hx' : t'' = task').
    { cbn in Hx. apply in_map_iff in Hx. destruct Hx as (t & Ht' & _).
      destruct (id t =? tid) eqn:E; [congruence|].
      apply Z.eqb_neq in E. congruence. }
    subst t''. exists c. split; [exact Hcin|]. split; [congruence|]. reflexivity.
  - exfalso. unfold select_task_row in Er.
    assert (Hne : join_categories db'
                    (filter (fun t => id t =? tid) (tasks db')) <> []).
    { apply (join_categories_nonempty _ _ task').
      - apply filter_In. split.
        + cbn. apply in_map_iff. exists task. rewrite Hid, Z.eqb_refl. auto.
        + apply Z.eqb_eq. congruence.
      - exists c0. split; [exact Hc0 | congruence]. }
    destruct (join_categories _ _); [contradiction | discriminate].
Qed.

Lemma edit_partial_update_witness :
  editTask day_2024_06_15 "u" 1 body_rename store_three_facts
  = (Json ((mkTask 1 "u" "feed both cats" "daily" 1 None "2024-01-01 08:00:00",
            "Chores"%string), 1),
     SQL_Database [chores]
       [mkTask 1 "u" "feed both cats" "daily" 1 None "2024-01-01 08:00:00";
        mkTask 2 "u" "walk the dog" "daily" 1 None "2024-01-02 08:00:00"]
       (task_completions store_three_facts)).
Proof.
  destruct (edit_partial_update day_2024_06_15 "u" 1 body_rename store_three_facts
              daily_task
              (mkTask 1 "u" "feed both cats" "daily" 1 None "2024-01-01 08:00:00")
              store_three_facts_well_formed eq_refl eq_refl eq_refl)
    as ((c & Hc & _ & H) & _).
  destruct Hc as [<- | []]. exact H.
Defined.

(** ** The sweep and what the handlers see *)

Lemma flat_map_filter_nil {A B : Type} (f : A -> list B) (p : A -> bool) l :
  (forall x, In x l -> p x = false -> f x = []) ->
  flat_map f (filter p l) = flat_map f l.
Proof.
  induction l as [|x l IH]; intros H; [reflexivity|]. cbn.
  rewrite <- IH by (intros y Hy; apply H; right; exact Hy).
  destruct (p x) eqn:E; [reflexivity|].
  rewrite (H x (or_introl eq_refl) E). reflexivity.
Qed.

Lemma filter_all_false {A : Type} (p : A -> bool) l :
  (forall x, In x l -> p x = false) -> filter p l = [].
Proof.
  induction l as [|x l IH]; intros H; [reflexivity|]. cbn.
  rewrite (H x (or_introl eq_refl)). apply IH. intros y Hy. apply H. right. exact Hy.
Qed.

Lemma filter_twice {A : Type} (p : A -> bool) l :
  filter p (filter p l) = filter p l.
Proof.
  induction l as [|x l IH]; [reflexivity|]. cbn.
  destruct (p x) eqn:E; [cbn; rewrite E, IH; reflexivity | exact IH].
Qed.

Lemma getUserCompletions_sweep now db userId :
  getUserCompletions now (cleanupOldCompletions now db) userId None
  = getUserCompletions now db userId None.
Proof.
  unfold getUserCompletions, cleanupOldCompletions, delete_from_task_completions.
  cbn [task_completions tasks with_task_completions].
  apply flat_map_filter_nil. intros tc _ H.
  apply negb_false_iff in H.
  rewrite filter_all_false; [reflexivity|].
  intros t _. unfold string_ge. unfold string_lt in H. rewrite H.
  cbn. apply andb_false_r.
Qed.

(** X10.  The sweep is invisible to the handlers that run with the same
    clock: the facts that [getUserCompletions] fetches by default, the
    list of tasks with their status, and the status of every task are
    the same before and after it; and sweeping twice is sweeping once. *)
Theorem sweep_invisible (now : Date) (userId : string) (categoryId : option Z)
    (task : Task) (db : Database) :
  getUserCompletions now (cleanupOldCompletions now db) userId None
    = getUserCompletions now db userId None /\
  getTasks now userId categoryId (cleanupOldCompletions now db)
    = getTasks now userId categoryId db /\
  derivedStatus now userId task (cleanupOldCompletions now db)
    = derivedStatus now userId task db /\
  cleanupOldCompletions now (cleanupOldCompletions now db)
    = cleanupOldCompletions now db.
Proof.
  split; [apply getUserCompletions_sweep|]. split; [|split].
  - unfold getTasks. rewrite getUserCompletions_sweep. reflexivity.
  - unfold derivedStatus. rewrite getUserCompletions_sweep. reflexivity.
  - unfold cleanupOldCompletions, delete_from_task_completions.
    cbn [task_completions with_task_completions]. unfold with_task_completions.
    cbn. f_equal. apply filter_twice.
Qed.

(** ** What [getUserCompletions] fetches *)




Lemma store_three_facts_unique_ids : unique_task_ids store_three_facts.
Proof. apply store_three_facts_well_formed. Qed.


(** ** Deleting a task *)

(** X12.  After the owner deletes a task, on a store with unique task
    ids: the answer is [success], no task with that id is left for any
    user, the other tasks and the categories are as before, and
    [getUserCompletions] returns no fact of the deleted task for any
    user and start date, while the facts it returns for other tasks are
    the same as before. *)
Theorem delete_task_effect (now : Date) (userId : string) (tid : Z)
    (db : Database) (task : Task) :
  unique_task_ids db ->
  select_task userId tid db = Some task ->
  let db' := snd (deleteTask userId tid db) in
  fst (deleteTask userId tid db) = Json true /\
  (forall t, In t (tasks db') <-> In t (tasks db) /\ id t <> tid) /\
  categories db' = categories db /\
  (forall u, select_task u tid db' = None) /\
  (forall u startDate c,
     In c (getUserCompletions now db' u startDate) -> task_id c <> tid) /\
  (forall u startDate c, task_id c <> tid ->
     (In c (getUserCompletions now db' u startDate)
      <-> In c (getUserCompletions now db u startDate))).
Proof.
  intros Hu Ht. cbv zeta. unfold deleteTask. rewrite Ht. cbn [fst snd].
  pose proof (select_task_found _ _ _ _ Ht) as (Hin & Hid & Huser).
  set (cond := fun t => (id t =? tid) && (user_id t =? userId)%string).
  assert (Hcond : forall t, In t (tasks db) -> (cond t = true <-> id t = tid)).
  { intros t Hint. unfold cond. split.
    - intros H. apply andb_prop in H. destruct H as [H _]. apply Z.eqb_eq. exact H.
    - intros H.
      assert (t = task) by (apply (NoDup_map_same id (tasks db)); auto; congruence).
      subst t. rewrite Hid, Z.eqb_refl, Huser, String.eqb_refl. reflexivity. }
  assert (Htasks : forall t, In t (tasks (delete_from_tasks cond db))
                             <-> In t (tasks db) /\ id t <> tid).
  { intros t. unfold delete_from_tasks.
    destruct (pragma_foreign_keys db); cbn; rewrite filter_In, negb_true_iff;
      (split; intros [Hint H]; (split; [exact Hint|]));
      try (intros E; apply (Hcond t Hint) in E; congruence);
      (destruct (cond t) eqn:E; [apply (Hcond t Hint) in E; contradiction | reflexivity]). }
  assert (Hfacts : forall c, task_id c <> tid ->
            (In c (task_completions (delete_from_tasks cond db))
             <-> In c (task_completions db))).
  { intros c Hc. unfold delete_from_tasks.
    destruct (pragma_foreign_keys db); [|reflexivity].
    rewrite delete_from_task_completions_In. cbn. split; [tauto|].
    intros H. split; [exact H|].
    destruct (existsb _ _) eqn:E; [|reflexivity].
    apply existsb_exists in E. destruct E as (t & Hdel & E).
    apply filter_In in Hdel. destruct Hdel as [Hint Hdel].
    apply (Hcond t Hint) in Hdel. apply Z.eqb_eq in E. congruence. }
  assert (Hsub : forall c, In c (task_completions (delete_from_tasks cond db))
                           -> In c (task_completions db)).
  { intros c. unfold delete_from_tasks.
    destruct (pragma_foreign_keys db); [|auto].
    rewrite delete_from_task_completions_In. tauto. }
  split; [reflexivity|]. split; [exact Htasks|].
  split; [unfold delete_from_tasks; destruct (pragma_foreign_keys db); reflexivity|].
  split; [|split].
  - intros u. apply select_task_none. intros t Hint E.
    apply Htasks in Hint. tauto.
  - intros u sd c Hc E. apply getUserCompletions_In in Hc.
    destruct Hc as (_ & t & Hint & H). apply Htasks in Hint.
    apply andb_prop in H. destruct H as [H _].
    apply andb_prop in H. destruct H as [H _]. apply Z.eqb_eq in H.
    destruct Hint as [_ Hne]. congruence.
  - intros u sd c Hc. rewrite !getUserCompletions_In.
    rewrite (Hfacts c Hc). split; intros (Hl & t & Hint & H); (split; [exact Hl|]);
      exists t; (split; [|exact H]).
    + apply Htasks in Hint. tauto.
    + apply Htasks. split; [exact Hint|].
      apply andb_prop in H. destruct H as [H _].
      apply andb_prop in H. destruct H as [H _]. apply Z.eqb_eq in H. congruence.
Qed.

Lemma delete_task_effect_witness :
  fst (deleteTask "u" 1 store_three_facts) = Json true /\
  (forall t, In t (tasks (snd (deleteTask "u" 1 store_three_facts)))
             <-> In t (tasks store_three_facts) /\ id t <> 1) /\
  categories (snd (deleteTask "u" 1 store_three_facts))
    = categories store_three_facts /\
  (forall u, select_task u 1 (snd (deleteTask "u" 1 store_three_facts)) = None) /\
  (forall u startDate c,
     In c (getUserCompletions day_2024_06_15
             (snd (deleteTask "u" 1 store_three_facts)) u startDate) ->
     task_id c <> 1) /\
  (forall u startDate c, task_id c <> 1 ->
     (In c (getUserCompletions day_2024_06_15
              (snd (deleteTask "u" 1 store_three_facts)) u startDate)
      <-> In c (getUserCompletions day_2024_06_15 store_three_facts u startDate))).
Proof.
  apply (delete_task_effect day_2024_06_15 "u" 1 store_three_facts daily_task).
  - exact store_three_facts_unique_ids.
  - reflexivity.
Defined.

(** ** Lists with [ORDER BY] *)

Section OrderBy.

Context {A : Type} (le : A -> A -> bool).

Lemma insert_by_Permutation x l : Permutation (insert_by le x l) (x :: l).
Proof.
  induction l as [|y l IH]; cbn; [apply Permutation_refl|].
  destruct (le x y); [apply Permutation_refl|].
  apply perm_trans with (y :: x :: l); [apply perm_skip; exact IH | apply perm_swap].
Qed.

Lemma order_by_Permutation l : Permutation (order_by le l) l.
Proof.
  induction l as [|x l IH]; cbn; [apply perm_nil|].
  apply perm_trans with (x :: order_by le l);
    [apply insert_by_Permutation | apply perm_skip; exact IH].
Qed.

Lemma order_by_In x l : In x (order_by le l) <-> In x l.
Proof.
  split; apply Permutation_in;
    [apply order_by_Permutation | apply Permutation_sym, order_by_Permutation].
Qed.

Hypothesis le_total : forall a b, le a b = false -> le b a = true.

Lemma insert_by_Sorted x l :
  Sorted (fun a b => le a b = true) l ->
  Sorted (fun a b => le a b = true) (insert_by le x l).
Proof.
  induction 1 as [|y l Hs IH Hr]; cbn.
  - repeat constructor.
  - destruct (le x y) eqn:E.
    + constructor; [constructor; assumption | constructor; exact E].
    + constructor; [exact IH|].
      destruct l as [|z l]; cbn.
      * constructor. apply le_total. exact E.
      * destruct (le x z); constructor.
        -- apply le_total. exact E.
        -- inversion Hr; assumption.
Qed.

Lemma order_by_Sorted l : Sorted (fun a b => le a b = true) (order_by le l).
Proof.
  induction l as [|x l IH]; cbn; [constructor | apply insert_by_Sorted; exact IH].
Qed.

End OrderBy.

Lemma string_ge_total a b : string_ge a b = false -> string_ge b a = true.
Proof.
  unfold string_ge, String.ltb. rewrite (String.compare_antisym b a).
  destruct (String.compare a b); cbn; congruence.
Qed.

Lemma by_name_total a b : by_name a b = false -> by_name b a = true.
Proof. apply string_ge_total. Qed.

Lemma by_created_desc_total a b :
  by_created_desc a b = false -> by_created_desc b a = true.
Proof. apply string_ge_total. Qed.

Lemma by_name_then_created_desc_total a b :
  by_name_then_created_desc a b = false -> by_name_then_created_desc b a = true.
Proof.
  unfold by_name_then_created_desc.
  destruct (string_lt (snd a) (snd b)) eqn:E1; [discriminate|].
  destruct (string_lt (snd b) (snd a)) eqn:E2; [reflexivity|].
  apply by_created_desc_total.
Qed.

(** X13.  [GET /api/categories] lists exactly the categories of the
    requesting user, each as often as the table holds it, in ascending
    order of the name text; no category of another user is listed. *)
Theorem categories_listed (userId : string) (db : Database) :
  Permutation (getCategories userId db)
    (filter (fun c => (cat_user_id c =? userId)%string) (categories db)) /\
  (forall c, In c (getCategories userId db)
             <-> In c (categories db) /\ cat_user_id c = userId) /\
  Sorted (fun a b => string_ge (cat_name b) (cat_name a) = true)
         (getCategories userId db).
Proof.
  unfold getCategories. split; [apply order_by_Permutation|]. split.
  - intros c. rewrite order_by_In, filter_In, String.eqb_eq. reflexivity.
  - apply (order_by_Sorted by_name by_name_total).
Qed.

Lemma join_categories_In db ts t name :
  In (t, name) (join_categories db ts) <->
  In t ts /\ exists c, In c (categories db) /\ cat_id c = category_id t
                       /\ cat_name c = name.
Proof.
  unfold join_categories. rewrite in_flat_map. split.
  - intros (x & Hx & H). apply in_map_iff in H. destruct H as (c & Hc & Hin).
    injection Hc as -> <-. apply filter_In in Hin. destruct Hin as [Hin E].
    apply Z.eqb_eq in E. split; [exact Hx|]. exists c. auto.
  - intros (Ht & c & Hc & Hid & Hn). exists t. split; [exact Ht|].
    apply in_map_iff. exists c. rewrite Hn. split; [reflexivity|].
    apply filter_In. split; [exact Hc|]. apply Z.eqb_eq. auto.
Qed.

(** X14.  [GET /api/tasks] lists a row for a task exactly when the task
    belongs to the requesting user, lies in the requested category when
    one is requested, and its category exists (the row carries the name
    of that category); the [completed] field of the row is 1 when
    [isTaskCompleted] holds on the facts fetched for the user and 0
    otherwise.  With a category filter the rows are ordered by creation
    stamp, newest first; without one by category name and then by
    creation stamp, newest first. *)
Theorem tasks_listed (now : Date) (userId : string) (categoryId : option Z)
    (db : Database) :
  (forall (t : Task) (name : string) (completed : Z),
     In ((t, name), completed) (getTasks now userId categoryId db) <->
     In t (tasks db) /\ user_id t = userId /\
     match categoryId with Some cid => category_id t = cid | None => True end /\
     (exists c, In c (categories db) /\ cat_id c = category_id t
                /\ cat_name c = name) /\
     completed = if derivedStatus now userId t db then 1 else 0) /\
  match categoryId with
  | Some _ =>
      Sorted (fun a b => by_created_desc a b = true)
             (map fst (getTasks now userId categoryId db))
  | None =>
      Sorted (fun a b => by_name_then_created_desc a b = true)
             (map fst (getTasks now userId categoryId db))
  end.
Proof.
  split.
  - intros t name completed. unfold getTasks. rewrite in_map_iff.
    fold (derivedStatus now userId).
    split.
    + intros ([t0 n0] & Heq & Hin). injection Heq as -> -> <-. cbn [fst].
      destruct categoryId as [cid|]; rewrite order_by_In, join_categories_In in Hin;
        destruct Hin as (Hin & Hc); apply filter_In in Hin; destruct Hin as [Hin Hf].
      * apply andb_prop in Hf. destruct Hf as [H1 H2].
        apply String.eqb_eq in H1. apply Z.eqb_eq in H2.
        unfold derivedStatus. auto.
      * apply String.eqb_eq in Hf. unfold derivedStatus. auto.
    + intros (Hin & Hu & Hcat & Hc & ->). exists (t, name).
      split; [reflexivity|].
      destruct categoryId as [cid|]; rewrite order_by_In, join_categories_In;
        (split; [|exact Hc]); apply filter_In; (split; [exact Hin|]).
      * rewrite Hu, String.eqb_refl, Hcat, Z.eqb_refl. reflexivity.
      * rewrite Hu. apply String.eqb_refl.
  - unfold getTasks. rewrite map_map. cbn [fst]. rewrite map_id.
    destruct categoryId.
    + apply (order_by_Sorted by_created_desc by_created_desc_total).
    + apply (order_by_Sorted by_name_then_created_desc
               by_name_then_created_desc_total).
Qed.

(** ** The history of [GET /api/tasks] *)

Lemma lookup_push_date_same k d m :
  lookup k (push_date k d m)
  = Some (match lookup k m with Some ds => ds ++ [d] | None => [d] end).
Proof.
  induction m as [|[k' ds] m IH]; cbn; [rewrite Z.eqb_refl; reflexivity|].
  destruct (k' =? k) eqn:E; cbn; rewrite E; [reflexivity | exact IH].
Qed.

Lemma lookup_push_date_other k k' d m :
  k' <> k -> lookup k (push_date k' d m) = lookup k m.
Proof.
  intros Hne. induction m as [|[k0 ds] m IH]; cbn.
  - apply Z.eqb_neq in Hne. rewrite Hne. reflexivity.
  - destruct (k0 =? k') eqn:E; cbn.
    + apply Z.eqb_eq in E. subst k0. apply Z.eqb_neq in Hne. rewrite Hne.
      reflexivity.
    + destruct (k0 =? k); [reflexivity | exact IH].
Qed.

Lemma lookup_fold k cs : forall m,
  lookup k (fold_left (fun m c => push_date (task_id c) (completed_date c) m) cs m)
  = match map completed_date (filter (fun c => task_id c =? k) cs), lookup k m with
    | [], r => r
    | ds, Some ds0 => Some (ds0 ++ ds)
    | ds, None => Some ds
    end.
Proof.
  induction cs as [|c cs IH]; intros m; cbn [fold_left filter map].
  - destruct (lookup k m); reflexivity.
  - rewrite IH. destruct (task_id c =? k) eqn:E.
    + apply Z.eqb_eq in E. rewrite E, lookup_push_date_same. cbn [map].
      destruct (map completed_date (filter (fun c0 => task_id c0 =? k) cs)) as [|d ds];
        destruct (lookup k m) as [ds0|]; try reflexivity.
      rewrite <- app_assoc. reflexivity.
    + apply Z.eqb_neq in E. rewrite (lookup_push_date_other k (task_id c)) by exact E.
      reflexivity.
Qed.

(** X15.  In the history that [GET /api/tasks] returns on request, the
    entry of a task id is the list of the dates of the fetched facts of
    that task, in the order in which they were fetched; a task with no
    fetched fact has no entry. *)
Theorem history_entry (completions : list Completion) (taskId : Z) :
  lookup taskId (completionMap completions)
  = match map completed_date
            (filter (fun c => task_id c =? taskId) completions) with
    | [] => None
    | dates => Some dates
    end.
Proof.
  unfold completionMap. rewrite lookup_fold. cbn [lookup].
  destruct (map completed_date _); reflexivity.
Qed.

Example history_three_facts :
  getTasksAnswer day_2024_06_15 "u" None (Some "true"%string) store_three_facts
  = TasksAndHistory
      (getTasks day_2024_06_15 "u" None store_three_facts)
      [(1, ["2024-06-14"; "2024-06-15"]%string); (2, ["2024-06-15"%string])].
Proof. reflexivity. Qed.

(** ** Creating rows *)





Example task_created_any_reset_day :
  fst (addTask 3 "2024-06-15 10:00:00" "u"
         (mkTaskBody (Value "pay the rent"%string) (Value "monthly"%string)
                     (Value 1) (Value 45)) store_three_facts)
  = Json (Some (mkTask 3 "u" "pay the rent" "monthly" 1 (Some 45)
                       "2024-06-15 10:00:00", "Chores"%string), 0).
Proof. reflexivity. Qed.



Example category_same_name_other_user :
  addCategory 2 "v" (Value "Chores"%string) store_three_facts
  = (Json (2, "Chores"%string),
     with_categories store_three_facts [chores; mkCategory 2 "v" "Chores"]).
Proof. reflexivity. Qed.

(** Requests that lack a required field are answered with 400 and
    write nothing: a category without a name, or with the empty name; a
    task without a title, a frequency or a category id, or with an empty
    title or frequency or the category id 0; an edit of an owned task
    that provides none of title, frequency and reset day. *)
Theorem required_fields (now : Date) (rowid : Z) (stamp userId : string)
    (tid : Z) (name : Field string) (body : TaskBody) (db : Database) :
  (falsy_text name = true ->
   addCategory rowid userId name db = (Status 400 "Name is required", db)) /\
  (falsy_text (body_title body) = true \/ falsy_text (body_frequency body) = true
   \/ falsy_number (body_category_id body) = true ->
   addTask rowid stamp userId body db
   = (Status 400 "Title, frequency, and category_id are required", db)) /\
  (select_task userId tid db <> None ->
   body_title body = Undefined -> body_frequency body = Undefined ->
   body_reset_day body = Undefined ->
   editTask now userId tid body db = (Status 400 "No fields to update", db)).
Proof.
  split; [|split].
  - intros H. unfold addCategory. rewrite H. reflexivity.
  - intros H. unfold addTask.
    replace (falsy_text (body_title body) || falsy_text (body_frequency body)
             || falsy_number (body_category_id body)) with true; [reflexivity|].
    destruct H as [-> | [-> | ->]]; rewrite ?orb_true_r; reflexivity.
  - intros Hs Ht Hf Hr. unfold editTask.
    destruct (select_task userId tid db); [|contradiction].
    rewrite Ht, Hf, Hr. reflexivity.
Qed.

Lemma update_rows_refused cond body rows :
  (forall t, exists m, set_fields body t = inr m) ->
  existsb cond rows = true ->
  exists m, update_rows cond body rows = inr m.
Proof.
  intros Hall. induction rows as [|t rest IH]; cbn; [discriminate|].
  destruct (cond t); cbn.
  - intros _. destruct (Hall t) as (m & ->). exists m. reflexivity.
  - intros H. destruct (IH H) as (m & ->). exists m. reflexivity.
Qed.

(** X18.  Values that the table refuses are answered with 500 and write
    nothing: creating a task, in a category of the requesting user, with
    a frequency outside the four; editing an owned task with a [null]
    title, a [null] frequency, or a frequency outside the four. *)
Theorem refused_values (now : Date) (rowid : Z) (stamp userId : string)
    (tid : Z) (body : TaskBody) (db : Database) :
  (forall ttl freq cid,
     body_title body = Value ttl -> body_frequency body = Value freq ->
     body_category_id body = Value cid ->
     ttl <> ""%string -> freq <> ""%string -> cid <> 0 ->
     select_category userId cid db <> None ->
     check_frequency freq = false ->
     exists message,
       addTask rowid stamp userId body db = (Status 500 message, db)) /\
  (select_task userId tid db <> None ->
   (body_title body = Null \/ body_frequency body = Null \/
    exists freq, body_frequency body = Value freq /\ check_frequency freq = false) ->
   exists message,
     editTask now userId tid body db = (Status 500 message, db)).
Proof.
  split.
  - intros ttl freq cid Ht Hf Hc Htne Hfne Hcne Hsel Hbad.
    unfold addTask. rewrite Ht, Hf, Hc. cbn [falsy_text falsy_number].
    apply String.eqb_neq in Htne, Hfne. apply Z.eqb_neq in Hcne.
    rewrite Htne, Hfne, Hcne. cbn [orb].
    destruct (select_category userId cid db); [|contradiction].
    unfold insert_task. rewrite Hbad. cbn [negb]. eexists. reflexivity.
  - intros Hsel Hbad. unfold editTask.
    destruct (select_task userId tid db) as [task|] eqn:Es; [|contradiction].
    assert (Hprov : negb (provided (body_title body))
                    && negb (provided (body_frequency body))
                    && negb (provided (body_reset_day body)) = false).
    { destruct Hbad as [-> | [-> | (f & -> & _)]]; cbn;
        rewrite ?andb_false_r; reflexivity. }
    rewrite Hprov. unfold update_tasks.
    assert (Hall : forall t, exists m, set_fields body t = inr m).
    { intros t. unfold set_fields.
      destruct Hbad as [-> | [-> | (f & -> & Hf)]].
      - eexists. reflexivity.
      - destruct (body_title body); eexists; reflexivity.
      - destruct (body_title body); cbn; rewrite ?Hf; eexists; reflexivity. }
    assert (Hex : existsb (fun t => (id t =? tid) && (user_id t =? userId)%string)
                    (tasks db) = true).
    { apply existsb_exists. exists task.
      apply queryOne_filter_some in Es. exact Es. }
    destruct (update_rows_refused _ body (tasks db) Hall Hex) as (m & ->).
    exists m. reflexivity.
Qed.

Example refused_values_scenarios :
  addTask 3 "2024-06-15 10:00:00" "u"
    (mkTaskBody (Value "file taxes"%string) (Value "yearly"%string) (Value 1)
                Undefined) store_three_facts
    = (Status 500 "CHECK constraint failed: frequency", store_three_facts) /\
  editTask day_2024_06_15 "u" 1 body_bad_frequency store_three_facts
    = (Status 500 "CHECK constraint failed: frequency", store_three_facts) /\
  editTask day_2024_06_15 "u" 1 (mkTaskBody Null Undefined Undefined Undefined)
    store_three_facts
    = (Status 500 "NOT NULL constraint failed: tasks.title", store_three_facts).
Proof. repeat split. Qed.

(** ** Formatted dates *)

Lemma fixed4_length n : String.length (fixed4 n) = 4%nat.
Proof. reflexivity. Qed.

(** X19.  For days in the years 1000 to 9999, [formatDate] writes ten
    characters, and comparing two formatted dates as texts gives the
    same result as comparing the days; in particular two different days
    are never formatted alike. *)
Theorem formatDate_order (d1 d2 : Date) :
  fourDigitYear d1 -> fourDigitYear d2 ->
  String.length (formatDate d1) = 10%nat /\
  String.compare (formatDate d1) (formatDate d2) = (d1 ?= d2) /\
  (formatDate d1 = formatDate d2 -> d1 = d2).
Proof.
  intros H1 H2.
  assert (Hc : String.compare (formatDate d1) (formatDate d2) = (d1 ?= d2)).
  { rewrite string_compare_formatDate by assumption. apply dateCode_compare. }
  split; [|split; [exact Hc|]].
  - rewrite (formatDate_fixed d1 H1). reflexivity.
  - intros E. apply Z.compare_eq. rewrite <- Hc, E. apply string_compare_refl.
Qed.

Lemma formatDate_order_witness :
  String.length (formatDate day_2024_01_10) = 10%nat /\
  String.compare (formatDate day_2024_01_10) (formatDate day_2024_06_15)
    = (day_2024_01_10 ?= day_2024_06_15) /\
  (formatDate day_2024_01_10 = formatDate day_2024_06_15 ->
   day_2024_01_10 = day_2024_06_15).
Proof.
  apply (formatDate_order day_2024_01_10 day_2024_06_15);
    unfold fourDigitYear; vm_compute; split; discriminate.
Defined.

Example formatDate_order_outside :
  string_lt (formatDate (MakeDay 1000 0 1)) (formatDate (MakeDay 999 11 31)) = true /\
  MakeDay 999 11 31 < MakeDay 1000 0 1.
Proof. split; reflexivity. Qed.

(** ** The retention window *)

Lemma MakeDay_index y m d : MakeDay y m d = firstOfMonth (12 * y + m) + d - 1.
Proof.
  unfold firstOfMonth, MakeDay.
  replace ((12 * y + m) / 12) with (y + m / 12)
    by (Z.to_euclidean_division_equations; lia).
  replace ((12 * y + m) mod 12) with (m mod 12)
    by (Z.to_euclidean_division_equations; lia).
  rewrite Z.add_0_l. lia.
Qed.

Lemma three_months_length y m :
  0 <= m <= 11 ->
  89 <= monthLength y (m - 3) + monthLength y (m - 2) + monthLength y (m - 1) <= 92.
Proof.
  intros Hm. unfold monthLength.
  assert (Hc : m = 0 \/ m = 1 \/ m = 2 \/ m = 3 \/ m = 4 \/ m = 5 \/ m = 6 \/
               m = 7 \/ m = 8 \/ m = 9 \/ m = 10 \/ m = 11) by lia.
  clear Hm.
  repeat (destruct Hc as [-> | Hc]); try subst m;
    repeat match goal with
    | |- context [ (?a - ?b) / 12 ] =>
        let v := eval vm_compute in ((a - b) / 12) in
        change ((a - b) / 12) with v
    | |- context [ (?a - ?b) mod 12 ] =>
        let v := eval vm_compute in ((a - b) mod 12) in
        change ((a - b) mod 12) with v
    end;
    rewrite ?Z.add_0_r;
    destruct (isLeap y); destruct (isLeap (y + -1)); vm_compute;
    split; discriminate.
Qed.

Lemma cutoff_distance now :
  now - completionCutoffDay now
  = monthLength (YearFromDay now) (MonthFromDay now - 3)
    + monthLength (YearFromDay now) (MonthFromDay now - 2)
    + monthLength (YearFromDay now) (MonthFromDay now - 1).
Proof.
  unfold completionCutoffDay, setMonth, getMonth, COMPLETION_HISTORY_MONTHS.
  pose proof (MakeDay_fields now) as Hf.
  pose proof (MakeDay_next_month (YearFromDay now) (MonthFromDay now - 3)
                (DateFromDay now)) as H3.
  pose proof (MakeDay_next_month (YearFromDay now) (MonthFromDay now - 2)
                (DateFromDay now)) as H2.
  pose proof (MakeDay_next_month (YearFromDay now) (MonthFromDay now - 1)
                (DateFromDay now)) as H1.
  replace (MonthFromDay now - 3 + 1) with (MonthFromDay now - 2) in H3 by lia.
  replace (MonthFromDay now - 2 + 1) with (MonthFromDay now - 1) in H2 by lia.
  replace (MonthFromDay now - 1 + 1) with (MonthFromDay now) in H1 by lia.
  lia.
Qed.

Lemma cutoff_distance_bounds now :
  89 <= now - completionCutoffDay now <= 92.
Proof.
  rewrite cutoff_distance. apply three_months_length. apply MonthFromDay_range.
Qed.

(** X20.  The retention cut-off is always 89 to 92 days before today,
    whatever the date (the distance is the length of the three months
    before today's month, also when the day of the month does not exist
    three months back); and when today's day of the month is at most 28
    the cut-off has the same day of the month, three months back. *)
Theorem retention_window (now : Date) :
  89 <= now - completionCutoffDay now <= 92 /\
  (JS.getDate now <= 28 ->
   JS.getDate (completionCutoffDay now) = JS.getDate now /\
   getMonth (completionCutoffDay now)
     = (getMonth now - COMPLETION_HISTORY_MONTHS) mod 12 /\
   getFullYear (completionCutoffDay now)
     = getFullYear now + (getMonth now - COMPLETION_HISTORY_MONTHS) / 12).
Proof.
  split.
  - apply cutoff_distance_bounds.
  - intros H. destruct (completionCutoffDay_fields now H) as (Hy & Hm & Hd).
    auto.
Qed.

Example retention_window_scenarios :
  day_2024_06_15 - completionCutoffDay day_2024_06_15 = 92 /\
  MakeDay 2023 4 31 - completionCutoffDay (MakeDay 2023 4 31) = 89 /\
  completionCutoffDay (MakeDay 2023 5 1) < completionCutoffDay (MakeDay 2023 4 31).
Proof. repeat split. Qed.

(** ** When a period starts anew *)

Lemma weeklyPeriodStart_formula today task R :
  reset_day task = Some R -> 0 <= R <= 6 ->
  weeklyPeriodStart today task = today - (WeekDay today - R + 7) mod 7.
Proof.
  intros Hr HR. unfold weeklyPeriodStart. rewrite Hr. cbn [nullish].
  rewrite setDate_shift. pose proof (WeekDay_range today).
  unfold remainder, getDay. rewrite Z.rem_mod_nonneg by lia. reflexivity.
Qed.

(** X21.  From one day to the next, the start of the period of a weekly
    task with reset day [R] in 0..6 stays the same, except when the next
    day falls on weekday [R]: then the next day is the new start. *)
Theorem weekly_period_rollover (today : Date) (task : Task) (R : Z) :
  reset_day task = Some R -> 0 <= R <= 6 ->
  weeklyPeriodStart (today + 1) task
  = if getDay (today + 1) =? R then today + 1 else weeklyPeriodStart today task.
Proof.
  intros Hr HR. rewrite !(weeklyPeriodStart_formula _ task R Hr HR).
  unfold getDay, WeekDay.
  destruct ((today + 1 + 4) mod 7 =? R) eqn:E;
    [apply Z.eqb_eq in E | apply Z.eqb_neq in E];
    Z.to_euclidean_division_equations; lia.
Qed.

Lemma weekly_period_rollover_witness :
  weeklyPeriodStart (day_2024_06_15 + 1) weekly_task_sunday
  = if getDay (day_2024_06_15 + 1) =? 0 then day_2024_06_15 + 1
    else weeklyPeriodStart day_2024_06_15 weekly_task_sunday.
Proof.
  apply (weekly_period_rollover day_2024_06_15 weekly_task_sunday 0);
    [reflexivity | lia].
Defined.

Lemma month_of_day d k e :
  1 <= e -> firstOfMonth k + e - 1 < firstOfMonth (k + 1) ->
  d = firstOfMonth k + e - 1 ->
  monthIndex d = k /\ JS.getDate d = e.
Proof.
  intros He Hlt Hd. destruct (day_in_month d) as (E & L & U).
  assert (Hk : monthIndex d = k).
  { destruct (Z.lt_trichotomy (monthIndex d) k) as [H | [H | H]];
      [exfalso | exact H | exfalso].
    - assert (firstOfMonth (monthIndex d + 1) <= firstOfMonth k).
      { destruct (Z.eq_dec (monthIndex d + 1) k) as [->|]; [lia|].
        pose proof (firstOfMonth_lt (monthIndex d + 1) k). lia. }
      lia.
    - assert (firstOfMonth (k + 1) <= firstOfMonth (monthIndex d)).
      { destruct (Z.eq_dec (k + 1) (monthIndex d)) as [->|]; [lia|].
        pose proof (firstOfMonth_lt (k + 1) (monthIndex d)). lia. }
      lia. }
  split; [exact Hk|]. rewrite Hk in E. lia.
Qed.

Lemma monthlyPeriodStart_formula today task R :
  reset_day task = Some R -> ~ (0 <= getFullYear today <= 99) ->
  monthlyPeriodStart today task
  = if JS.getDate today >=? R then firstOfMonth (monthIndex today) + R - 1
    else firstOfMonth (monthIndex today - 1) + R - 1.
Proof.
  intros Hr Hy. unfold monthlyPeriodStart. rewrite Hr. cbn [nullish].
  rewrite !new_Date_MakeDay by exact Hy. rewrite !MakeDay_index.
  unfold monthIndex.
  replace (12 * getFullYear today + (getMonth today - 1))
    with (12 * getFullYear today + getMonth today - 1) by lia.
  reflexivity.
Qed.

(** X22.  From one day to the next, the start of the period of a monthly
    task with reset day [R] in 1..28 stays the same, except when the
    next day has day of month [R]: then the next day is the new start
    (for dates outside the years 0..99). *)
Theorem monthly_period_rollover (today : Date) (task : Task) (R : Z) :
  reset_day task = Some R -> 1 <= R <= 28 ->
  ~ (0 <= getFullYear today <= 99) ->
  ~ (0 <= getFullYear (today + 1) <= 99) ->
  monthlyPeriodStart (today + 1) task
  = if JS.getDate (today + 1) =? R then today + 1
    else monthlyPeriodStart today task.
Proof.
  intros Hr HR Hy Hy1.
  rewrite (monthlyPeriodStart_formula _ task R Hr Hy).
  rewrite (monthlyPeriodStart_formula _ task R Hr Hy1).
  destruct (day_in_month today) as (E & L & U).
  pose proof (firstOfMonth_succ (monthIndex today)) as Hs.
  pose proof (monthLength_range 0 (monthIndex today)) as Hlen.
  set (k := monthIndex today) in *. set (D := JS.getDate today) in *.
  destruct (Z_lt_ge_dec (firstOfMonth k + D) (firstOfMonth (k + 1))) as [Hin | Hout].
  - (* the next day is in the same month *)
    destruct (month_of_day (today + 1) k (D + 1)) as (Hk & Hd); [lia | lia | lia |].
    rewrite Hk, Hd, !Z.geb_leb.
    destruct (Z.leb_spec R (D + 1)), (Z.leb_spec R D), (Z.eqb_spec (D + 1) R); lia.
  - (* the next day is the first of the next month *)
    pose proof (firstOfMonth_succ (k + 1)) as Hs1.
    pose proof (monthLength_range 0 (k + 1)) as Hlen1.
    destruct (month_of_day (today + 1) (k + 1) 1) as (Hk & Hd); [lia | lia | lia |].
    rewrite Hk, Hd, !Z.geb_leb. replace (k + 1 - 1) with k by lia.
    destruct (Z.leb_spec R 1), (Z.leb_spec R D), (Z.eqb_spec 1 R); lia.
Qed.

Lemma monthly_period_rollover_witness :
  monthlyPeriodStart (day_2024_06_15 + 1) monthly_task_10
  = if JS.getDate (day_2024_06_15 + 1) =? 10 then day_2024_06_15 + 1
    else monthlyPeriodStart day_2024_06_15 monthly_task_10.
Proof.
  apply (monthly_period_rollover day_2024_06_15 monthly_task_10 10);
    [reflexivity | lia | vm_compute; intros [_ H]; apply H; reflexivity
     | vm_compute; intros [_ H]; apply H; reflexivity].
Defined.

(** ** A completion recorded today counts *)

Lemma DayFromYear_le y1 y2 : y1 <= y2 -> DayFromYear y1 <= DayFromYear y2.
Proof.
  intros H. destruct (Z.eq_dec y1 y2) as [-> | Hne]; [lia|].
  apply Z.lt_le_incl, DayFromYear_lt. lia.
Qed.

Lemma year_between d lo hi :
  DayFromYear lo <= d -> d < DayFromYear (hi + 1) -> lo <= YearFromDay d <= hi.
Proof.
  intros Hlo Hhi. split; [apply YearFromDay_ge; exact Hlo|].
  destruct (Z_le_gt_dec (YearFromDay d) hi) as [H | H]; [exact H | exfalso].
  pose proof (YearFromDay_spec d) as [Hs _].
  pose proof (DayFromYear_le (hi + 1) (YearFromDay d)). lia.
Qed.

Lemma fourDigitYear_near now d :
  1971 <= getFullYear now <= 9999 -> now - 92 <= d <= now -> fourDigitYear d.
Proof.
  unfold fourDigitYear, getFullYear. intros Hy Hd.
  pose proof (YearFromDay_spec now) as [Hs1 Hs2].
  pose proof (DayFromYear_le 1971 (YearFromDay now) ltac:(lia)) as H1.
  pose proof (DayFromYear_le (YearFromDay now + 1) 10000 ltac:(lia)) as H2.
  change (DayFromYear 1971) with 365 in H1.
  assert (1970 <= YearFromDay d <= 9999); [|lia].
  apply year_between; [change (DayFromYear 1970) with 0; lia|].
  replace (9999 + 1) with 10000 by lia. lia.
Qed.

Lemma today_not_before_cutoff now :
  1971 <= getFullYear now <= 9999 ->
  string_ge (formatDate now) (getCompletionCutoffDate now) = true.
Proof.
  intros Hy. pose proof (cutoff_distance_bounds now) as Hw.
  unfold getCompletionCutoffDate.
  rewrite formatDate_ge.
  - apply Z.leb_le. lia.
  - apply (fourDigitYear_near now); lia.
  - apply (fourDigitYear_near now); lia.
Qed.

Lemma weeklyPeriodStart_bounds today task :
  0 <= nullish (reset_day task) 0 <= 6 ->
  today - 6 <= weeklyPeriodStart today task <= today.
Proof.
  intros HR. unfold weeklyPeriodStart.
  rewrite setDate_shift. pose proof (WeekDay_range today).
  unfold remainder, getDay. rewrite Z.rem_mod_nonneg by lia.
  Z.to_euclidean_division_equations; lia.
Qed.

Lemma monthlyPeriodStart_bounds today task :
  1 <= nullish (reset_day task) 1 <= 28 ->
  ~ (0 <= getFullYear today <= 99) ->
  today - 31 < monthlyPeriodStart today task <= today.
Proof.
  intros HR Hy. unfold monthlyPeriodStart.
  set (R := nullish (reset_day task) 1) in *.
  rewrite !new_Date_MakeDay by exact Hy. rewrite !MakeDay_index.
  destruct (day_in_month today) as (E & L & U).
  unfold monthIndex in E, U.
  replace (12 * getFullYear today + (getMonth today - 1))
    with (12 * getFullYear today + getMonth today - 1) by lia.
  set (k := 12 * getFullYear today + getMonth today) in *.
  pose proof (firstOfMonth_succ (k - 1)) as Hs.
  replace (k - 1 + 1) with k in Hs by lia.
  pose proof (monthLength_range 0 (k - 1)) as Hlen.
  pose proof (firstOfMonth_succ k) as Hs1.
  pose proof (monthLength_range 0 k) as Hlen1.
  rewrite Z.geb_leb. destruct (Z.leb_spec R (JS.getDate today)); lia.
Qed.

Lemma regular_weekly task :
  regular_reset_day task -> frequency task = "weekly"%string ->
  0 <= nullish (reset_day task) 0 <= 6.
Proof.
  intros [H _] Hf. specialize (H Hf).
  destruct (reset_day task); cbn; [exact H | lia].
Qed.

Lemma regular_monthly task :
  regular_reset_day task -> frequency task = "monthly"%string ->
  1 <= nullish (reset_day task) 1 <= 28.
Proof.
  intros [_ H] Hf. specialize (H Hf).
  destruct (reset_day task); cbn; [exact H | lia].
Qed.

Lemma period_start_not_after_today now task :
  regular_reset_day task ->
  1971 <= getFullYear now <= 9999 ->
  string_ge (formatDate now) (getPeriodStartDate now task) = true.
Proof.
  intros Hreg Hy.
  assert (Hq : ~ (0 <= getFullYear now <= 99)) by lia.
  assert (Hnow : fourDigitYear now) by (unfold fourDigitYear; lia).
  unfold getPeriodStartDate. rewrite (todayOf_id now Hq).
  destruct (frequency task =? "daily")%string eqn:E1; [apply string_ge_refl|].
  destruct (frequency task =? "weekly")%string eqn:E2.
  { apply String.eqb_eq in E2.
    pose proof (weeklyPeriodStart_bounds now task (regular_weekly task Hreg E2)).
    rewrite formatDate_ge;
      [apply Z.leb_le; lia | exact Hnow | apply (fourDigitYear_near now); lia]. }
  destruct (frequency task =? "monthly")%string eqn:E3.
  { apply String.eqb_eq in E3.
    pose proof (monthlyPeriodStart_bounds now task (regular_monthly task Hreg E3) Hq).
    rewrite formatDate_ge;
      [apply Z.leb_le; lia | exact Hnow | apply (fourDigitYear_near now); lia]. }
  destruct (frequency task =? "one-time")%string eqn:E4; [|apply string_ge_refl].
  change "1970-01-01"%string with (formatDate 0).
  pose proof (YearFromDay_spec now) as [Hs _].
  pose proof (DayFromYear_le 1971 (YearFromDay now)) as Hle.
  change (DayFromYear 1971) with 365 in Hle. unfold getFullYear in Hy.
  rewrite formatDate_ge;
    [apply Z.leb_le; lia | exact Hnow | unfold fourDigitYear; vm_compute; split; discriminate].
Qed.

(** X23.  A completion recorded today counts.  For a clock in the years
    1971 to 9999 and a task of the requesting user whose reset day needs
    no carry (0..6 or absent for a weekly task, 1..28 or absent for a
    monthly one; any task of another frequency), toggling the task when
    it has no fact for today records today's fact and answers
    [completed: 1]. *)
Theorem toggle_on_completes (now : Date) (userId : string) (tid : Z)
    (db : Database) (task : Task) :
  select_task userId tid db = Some task ->
  ~ In (mkCompletion tid (getTodayDate now)) (task_completions db) ->
  regular_reset_day task ->
  1971 <= getFullYear now <= 9999 ->
  toggleTask now userId tid db
  = (Json (task, 1),
     with_task_completions db
       (task_completions db ++ [mkCompletion tid (getTodayDate now)])).
Proof.
  intros Ht Hn Hreg Hy.
  rewrite (toggleTask_on now userId tid db task Ht Hn).
  pose proof (select_task_found _ _ _ _ Ht) as (Hin & Hid & Hu).
  assert (Hs : derivedStatus now userId task
                 (with_task_completions db
                    (task_completions db ++ [mkCompletion tid (getTodayDate now)]))
               = true).
  { unfold derivedStatus. apply isTaskCompleted_true.
    exists (mkCompletion tid (getTodayDate now)). split; [|split].
    - apply getUserCompletions_In. split.
      + cbn. apply in_or_app. right. left. reflexivity.
      + exists task. split; [exact Hin|]. cbn [task_id completed_date].
        rewrite Hid, Z.eqb_refl, Hu, String.eqb_refl. cbn [andb].
        apply today_not_before_cutoff. exact Hy.
    - cbn. auto.
    - cbn [completed_date]. apply period_start_not_after_today; assumption. }
  rewrite Hs. reflexivity.
Qed.

Lemma toggle_on_completes_witness :
  toggleTask day_2024_06_15 "u" 1 (store_with weekly_task_sunday [])
  = (Json (weekly_task_sunday, 1),
     with_task_completions (store_with weekly_task_sunday [])
       (task_completions (store_with weekly_task_sunday [])
        ++ [mkCompletion 1 (getTodayDate day_2024_06_15)])).
Proof.
  apply (toggle_on_completes day_2024_06_15 "u" 1
           (store_with weekly_task_sunday []) weekly_task_sunday).
  - reflexivity.
  - intros [].
  - split; intros H; [cbn; lia | discriminate H].
  - vm_compute. split; discriminate.
Defined.

(** X24.  Undoing today's completion of a daily task.  When the task has
    a fact for today and none dated after today, and the clock is
    outside the years 0..99, the toggle removes today's fact and answers
    [completed: 0]. *)
Theorem toggle_off_daily (now : Date) (userId : string) (tid : Z)
    (db : Database) (task : Task) :
  select_task userId tid db = Some task ->
  frequency task = "daily"%string ->
  In (mkCompletion tid (getTodayDate now)) (task_completions db) ->
  (forall c, In c (task_completions db) -> task_id c = tid ->
             string_ge (getTodayDate now) (completed_date c) = true) ->
  ~ (0 <= getFullYear now <= 99) ->
  toggleTask now userId tid db
  = (Json (task, 0), delete_completion tid (getTodayDate now) db).
Proof.
  intros Ht Hf Hin Hpast Hq.
  rewrite (toggleTask_off now userId tid db task Ht Hin).
  pose proof (select_task_found _ _ _ _ Ht) as (_ & Hid & _).
  assert (Hs : derivedStatus now userId task
                 (delete_completion tid (getTodayDate now) db) = false).
  { unfold derivedStatus.
    destruct (isTaskCompleted now task _) eqn:E; [|reflexivity]. exfalso.
    apply isTaskCompleted_true in E. destruct E as (c & Hc & Hcid & Hge).
    apply getUserCompletions_In in Hc. destruct Hc as (Hc & _).
    unfold delete_completion in Hc.
    apply delete_from_task_completions_In in Hc. destruct Hc as [Hc Hnot].
    rewrite (getPeriodStartDate_daily now task Hf), (todayOf_id now Hq) in Hge.
    assert (Hle := Hpast c Hc ltac:(congruence)). unfold getTodayDate in *.
    assert (Heq : completed_date c = formatDate now)
      by (apply string_ge_antisym; assumption).
    assert (Hfact : is_fact tid (formatDate now) c = true).
    { unfold is_fact. rewrite Hcid, Hid, Z.eqb_refl, Heq, String.eqb_refl.
      reflexivity. }
    congruence. }
  rewrite Hs. reflexivity.
Qed.

Lemma toggle_off_daily_witness :
  toggleTask day_2024_06_15 "u" 1 store_three_facts
  = (Json (daily_task, 0),
     delete_completion 1 (getTodayDate day_2024_06_15) store_three_facts).
Proof.
  apply (toggle_off_daily day_2024_06_15 "u" 1 store_three_facts daily_task).
  - reflexivity.
  - reflexivity.
  - right. left. reflexivity.
  - intros c [<- | [<- | [<- | []]]] _; reflexivity.
  - vm_compute. intros [_ H]. apply H. reflexivity.
Defined.

(** ** What another user sees *)

Lemma filter_and {A : Type} (p q : A -> bool) l :
  filter (fun x => p x && q x) l = filter q (filter p l).
Proof.
  induction l as [|x l IH]; [reflexivity|]. cbn.
  destruct (p x); cbn; [destruct (q x); rewrite IH; reflexivity | exact IH].
Qed.

Lemma flat_map_ext_In {A B : Type} (f g : A -> list B) l :
  (forall x, In x l -> f x = g x) -> flat_map f l = flat_map g l.
Proof.
  induction l as [|x l IH]; intros H; [reflexivity|]. cbn.
  rewrite (H x (or_introl eq_refl)), IH; [reflexivity|].
  intros y Hy. apply H. right. exact Hy.
Qed.

Lemma getUserCompletions_owned now db v startDate :
  getUserCompletions now db v startDate
  = flat_map
      (fun tc =>
         map (fun _ => mkCompletion (task_id tc) (completed_date tc))
             (filter (fun t => (task_id tc =? id t)
                               && string_ge (completed_date tc)
                                    match startDate with
                                    | Some s => if (s =? "")%string
                                                then getCompletionCutoffDate now
                                                else s
                                    | None => getCompletionCutoffDate now
                                    end)
                     (filter (fun t => (user_id t =? v)%string) (tasks db))))
      (task_completions db).
Proof.
  unfold getUserCompletions. apply flat_map_ext. intros tc. f_equal.
  rewrite <- filter_and. apply filter_ext. intros t.
  destruct (task_id tc =? id t), (user_id t =? v)%string; reflexivity.
Qed.

Lemma getTasks_same_view now v categoryId db db' :
  same_view now v db db' ->
  getTasks now v categoryId db' = getTasks now v categoryId db /\
  getCategories v db' = getCategories v db.
Proof.
  intros (Ht & Hc & Hj & Hf). split; [|unfold getCategories; rewrite Hc; reflexivity].
  unfold getTasks. rewrite Hf.
  assert (Hjoin : forall ts,
            (forall t, In t ts -> user_id t = v /\ In t (tasks db)) ->
            join_categories db' ts = join_categories db ts).
  { intros ts Hts. unfold join_categories. apply flat_map_ext_In.
    intros t Hin. destruct (Hts t Hin) as [Hu Hint]. rewrite (Hj t Hu Hint).
    reflexivity. }
  destruct categoryId as [cid|].
  - rewrite (filter_and (fun t => (user_id t =? v)%string)
                        (fun t => category_id t =? cid) (tasks db')).
    rewrite (filter_and (fun t => (user_id t =? v)%string)
                        (fun t => category_id t =? cid) (tasks db)).
    rewrite Ht, Hjoin; [reflexivity|].
    intros t Hin. apply filter_In in Hin. destruct Hin as [Hin _].
    apply filter_In in Hin. destruct Hin as [Hin Hu].
    apply String.eqb_eq in Hu. auto.
  - rewrite Ht, Hjoin; [reflexivity|].
    intros t Hin. apply filter_In in Hin. destruct Hin as [Hin Hu].
    apply String.eqb_eq in Hu. auto.
Qed.

Lemma same_view_refl now v db : same_view now v db db.
Proof. repeat split. Qed.

Lemma same_view_trans now v db1 db2 db3 :
  same_view now v db1 db2 -> same_view now v db2 db3 -> same_view now v db1 db3.
Proof.
  intros (T1 & C1 & J1 & F1) (T2 & C2 & J2 & F2).
  split; [congruence|]. split; [congruence|]. split; [|congruence].
  intros t Hu Hin. rewrite J2; [apply J1; assumption | exact Hu |].
  assert (H : In t (filter (fun t => (user_id t =? v)%string) (tasks db1))).
  { apply filter_In. split; [exact Hin|]. apply String.eqb_eq. exact Hu. }
  rewrite <- T1 in H. apply filter_In in H. apply H.
Qed.

Lemma filter_filter_keep {A : Type} (p q : A -> bool) l :
  (forall x, In x l -> p x = true -> q x = true) ->
  filter p (filter q l) = filter p l.
Proof.
  induction l as [|x l IH]; intros H; [reflexivity|]. cbn.
  rewrite <- IH by (intros y Hy; apply H; right; exact Hy).
  destruct (q x) eqn:Eq; [reflexivity|]. cbn.
  destruct (p x) eqn:Ep; [|reflexivity].
  rewrite (H x (or_introl eq_refl) Ep) in Eq. discriminate.
Qed.

Lemma filter_snoc_out {A : Type} (p : A -> bool) l x :
  p x = false -> filter p (l ++ [x]) = filter p l.
Proof. intros H. rewrite filter_app. cbn. rewrite H. apply app_nil_r. Qed.

(** A fact whose task is not a task of [v] adds nothing to what is
    fetched for [v]. *)
Lemma no_contribution now v startDate db f :
  (forall t, In t (tasks db) -> id t = task_id f -> user_id t <> v) ->
  map (fun _ => mkCompletion (task_id f) (completed_date f))
      (filter (fun t => (task_id f =? id t)
                        && string_ge (completed_date f)
                             match startDate with
                             | Some s => if (s =? "")%string
                                         then getCompletionCutoffDate now else s
                             | None => getCompletionCutoffDate now
                             end)
              (filter (fun t => (user_id t =? v)%string) (tasks db)))
  = [].
Proof.
  intros H. rewrite filter_all_false; [reflexivity|].
  intros t Hin. apply filter_In in Hin. destruct Hin as [Hin Hu].
  apply String.eqb_eq in Hu.
  destruct (task_id f =? id t) eqn:E; [|reflexivity].
  apply Z.eqb_eq in E. exfalso. exact (H t Hin (eq_sym E) Hu).
Qed.

Lemma fetched_same_filter now v startDate db db' p :
  filter (fun t => (user_id t =? v)%string) (tasks db')
    = filter (fun t => (user_id t =? v)%string) (tasks db) ->
  task_completions db' = filter p (task_completions db) ->
  (forall f, In f (task_completions db) -> p f = false ->
     forall t, In t (tasks db) -> id t = task_id f -> user_id t <> v) ->
  getUserCompletions now db' v startDate = getUserCompletions now db v startDate.
Proof.
  intros Ht Hl Hrem. rewrite !getUserCompletions_owned, Ht, Hl.
  apply flat_map_filter_nil. intros f Hin Hp.
  apply no_contribution. exact (Hrem f Hin Hp).
Qed.

Lemma fetched_same_snoc now v startDate db db' f :
  filter (fun t => (user_id t =? v)%string) (tasks db')
    = filter (fun t => (user_id t =? v)%string) (tasks db) ->
  task_completions db' = task_completions db ++ [f] ->
  (forall t, In t (tasks db) -> id t = task_id f -> user_id t <> v) ->
  getUserCompletions now db' v startDate = getUserCompletions now db v startDate.
Proof.
  intros Ht Hl Hrem. rewrite !getUserCompletions_owned, Ht, Hl.
  rewrite flat_map_app. cbn [flat_map].
  rewrite (no_contribution now v startDate db f Hrem). rewrite !app_nil_r.
  reflexivity.
Qed.

Lemma fetched_same_ledger now v startDate db db' :
  filter (fun t => (user_id t =? v)%string) (tasks db')
    = filter (fun t => (user_id t =? v)%string) (tasks db) ->
  task_completions db' = task_completions db ->
  getUserCompletions now db' v startDate = getUserCompletions now db v startDate.
Proof. intros Ht Hl. rewrite !getUserCompletions_owned, Ht, Hl. reflexivity. Qed.

Lemma toggleTask_same_view now u v tid db :
  well_formed db -> u <> v ->
  same_view now v db (snd (toggleTask now u tid db)).
Proof.
  intros Hwf Hne. destruct (select_task u tid db) as [task|] eqn:Ht.
  2:{ unfold toggleTask. rewrite Ht. apply same_view_refl. }
  rewrite (toggleTask_store now u tid db task Ht).
  pose proof (select_task_found _ _ _ _ Ht) as (Hin & Hid & Hu).
  assert (Hown : forall t, In t (tasks db) -> id t = tid -> user_id t <> v).
  { intros t Hint E.
    assert (t = task).
    { apply (NoDup_map_same id (tasks db)); [apply Hwf | auto | auto | congruence]. }
    subst t. congruence. }
  destruct (wasCompletedOnDate tid (getTodayDate now) (task_completions db)).
  - repeat split.
    apply (fetched_same_filter now v None db _
             (fun c => negb (is_fact tid (getTodayDate now) c)));
      [reflexivity | reflexivity |].
    intros f _ Hp. apply negb_false_iff, is_fact_true in Hp. subst f. exact Hown.
  - repeat split.
    apply (fetched_same_snoc now v None db _ (mkCompletion tid (getTodayDate now)));
      [reflexivity | reflexivity | exact Hown].
Qed.

Lemma delete_from_tasks_same_view now v cond db :
  unique_task_ids db ->
  (forall t, In t (tasks db) -> cond t = true -> user_id t <> v) ->
  same_view now v db (delete_from_tasks cond db).
Proof.
  intros Hu Hcond.
  assert (Ht : filter (fun t => (user_id t =? v)%string)
                 (filter (fun t => negb (cond t)) (tasks db))
               = filter (fun t => (user_id t =? v)%string) (tasks db)).
  { apply filter_filter_keep. intros t Hin Hv. apply String.eqb_eq in Hv.
    destruct (cond t) eqn:E; [|reflexivity].
    exfalso. exact (Hcond t Hin E Hv). }
  unfold delete_from_tasks. destruct (pragma_foreign_keys db).
  - split; [exact Ht|]. split; [reflexivity|]. split; [reflexivity|].
    apply (fetched_same_filter now v None db _
             (fun c => negb (existsb (fun t => id t =? task_id c)
                                     (filter cond (tasks db)))));
      [exact Ht | reflexivity |].
    intros f _ Hp t Hin E. apply negb_false_iff in Hp.
    apply existsb_exists in Hp. destruct Hp as (t0 & Hdel & E0).
    apply filter_In in Hdel. destruct Hdel as [Hin0 Hc0]. apply Z.eqb_eq in E0.
    assert (t = t0).
    { apply (NoDup_map_same id (tasks db)); [exact Hu | auto | auto | congruence]. }
    subst t0. exact (Hcond t Hin Hc0).
  - split; [exact Ht|]. split; [reflexivity|]. split; [reflexivity|].
    apply fetched_same_ledger; [exact Ht | reflexivity].
Qed.

Lemma delete_from_categories_same_view now v cond db :
  well_formed db ->
  (forall c, In c (categories db) -> cond c = true -> cat_user_id c <> v) ->
  same_view now v db (delete_from_categories cond db).
Proof.
  intros Hwf Hcond.
  destruct Hwf as (Hf & Hi & (Hc1 & Hc2) & Hcat & Hq).
  set (db1 := with_categories db (filter (fun c => negb (cond c)) (categories db))).
  assert (Hown : forall t c, In t (tasks db) -> In c (categories db) ->
            cat_id c = category_id t -> cat_user_id c = user_id t).
  { intros t c Hin Hc E. destruct (Hcat t Hin) as (c0 & Hc0 & E0 & Hu0).
    assert (c = c0).
    { apply (NoDup_map_same cat_id (categories db)); auto. congruence. }
    subst c0. exact Hu0. }
  assert (H1 : same_view now v db db1).
  { split; [reflexivity|]. split; [|split; [|reflexivity]].
    - unfold db1. cbn. apply filter_filter_keep. intros c Hin Hv.
      apply String.eqb_eq in Hv. destruct (cond c) eqn:E; [|reflexivity].
      exfalso. exact (Hcond c Hin E Hv).
    - intros t Hu Hin. unfold db1. cbn. apply filter_filter_keep.
      intros c Hc Hm. apply Z.eqb_eq in Hm.
      destruct (cond c) eqn:E; [|reflexivity]. exfalso.
      apply (Hcond c Hc E). rewrite (Hown t c Hin Hc (eq_sym Hm)). exact Hu. }
  unfold delete_from_categories. fold db1.
  destruct (pragma_foreign_keys db); [|exact H1].
  apply (same_view_trans now v db db1); [exact H1|].
  apply delete_from_tasks_same_view; [exact Hi|].
  intros t Hin Hdel. cbn in Hin.
  apply existsb_exists in Hdel. destruct Hdel as (c & Hc & E).
  apply filter_In in Hc. destruct Hc as [Hc Hcc]. apply Z.eqb_eq in E.
  rewrite <- (Hown t c Hin Hc E). exact (Hcond c Hc Hcc).
Qed.

Lemma deleteTask_same_view now u v tid db :
  well_formed db -> u <> v -> same_view now v db (snd (deleteTask u tid db)).
Proof.
  intros Hwf Hne. unfold deleteTask.
  destruct (select_task u tid db) as [found|]; [|apply same_view_refl]. cbn [snd].
  clear found.
  apply delete_from_tasks_same_view; [apply Hwf|].
  intros t _ H. apply andb_prop in H. destruct H as [_ H].
  apply String.eqb_eq in H. congruence.
Qed.

Lemma deleteCategory_same_view now u v cid db :
  well_formed db -> u <> v -> same_view now v db (snd (deleteCategory u cid db)).
Proof.
  intros Hwf Hne. unfold deleteCategory.
  destruct (select_category u cid db) as [found|]; [|apply same_view_refl].
  cbn [snd]. clear found.
  apply (same_view_trans now v db
           (delete_from_tasks
              (fun t => (category_id t =? cid) && (user_id t =? u)%string) db)).
  - apply delete_from_tasks_same_view; [apply Hwf|].
    intros t _ H. apply andb_prop in H. destruct H as [_ H].
    apply String.eqb_eq in H. congruence.
  - apply delete_from_categories_same_view.
    + apply well_formed_delete_from_tasks. exact Hwf.
    + intros c0 _ H. apply andb_prop in H. destruct H as [_ H].
      apply String.eqb_eq in H. congruence.
Qed.

Lemma addCategory_same_view now rowid u v name db :
  well_formed db -> u <> v ->
  same_view now v db (snd (addCategory rowid u name db)).
Proof.
  intros Hwf Hne. unfold addCategory.
  destruct (falsy_text name); [apply same_view_refl|].
  destruct name as [| |n]; try apply same_view_refl.
  destruct (insert_category rowid u n db) as [db'|m] eqn:E.
  2:{ destruct (includes m "UNIQUE constraint"); apply same_view_refl. }
  cbn [snd]. apply insert_category_done in E. destruct E as (-> & Hid & _).
  assert (Hu : (u =? v)%string = false) by (apply String.eqb_neq; exact Hne).
  split; [reflexivity|]. split; [|split; [|reflexivity]].
  - cbn. apply filter_snoc_out. exact Hu.
  - intros t _ Hin. cbn. apply filter_snoc_out. cbn.
    apply Z.eqb_neq. intros E. apply Hid.
    destruct Hwf as (_ & _ & _ & Hcat & _).
    destruct (Hcat t Hin) as (c & Hc & Hcid & _).
    rewrite <- E, <- Hcid. apply in_map. exact Hc.
Qed.

Lemma addTask_same_view now rowid stamp u v body db :
  u <> v -> same_view now v db (snd (addTask rowid stamp u body db)).
Proof.
  intros Hne. unfold addTask.
  destruct (falsy_text (body_title body) || falsy_text (body_frequency body)
            || falsy_number (body_category_id body)); [apply same_view_refl|].
  destruct (body_title body) as [| |ttl]; try apply same_view_refl.
  destruct (body_frequency body) as [| |freq]; try apply same_view_refl.
  destruct (body_category_id body) as [| |c]; try apply same_view_refl.
  destruct (select_category u c db) as [found|]; [|apply same_view_refl].
  clear found.
  destruct (insert_task rowid stamp u ttl freq c
              (finalResetDay freq (body_reset_day body)) db) as [db'|m] eqn:E;
    [|apply same_view_refl].
  cbn [snd]. apply insert_task_done in E. destruct E as (-> & _ & _).
  assert (Hu : (u =? v)%string = false) by (apply String.eqb_neq; exact Hne).
  assert (Ht : filter (fun t => (user_id t =? v)%string)
                 (tasks db ++ [mkTask rowid u ttl freq c
                                 (finalResetDay freq (body_reset_day body)) stamp])
               = filter (fun t => (user_id t =? v)%string) (tasks db)).
  { apply filter_snoc_out. exact Hu. }
  split; [exact Ht|]. split; [reflexivity|]. split; [reflexivity|].
  apply fetched_same_ledger; [exact Ht | reflexivity].
Qed.

Lemma update_rows_other_user cond body rows rows' v :
  update_rows cond body rows = inl rows' ->
  (forall t, cond t = true -> user_id t <> v) ->
  filter (fun t => (user_id t =? v)%string) rows'
  = filter (fun t => (user_id t =? v)%string) rows.
Proof.
  intros H Hcond. revert rows' H.
  induction rows as [|t rest IH]; intros rows' H; cbn in H.
  - injection H as <-. reflexivity.
  - destruct (cond t) eqn:Ec.
    + destruct (set_fields body t) as [t' | m] eqn:Es; [|discriminate].
      destruct (update_rows cond body rest) as [rest' | m]; [|discriminate].
      injection H as <-. cbn. rewrite (IH rest' eq_refl).
      pose proof (set_fields_kept _ _ _ Es) as (_ & Hu & _).
      pose proof (Hcond t Ec) as Hn. rewrite Hu.
      apply String.eqb_neq in Hn. rewrite Hn. reflexivity.
    + destruct (update_rows cond body rest) as [rest' | m]; [|discriminate].
      injection H as <-. cbn. rewrite (IH rest' eq_refl). reflexivity.
Qed.

Lemma editTask_same_view now u v tid body db :
  u <> v -> same_view now v db (snd (editTask now u tid body db)).
Proof.
  intros Hne. unfold editTask.
  destruct (select_task u tid db) as [found|]; [|apply same_view_refl].
  clear found.
  destruct (negb (provided (body_title body)) && negb (provided (body_frequency body))
            && negb (provided (body_reset_day body))); [apply same_view_refl|].
  unfold update_tasks.
  destruct (update_rows _ body (tasks db)) as [rows|m] eqn:Eu; [|apply same_view_refl].
  assert (Ht : filter (fun t => (user_id t =? v)%string) rows
               = filter (fun t => (user_id t =? v)%string) (tasks db)).
  { apply (update_rows_other_user _ _ _ _ v Eu).
    intros t H. apply andb_prop in H. destruct H as [_ H].
    apply String.eqb_eq in H. congruence. }
  assert (Hv : same_view now v db (with_tasks db rows)).
  { split; [exact Ht|]. split; [reflexivity|]. split; [reflexivity|].
    apply fetched_same_ledger; [exact Ht | reflexivity]. }
  destruct (select_task_row tid (with_tasks db rows)); exact Hv.
Qed.

(** X25.  What one user does never shows to another.  On a well-formed
    store, after any request of user [u] (toggle, edit, delete a task,
    delete a category, create a category, create a task), the list of
    tasks with their status and the list of categories that any other
    user [v] gets are exactly what they were before. *)
Theorem other_user_unaffected (now : Date) (rowid : Z) (stamp u v : string)
    (tid cid : Z) (name : Field string) (body : TaskBody)
    (categoryId : option Z) (db : Database) :
  well_formed db -> u <> v ->
  unchanged_for now v categoryId db (snd (toggleTask now u tid db)) /\
  unchanged_for now v categoryId db (snd (editTask now u tid body db)) /\
  unchanged_for now v categoryId db (snd (deleteTask u tid db)) /\
  unchanged_for now v categoryId db (snd (deleteCategory u cid db)) /\
  unchanged_for now v categoryId db (snd (addCategory rowid u name db)) /\
  unchanged_for now v categoryId db (snd (addTask rowid stamp u body db)).
Proof.
  intros Hwf Hne.
  split; [|split; [|split; [|split; [|split]]]];
    apply (getTasks_same_view now v categoryId db).
  all: first
    [ apply toggleTask_same_view; assumption
    | apply editTask_same_view; assumption
    | apply deleteTask_same_view; assumption
    | apply deleteCategory_same_view; assumption
    | apply addCategory_same_view; assumption
    | apply addTask_same_view; assumption ].
Qed.

Lemma store_two_users_well_formed : well_formed store_two_users.
Proof.
  unfold well_formed, unique_facts, unique_task_ids, unique_categories,
    tasks_have_category, checked_frequencies.
  repeat split.
  - repeat constructor; cbn; intuition discriminate.
  - repeat constructor; cbn; intuition discriminate.
  - repeat constructor; cbn; intuition discriminate.
  - repeat constructor; cbn; intuition discriminate.
  - intros t [<- | [<- | []]];
      [exists chores | exists (mkCategory 2 "v" "Work")]; cbn; auto.
  - intros t [<- | [<- | []]]; reflexivity.
Qed.

Lemma other_user_unaffected_witness :
  unchanged_for day_2024_06_15 "v" None store_two_users
    (snd (toggleTask day_2024_06_15 "u" 1 store_two_users)) /\
  unchanged_for day_2024_06_15 "v" None store_two_users
    (snd (editTask day_2024_06_15 "u" 1 body_rename store_two_users)) /\
  unchanged_for day_2024_06_15 "v" None store_two_users
    (snd (deleteTask "u" 1 store_two_users)) /\
  unchanged_for day_2024_06_15 "v" None store_two_users
    (snd (deleteCategory "u" 1 store_two_users)) /\
  unchanged_for day_2024_06_15 "v" None store_two_users
    (snd (addCategory 3 "u" (Value "Garden"%string) store_two_users)) /\
  unchanged_for day_2024_06_15 "v" None store_two_users
    (snd (addTask 3 "2024-06-15 10:00:00" "u" body_rename store_two_users)).
Proof.
  apply (other_user_unaffected day_2024_06_15 3 "2024-06-15 10:00:00" "u" "v"
           1 1 (Value "Garden"%string) body_rename None store_two_users).
  - exact store_two_users_well_formed.
  - discriminate.
Defined.

Example other_user_sees :
  getTasks day_2024_06_15 "v" None store_two_users
  = [((mkTask 2 "v" "send the report" "weekly" 2 (Some 1) "2024-01-03 08:00:00",
       "Work"%string), 1)] /\
  getTasks day_2024_06_15 "u" None store_two_users
  = [((daily_task, "Chores"%string), 1)].
Proof. split; reflexivity. Qed.
